(** * django-chronograph: the job-execution core of [chronograph/models.py]

    A shallow embedding of [Job], [Log] and [JobManager] and the proofs of
    the properties the specification states about them.

    Conventions of the embedding.
    - Text follows Python 2, for which the module was written
      ([command.encode('ascii')] is what [shlex.split] is given): text and byte
      strings are one type, a [string] of 8-bit character codes.  [str] and
      [smart_str] are the identity on it, and what a child process writes can
      be appended to.
    - A Python exception is a [PyExc] value; a computation that can raise
      returns a [Res], and a method that also reads or writes the process
      (clock, output channels, database rows, mail) is a function from the
      [World] to a [Res] and the new [World].
    - What the module imports from other packages and applications (the
      recurrence library, the command runner, the process spawner, the
      templates, the sites and urls, the mail transport) is a field of [Env].
      [str.split], [str.find], [str.replace], [int], [dict] and [shlex.split]
      are defined here.
    - The database is the table of jobs by primary key and the list of logs;
      nothing but [save] writes a job while a method runs. *)

From Stdlib Require Import ZArith String Ascii List Bool Lia.
From stdpp Require Import base option list gmap strings.

Local Open Scope string_scope.
Local Open Scope Z_scope.

(** ** Exceptions and results *)

Record PyExc := mkExc {
  exc_class : string;        (* name of the exception class *)
  exc_is_Exception : bool;   (* subclass of [Exception] (caught by [except Exception]) *)
  exc_msg : string;          (* [str(e)] *)
  exc_traceback : string     (* the lines of [traceback.format_exception], joined *)
}.

Definition ValueError (msg : string) : PyExc := mkExc "ValueError" true msg "".
Definition UnicodeEncodeError (msg : string) : PyExc := mkExc "UnicodeEncodeError" true msg "".
Definition UnboundLocalError (msg : string) : PyExc := mkExc "UnboundLocalError" true msg "".
Definition DoesNotExist (msg : string) : PyExc := mkExc "DoesNotExist" true msg "".

Inductive Res (A : Type) : Type :=
| Ok (a : A)
| Raise (e : PyExc).
Arguments Ok {A} a.
Arguments Raise {A} e.

Definition res_bind {A B} (r : Res A) (k : A -> Res B) : Res B :=
  match r with
  | Ok a => k a
  | Raise e => Raise e
  end.

Declare Scope res_scope.
Delimit Scope res_scope with res.
Notation "'let?' x := e 'in' k" := (res_bind e (fun x => k))
  (at level 10, x binder, e at level 100, k at level 200) : res_scope.

Local Open Scope res_scope.

(** [[f(x) for x in l]] *)
Fixpoint res_map {A B} (f : A -> Res B) (l : list A) : Res (list B) :=
  match l with
  | [] => Ok []
  | x :: l' =>
      let? y := f x in
      let? ys := res_map f l' in
      Ok (y :: ys)
  end.

(** ** Python string primitives *)

Module PyStr.

(** [s.split(sep)] for a one-character separator: never empty. *)
Fixpoint split_on (sep : ascii) (s : string) : list string :=
  match s with
  | EmptyString => [""]
  | String c s' =>
      if Ascii.eqb c sep then "" :: split_on sep s'
      else match split_on sep s' with
           | h :: t => String c h :: t
           | [] => [String c ""]
           end
  end.

(** The characters [str.split()] and [str.strip()] treat as white space, among
    the codes below 256. *)
Definition is_space (c : ascii) : bool :=
  let n := nat_of_ascii c in
  ((9 <=? n) && (n <=? 13) || (28 <=? n) && (n <=? 32) || (n =? 133) || (n =? 160))%nat.

(** [s.split()]: the maximal runs of characters that are not white space. *)
Fixpoint split_ws_from (tok : string) (s : string) : list string :=
  match s with
  | EmptyString => if String.eqb tok "" then [] else [tok]
  | String c s' =>
      if is_space c then
        (if String.eqb tok "" then split_ws_from "" s' else tok :: split_ws_from "" s')
      else split_ws_from (tok ++ String c "") s'
  end.

Definition split_ws (s : string) : list string := split_ws_from "" s.

(** [s.find(c)]: the index of the first occurrence, or -1. *)
Fixpoint find_char (c : ascii) (s : string) : Z :=
  match s with
  | EmptyString => -1
  | String d s' =>
      if Ascii.eqb d c then 0
      else let i := find_char c s' in if i <? 0 then -1 else i + 1
  end.

(** [s.replace(c, r)] for a one-character pattern. *)
Fixpoint replace_char (c : ascii) (r : string) (s : string) : string :=
  match s with
  | EmptyString => ""
  | String d s' => (if Ascii.eqb d c then r else String d "") ++ replace_char c r s'
  end.

Fixpoint lstrip (s : string) : string :=
  match s with
  | String c s' => if is_space c then lstrip s' else s
  | EmptyString => ""
  end.

Fixpoint rstrip (s : string) : string :=
  match s with
  | EmptyString => ""
  | String c s' =>
      match rstrip s' with
      | EmptyString => if is_space c then "" else String c ""
      | t => String c t
      end
  end.

Definition strip (s : string) : string := rstrip (lstrip s).

Definition digit_value (c : ascii) : option Z :=
  let n := nat_of_ascii c in
  if ((48 <=? n) && (n <=? 57))%nat then Some (Z.of_nat n - 48) else None.

(** The value of a run of decimal digits read after the prefix worth [acc]. *)
Fixpoint digits_from (acc : Z) (s : string) : option Z :=
  match s with
  | EmptyString => Some acc
  | String c s' =>
      match digit_value c with
      | Some d => digits_from (10 * acc + d) s'
      | None => None
      end
  end.

Definition digits (s : string) : option Z :=
  match s with
  | EmptyString => None
  | _ => digits_from 0 s
  end.

(** [int(s)] in base 10: white space around, an optional sign, at least one
    decimal digit. *)
Definition int (s : string) : Res Z :=
  let bad := Raise (ValueError ("invalid literal for int() with base 10: " ++ s)) in
  match strip s with
  | String "+" d => match digits d with Some z => Ok z | None => bad end
  | String "-" d => match digits d with Some z => Ok (- z) | None => bad end
  | d => match digits d with Some z => Ok z | None => bad end
  end.

(** ["%d" % n] *)
Fixpoint pos_digits_fuel (fuel : nat) (n : Z) (acc : string) : string :=
  match fuel with
  | O => acc
  | S fuel' =>
      let acc' := String (ascii_of_nat (Z.to_nat (48 + n mod 10))) acc in
      if n <? 10 then acc' else pos_digits_fuel fuel' (n / 10) acc'
  end.

Definition format_d (n : Z) : string :=
  let m := Z.abs n in
  let body := pos_digits_fuel (S (Z.to_nat (Z.log2 m))) m "" in
  if n <? 0 then String "-" body else body.

(** Number of occurrences of a character. *)
Fixpoint count_char (c : ascii) (s : string) : nat :=
  match s with
  | EmptyString => O
  | String d s' => ((if Ascii.eqb d c then 1 else 0) + count_char c s')%nat
  end.

(** The parts before and after the first occurrence of [c] (the whole string
    and nothing when there is none). *)
Fixpoint partition_at (c : ascii) (s : string) : string * string :=
  match s with
  | EmptyString => ("", "")
  | String d s' =>
      if Ascii.eqb d c then ("", s')
      else let '(a, b) := partition_at c s' in (String d a, b)
  end.

End PyStr.

(** [dict(pairs)]: a later pair replaces an earlier one with the same key. *)
Definition py_dict {V} (pairs : list (string * V)) : gmap string V :=
  foldl (fun m p => <[p.1 := p.2]> m) ∅ pairs.

(** ** Recurrence parameters: [Job.get_params] *)

Inductive ParamVal :=
| PInt (z : Z)
| PList (l : list Z).

Abbreviation ParamMap := (gmap string ParamVal).

(** The body of the loop of [get_params] for one token: the pair it appends
    to [param_dict], if any. *)
Definition get_params_token (param : string) : Res (option (string * ParamVal)) :=
  match PyStr.split_on ":" param with
  | [k; v] =>
      let? vals := res_map PyStr.int (PyStr.split_on "," v) in
      match vals with
      | [z] => Ok (Some (k, PInt z))
      | _ => Ok (Some (k, PList vals))
      end
  | _ => Ok None
  end.

Fixpoint get_params_loop (params : list string) (param_dict : list (string * ParamVal))
  : Res (list (string * ParamVal)) :=
  match params with
  | [] => Ok param_dict
  | param :: rest =>
      let? r := get_params_token param in
      match r with
      | Some p => get_params_loop rest (param_dict ++ [p])
      | None => get_params_loop rest param_dict
      end
  end.

(** [Job.get_params], given the field [params] it reads. *)
Definition get_params (params : option string) : Res ParamMap :=
  match params with
  | None => Ok ∅
  | Some text =>
      let? param_dict := get_params_loop (PyStr.split_on ";" text) [] in
      Ok (py_dict param_dict)
  end.

(** ** Command arguments: [Job.get_args] *)

(** The loop of [get_args] over the tokens, with [args] and [options] as
    built so far. *)
Fixpoint get_args_loop (toks : list string) (args : list string) (options : gmap string string)
  : Res (list string * gmap string string) :=
  match toks with
  | [] => Ok (args, options)
  | arg :: rest =>
      if PyStr.find_char "=" arg >? -1 then
        match PyStr.split_on "=" arg with
        | [key; value] => get_args_loop rest args (<[key := value]> options)
        | _ => Raise (ValueError "too many values to unpack")
        end
      else get_args_loop rest (args ++ [arg]) options
  end.

(** [Job.get_args], given the field [args] it reads. *)
Definition get_args (args : string) : Res (list string * gmap string string) :=
  get_args_loop (PyStr.split_ws args) [] ∅.

(** ** The data model: [User], [Job], [Log] *)

Abbreviation Time := Z.

Record User := mkUser {
  username : string;
  email : string;
  full_name : string   (* what [get_full_name()] returns *)
}.

Record Job := mkJob {
  id : Z;
  name : string;
  frequency : string;
  params : option string;
  command : string;
  shell_command : string;
  run_in_shell : bool;
  args : string;
  disabled : bool;
  next_run : option Time;
  last_run : option Time;
  is_running : bool;
  last_run_successful : bool;
  info_subscribers : list User;
  subscribers : list User
}.

Definition set_next_run (v : option Time) (j : Job) : Job :=
  mkJob (id j) (name j) (frequency j) (params j) (command j) (shell_command j)
        (run_in_shell j) (args j) (disabled j) v (last_run j) (is_running j)
        (last_run_successful j) (info_subscribers j) (subscribers j).

Definition set_last_run (v : option Time) (j : Job) : Job :=
  mkJob (id j) (name j) (frequency j) (params j) (command j) (shell_command j)
        (run_in_shell j) (args j) (disabled j) (next_run j) v (is_running j)
        (last_run_successful j) (info_subscribers j) (subscribers j).

Definition set_is_running (v : bool) (j : Job) : Job :=
  mkJob (id j) (name j) (frequency j) (params j) (command j) (shell_command j)
        (run_in_shell j) (args j) (disabled j) (next_run j) (last_run j) v
        (last_run_successful j) (info_subscribers j) (subscribers j).

Definition set_last_run_successful (v : bool) (j : Job) : Job :=
  mkJob (id j) (name j) (frequency j) (params j) (command j) (shell_command j)
        (run_in_shell j) (args j) (disabled j) (next_run j) (last_run j) (is_running j)
        v (info_subscribers j) (subscribers j).

Record Log := mkLog {
  log_id : Z;
  job : Job;
  run_date : Time;
  end_date : option Time;
  stdout : string;
  stderr : string;
  success : bool
}.

(** [Log.get_duration] *)
Definition get_duration (self : Log) : option Z :=
  match end_date self with
  | Some e => Some (e - run_date self)
  | None => None
  end.

(** ** The process: clock, output channels, database, mail *)

(** What [sys.stdout] or [sys.stderr] is bound to: one of the two channels the
    process started with, or a [StringIO] object. *)
Inductive Stream :=
| Console (is_err : bool)
| StringIO (n : nat).

Record Mail := mkMail {
  from_email : string;
  recipient_list : list string;
  subject : string;
  message : string
}.

Record World := mkWorld {
  clock : Time;                 (* what [now()] returns *)
  sys_stdout : Stream;
  sys_stderr : Stream;
  buffers : list string;        (* the contents of the [StringIO] objects *)
  console_out : string;         (* text written to the original channels *)
  console_err : string;
  jobs : gmap Z Job;            (* the rows of [Job.objects], by primary key *)
  logs : list Log;              (* the rows of [Log.objects], oldest first *)
  outbox : list Mail            (* the messages [send_mail] has sent *)
}.

Definition with_clock (v : Time) (w : World) : World :=
  mkWorld v (sys_stdout w) (sys_stderr w) (buffers w) (console_out w) (console_err w)
          (jobs w) (logs w) (outbox w).
Definition with_sys_stdout (v : Stream) (w : World) : World :=
  mkWorld (clock w) v (sys_stderr w) (buffers w) (console_out w) (console_err w)
          (jobs w) (logs w) (outbox w).
Definition with_sys_stderr (v : Stream) (w : World) : World :=
  mkWorld (clock w) (sys_stdout w) v (buffers w) (console_out w) (console_err w)
          (jobs w) (logs w) (outbox w).
Definition with_buffers (v : list string) (w : World) : World :=
  mkWorld (clock w) (sys_stdout w) (sys_stderr w) v (console_out w) (console_err w)
          (jobs w) (logs w) (outbox w).
Definition with_console_out (v : string) (w : World) : World :=
  mkWorld (clock w) (sys_stdout w) (sys_stderr w) (buffers w) v (console_err w)
          (jobs w) (logs w) (outbox w).
Definition with_console_err (v : string) (w : World) : World :=
  mkWorld (clock w) (sys_stdout w) (sys_stderr w) (buffers w) (console_out w) v
          (jobs w) (logs w) (outbox w).
Definition with_jobs (v : gmap Z Job) (w : World) : World :=
  mkWorld (clock w) (sys_stdout w) (sys_stderr w) (buffers w) (console_out w) (console_err w)
          v (logs w) (outbox w).
Definition with_logs (v : list Log) (w : World) : World :=
  mkWorld (clock w) (sys_stdout w) (sys_stderr w) (buffers w) (console_out w) (console_err w)
          (jobs w) v (outbox w).
Definition with_outbox (v : list Mail) (w : World) : World :=
  mkWorld (clock w) (sys_stdout w) (sys_stderr w) (buffers w) (console_out w) (console_err w)
          (jobs w) (logs w) v.

(** The monad of methods: a result or a raised exception, and the process
    after either. *)
Definition M (A : Type) : Type := World -> Res A * World.

Definition ret {A} (a : A) : M A := fun w => (Ok a, w).
Definition raise {A} (e : PyExc) : M A := fun w => (Raise e, w).
Definition lift {A} (r : Res A) : M A := fun w => (r, w).
Definition bind {A B} (m : M A) (k : A -> M B) : M B :=
  fun w => match m w with
           | (Ok a, w') => k a w'
           | (Raise e, w') => (Raise e, w')
           end.

(** [try: body / except Exception as e: handler e] *)
Definition try_except {A} (body : M A) (handler : PyExc -> M A) : M A :=
  fun w => match body w with
           | (Raise e, w') => if exc_is_Exception e then handler e w' else (Raise e, w')
           | r => r
           end.

(** Runs [body] and hands its outcome to the code that follows, as the
    [finally] clause of a [try] sees it. *)
Definition attempt {A} (body : M A) : M (Res A) :=
  fun w => let '(r, w') := body w in (Ok r, w').

Declare Scope py_scope.
Delimit Scope py_scope with py.
Notation "'let*' x := e 'in' k" := (bind e (fun x => k))
  (at level 10, x binder, e at level 100, k at level 200) : py_scope.
Notation "e ;; k" := (bind e (fun _ => k))
  (at level 100, k at level 200, right associativity) : py_scope.
Local Open Scope py_scope.

(** [now()] *)
Definition now : M Time := fun w => (Ok (clock w), w).

(** Appends [text] to what stream [s] holds. *)
Definition write (s : Stream) (text : string) (w : World) : World :=
  match s with
  | Console false => with_console_out (console_out w ++ text) w
  | Console true => with_console_err (console_err w ++ text) w
  | StringIO n => with_buffers (alter (fun old => old ++ text) n (buffers w)) w
  end.

(** [StringIO()] and [.getvalue()] *)
Definition new_StringIO : M nat :=
  fun w => (Ok (length (buffers w)), with_buffers (buffers w ++ [""]) w).
Definition getvalue (n : nat) : M string :=
  fun w => (Ok (default "" (buffers w !! n)), w).

Definition get_sys_stdout : M Stream := fun w => (Ok (sys_stdout w), w).
Definition get_sys_stderr : M Stream := fun w => (Ok (sys_stderr w), w).
Definition set_sys_stdout (s : Stream) : M unit := fun w => (Ok tt, with_sys_stdout s w).
Definition set_sys_stderr (s : Stream) : M unit := fun w => (Ok tt, with_sys_stderr s w).

(** ** [JobManager]: [Job.objects] *)

(** A [__lte] lookup on a nullable column: a NULL never matches. *)
Definition lookup_lte (column : option Time) (v : Time) : bool :=
  match column with
  | Some t => t <=? v
  | None => false
  end.

(** [JobManager.due]: [filter(next_run__lte=now(), disabled=False, is_running=False)] *)
Definition due (w : World) : list Job :=
  filter (fun j => lookup_lte (next_run j) (clock w) && negb (disabled j) && negb (is_running j) = true)
         (snd <$> map_to_list (jobs w)).

(** [Job.objects.get(id=...)] *)
Definition objects_get (pk : Z) : M Job :=
  fun w => match jobs w !! pk with
           | Some j => (Ok j, w)
           | None => (Raise (DoesNotExist "Job matching query does not exist."), w)
           end.

(** [models.Model.save]: writes the row. *)
Definition Model_save (self : Job) : M Job :=
  fun w => (Ok self, with_jobs (<[id self := self]> (jobs w)) w).

(** ** What the module imports *)

(** The frequency constants of [dateutil.rrule]. *)
Inductive Freq := YEARLY | MONTHLY | WEEKLY | DAILY | HOURLY | MINUTELY | SECONDLY.

(** An attribute of the module [dateutil.rrule]: a frequency constant, or
    something else the module defines under that name. *)
Inductive RAttr :=
| AFreq (f : Freq)
| AOther (attr_name : string).

(** What [call_command] does when invoked: the text it writes to [sys.stdout]
    and to [sys.stderr], the time it takes, and the exception it ends with, if
    any. *)
Record CmdRun := mkCmdRun {
  cmd_stdout : string;
  cmd_stderr : string;
  cmd_elapsed : Z;
  cmd_raises : option PyExc
}.

(** The first argument of [subprocess.Popen]: an argument vector or a line
    for the shell. *)
Inductive PopenCommand :=
| ArgVector (argv : list string)
| ShellLine (line : string).

(** What [Popen(...)] followed by [communicate()] does: the child runs and
    exits, or an exception is raised. *)
Inductive ProcResult :=
| Exited (out err : string) (returncode : Z)
| SpawnRaises (e : PyExc).

Record ProcRun := mkProcRun {
  proc_result : ProcResult;
  proc_elapsed : Z
}.

(** The context the two message templates are rendered with. *)
Record MailContext := mkMailContext {
  ctx_log : Log;
  ctx_info_output : string;
  ctx_error_output : string;
  ctx_EMAIL_SUBJECT_PREFIX : string
}.

Record Env := mkEnv {
  (* dateutil.rrule *)
  rrule_getattr : string -> option RAttr;   (* the attributes of the module, by name *)
  rrule_iter : RAttr -> option Time -> ParamMap -> Res (list Time);
      (* [rrule.rrule(freq, dtstart=..., **params)] and its occurrences in order
         (finitely many: dates end with year 9999); without a [dtstart] the
         library reads the wall clock itself, a case [save] and [run] never reach *)
  (* django.core.management, subprocess *)
  call_command : string -> list string -> gmap string string -> World -> CmdRun;
  Popen : PopenCommand -> bool -> World -> ProcRun;
  (* templates of the application *)
  traceback_txt : string -> string -> string;
  message_subject_txt : MailContext -> string;
  message_body_txt : MailContext -> string;
  (* sites, urls, settings, mail *)
  current_site : string;
  reverse_log_change : Z -> string;
  EMAIL_SUBJECT_PREFIX : string;
  DEFAULT_FROM_EMAIL : string;
  mail_transport : Mail -> World -> option PyExc   (* the error the backend raises, if any *)
}.

Definition dquote : string := String (ascii_of_nat 34) "".
Definition backslash : string := String (ascii_of_nat 92) "".
Definition newline : string := String (ascii_of_nat 10) "".

(** [_escape_shell_command] *)
Definition _escape_shell_command (command : string) : string :=
  fold_left (fun command n => PyStr.replace_char n (backslash ++ String n "") command)
            ["`"%char; "$"%char; ascii_of_nat 34] command.

(** [command.encode('ascii')] *)
Fixpoint is_ascii (s : string) : bool :=
  match s with
  | EmptyString => true
  | String c s' => (nat_of_ascii c <? 128)%nat && is_ascii s'
  end.

Definition encode_ascii (s : string) : Res string :=
  if is_ascii s then Ok s
  else Raise (UnicodeEncodeError "'ascii' codec can't encode character: ordinal not in range(128)").

(** [shlex.split(line)]: the lexer of [shlex] in POSIX mode, splitting on white
    space only, with no comment characters. *)
Module Shlex.

Inductive State :=
| Blank                            (* [' ']: between tokens *)
| Word                             (* ['a']: inside a token *)
| Quote (q : ascii)                (* inside a quotation opened by [q] *)
| Escape (escapedstate : option ascii).
    (* after the escape character; the state to return to is [Word], or the
       quotation it was read in *)

Definition is_whitespace (c : ascii) : bool :=
  let n := nat_of_ascii c in ((n =? 32) || (n =? 9) || (n =? 13) || (n =? 10))%nat.
Definition is_quote (c : ascii) : bool :=
  let n := nat_of_ascii c in ((n =? 39) || (n =? 34))%nat.
Definition is_escape (c : ascii) : bool := (nat_of_ascii c =? 92)%nat.
Definition is_escapedquote (c : ascii) : bool := (nat_of_ascii c =? 34)%nat.

Definition add (token : string) (c : ascii) : string := token ++ String c "".

Fixpoint read (state : State) (quoted : bool) (token : string) (s : string)
  : Res (list string) :=
  match s with
  | EmptyString =>
      match state with
      | Blank => Ok []
      | Word => Ok (if negb (String.eqb token "") || quoted then [token] else [])
      | Quote _ => Raise (ValueError "No closing quotation")
      | Escape _ => Raise (ValueError "No escaped character")
      end
  | String c s' =>
      match state with
      | Blank =>
          if is_whitespace c then read Blank false "" s'
          else if is_escape c then read (Escape None) false "" s'
          else if is_quote c then read (Quote c) true "" s'
          else read Word false (String c "") s'
      | Quote q =>
          if Ascii.eqb c q then read Word true token s'
          else if is_escape c && is_escapedquote q then read (Escape (Some q)) true token s'
          else read (Quote q) true (add token c) s'
      | Escape escapedstate =>
          match escapedstate with
          | Some q =>
              let token := if negb (is_escape c) && negb (Ascii.eqb c q)
                           then add token (ascii_of_nat 92) else token in
              read (Quote q) quoted (add token c) s'
          | None => read Word quoted (add token c) s'
          end
      | Word =>
          if is_whitespace c then
            (if negb (String.eqb token "") || quoted
             then let? rest := read Blank false "" s' in Ok (token :: rest)
             else read Blank false "" s')
          else if is_quote c then read (Quote c) true token s'
          else if is_escape c then read (Escape None) quoted token s'
          else read Word quoted (add token c) s'
      end
  end.

Definition split (line : string) : Res (list string) := read Blank false "" line.

End Shlex.

(** [rrule.after(dt)] (with [inc=False]): the first occurrence later than [dt]. *)
Definition rrule_after (occurrences : list Time) (dt : Time) : option Time :=
  List.find (fun i => dt <? i) occurrences.

Section Methods.

Variable env : Env.

(** *** [Job] *)

(** [_get_exception_string] *)
Definition _get_exception_string (e : PyExc) : string :=
  traceback_txt env (exc_msg e) (exc_traceback e).

(** [get_rrule]: the occurrences of the rule of this job. *)
Definition get_rrule (self : Job) : Res (list Time) :=
  let frequency := default (AFreq DAILY) (rrule_getattr env (frequency self)) in
  let? kw := get_params (params self) in
  rrule_iter env frequency (last_run self) kw.

(** [self.rrule.after(dt)] *)
Definition rrule_after_of (self : Job) (dt : option Time) : Res (option Time) :=
  let? occurrences := get_rrule self in
  match dt with
  | Some t => Ok (rrule_after occurrences t)
  | None => match occurrences with
            | [] => Ok None
            | _ => Raise (mkExc "TypeError" true "can't compare datetime.datetime to NoneType" "")
            end
  end.

(** [Job.save] *)
Definition save (self : Job) : M Job :=
  let* self :=
    (if negb (disabled self) then
       let* self :=
         (match last_run self with
          | None => let* t := now in ret (set_last_run (Some t) self)
          | Some _ => ret self
          end) in
       match next_run self with
       | None => let* r := lift (rrule_after_of self (last_run self)) in
                 ret (set_next_run r self)
       | Some _ => ret self
       end
     else ret (set_next_run None self)) in
  Model_save self.

(** [get_args] on the arguments of this job. *)
Definition Job_get_args (self : Job) : Res (list string * gmap string string) :=
  get_args (args self).

(** The call of [call_command]: the command writes to whatever [sys.stdout]
    and [sys.stderr] are bound to (it does not rebind them), then returns or
    raises. *)
Definition do_call_command (cmd : string) (args : list string) (options : gmap string string)
  : M unit :=
  fun w =>
    let r := call_command env cmd args options w in
    let w1 := write (sys_stdout w) (cmd_stdout r) w in
    let w2 := write (sys_stderr w1) (cmd_stderr r) w1 in
    let w3 := with_clock (clock w2 + cmd_elapsed r) w2 in
    match cmd_raises r with
    | None => (Ok tt, w3)
    | Some e => (Raise e, w3)
    end.

(** [run_management_command].  [get_args] is called before the [try]; the
    two assignments that restore the channels follow it. *)
Definition run_management_command (self : Job) : M (bool * string * string) :=
  let* '(args, options) := lift (Job_get_args self) in
  let* stdout := new_StringIO in
  let* stderr := new_StringIO in
  let* ostdout := get_sys_stdout in
  let* ostderr := get_sys_stderr in
  set_sys_stdout (StringIO stdout) ;;
  set_sys_stderr (StringIO stderr) ;;
  let* '(successful, exception_str) :=
    try_except
      (do_call_command (command self) args options ;; ret (true, ""))
      (fun e => ret (false, _get_exception_string e)) in
  set_sys_stdout ostdout ;;
  set_sys_stderr ostderr ;;
  let* stdout_str := getvalue stdout in
  let* stderr_str := getvalue stderr in
  ret (successful, stdout_str, stderr_str ++ exception_str).

(** [subprocess.Popen(...)] and [proc.communicate()] *)
Definition do_Popen (command : PopenCommand) (shell : bool) : M (string * string * Z) :=
  fun w =>
    let r := Popen env command shell w in
    let w1 := with_clock (clock w + proc_elapsed r) w in
    match proc_result r with
    | Exited out err code => (Ok (out, err, code), w1)
    | SpawnRaises e => (Raise e, w1)
    end.

(** The first lines of [run_shell_command]: what is handed to [Popen].
    ([self.args or ''] is [self.args], a string.) *)
Definition popen_command (self : Job) : Res PopenCommand :=
  let command := shell_command self ++ " " ++ args self in
  if run_in_shell self then Ok (ShellLine (_escape_shell_command command))
  else let? bytes := encode_ascii command in
       let? argv := Shlex.split bytes in
       Ok (ArgVector argv).

(** The line appended to what the child wrote to its standard error when it
    ends with a return code other than zero. *)
Definition return_code_notice (returncode : Z) : string :=
  newline ++ newline ++ "*** Process ended with return code "
          ++ PyStr.format_d returncode ++ newline ++ newline.

(** [run_shell_command].  When [Popen] raises, [stdout_str] and [stderr_str]
    still hold the empty strings they were initialised with. *)
Definition run_shell_command (self : Job) : M (bool * string * string) :=
  let* command := lift (popen_command self) in
  try_except
    (let* '(stdout_str, stderr_str, returncode) := do_Popen command (run_in_shell self) in
     let stderr_str :=
       if negb (returncode =? 0) then stderr_str ++ return_code_notice returncode
       else stderr_str in
     ret (returncode =? 0, stdout_str, stderr_str))
    (fun e => ret (false, "", "" ++ _get_exception_string e)).

(** *** [Log] *)

(** [send_mail]: the backend sends the message or raises. *)
Definition send_mail (m : Mail) : M unit :=
  fun w => match mail_transport env m w with
           | None => (Ok tt, with_outbox (outbox w ++ [m]) w)
           | Some e => (Raise e, w)
           end.

(** The loop of [email_subscribers] over the chosen subscribers. *)
Definition format_subscriber (user : User) : string :=
  if negb (String.eqb (full_name user) "") then
    dquote ++ full_name user ++ dquote ++ " <" ++ email user ++ ">"
  else dquote ++ username user ++ dquote ++ " <" ++ email user ++ ">".

(** [Log.email_subscribers] *)
Definition email_subscribers (self : Log) (is_info : bool) : M unit :=
  let '(subscriber_set, info_output) :=
    if is_info then (info_subscribers (job self), stdout self)
    else (subscribers (job self),
          "http://" ++ current_site env ++ reverse_log_change env (log_id self)) in
  let subscribers := map format_subscriber subscriber_set in
  let c := mkMailContext self info_output (stderr self) (EMAIL_SUBJECT_PREFIX env) in
  let message_subject := message_subject_txt env c in
  let message_body := message_body_txt env c in
  send_mail (mkMail (DEFAULT_FROM_EMAIL env) subscribers message_subject message_body).

(** [Log.objects.create(...)]: the new row gets the next primary key. *)
Definition Log_objects_create (job : Job) (run_date : Time) (end_date : Time)
    (stdout stderr : string) (success : bool) : M Log :=
  fun w =>
    let log := mkLog (Z.of_nat (S (length (logs w)))) job run_date (Some end_date)
                     stdout stderr success in
    (Ok log, with_logs (logs w ++ [log]) w).

(** *** [Job.run] *)

(** The [finally] clause of [run].  [successful] is bound only when the
    command method returned. *)
Definition run_finally (self : Job) (successful : option bool) : M Job :=
  let* self := objects_get (id self) in
  match successful with
  | None => raise (UnboundLocalError "local variable 'successful' referenced before assignment")
  | Some successful =>
      save (set_is_running false (set_last_run_successful successful self))
  end.

(** [Job.run]; [save_] is the argument [save]. *)
Definition run (self : Job) (save_ : bool) : M unit :=
  let* run_date := now in
  let* self := save (set_is_running true self) in
  let* outcome :=
    attempt (if negb (String.eqb (shell_command self) "") then run_shell_command self
             else run_management_command self) in
  let* self :=
    run_finally self (match outcome with Ok (successful, _, _) => Some successful | Raise _ => None end) in
  let* '(successful, stdout_str, stderr_str) := lift outcome in
  let* self :=
    (if save_ then
       let self := set_last_run (Some run_date) self in
       let* r := lift (rrule_after_of self (Some run_date)) in
       save (set_next_run r self)
     else ret self) in
  let* end_date := now in
  let* log := Log_objects_create self run_date end_date stdout_str stderr_str
                                 (last_run_successful self) in
  if negb (last_run_successful self) then email_subscribers log false
  else if negb (String.eqb stdout_str "") || negb (String.eqb stderr_str "")
       then email_subscribers log true
       else ret tt.

(** The next occurrence of the rule of a job after a reference time, as
    [run] computes it (lines [self.last_run = run_date] and
    [self.next_run = self.rrule.after(run_date)]). *)
Definition NextOccurrence (self : Job) (after : Time) : Res (option Time) :=
  rrule_after_of (set_last_run (Some after) self) (Some after).

End Methods.


(** ** The specification's reading of the parameter string

    [ParseParams] follows the words of the specification: the text is a
    [;]-separated list of tokens; a token with exactly one [:] is
    [key:v1,v2,...] with integer values, a single value standing for itself
    and several for their list; any other token is dropped. *)

Definition exactly_one_colon (token : string) : bool :=
  Nat.eqb (PyStr.count_char ":" token) 1.

Definition collapse (vals : list Z) : ParamVal :=
  match vals with
  | [z] => PInt z
  | _ => PList vals
  end.

Definition ParseToken (token : string) : Res (string * ParamVal) :=
  let '(key, values) := PyStr.partition_at ":" token in
  let? vals := res_map PyStr.int (PyStr.split_on "," values) in
  Ok (key, collapse vals).

Definition ParseParams (text : string) : Res ParamMap :=
  let? pairs := res_map ParseToken (List.filter exactly_one_colon (PyStr.split_on ";" text)) in
  Ok (py_dict pairs).

(** ** The specification's reading of the argument string

    [ParseArgs] follows the words of the specification: the text is split on
    white space; a token containing [=] is a key/value option, split at its
    first [=]; the other tokens are the positional arguments. *)

Definition contains_equals (token : string) : bool :=
  negb (Nat.eqb (PyStr.count_char "=" token) 0).

Definition ParseArgs (text : string) : list string * gmap string string :=
  let tokens := PyStr.split_ws text in
  (List.filter (fun t => negb (contains_equals t)) tokens,
   py_dict (map (PyStr.partition_at "=") (List.filter contains_equals tokens))).

(** ** Vocabulary of the statements *)

(** The process as the management command sees it when [run_management_command]
    invokes it: two fresh [StringIO] objects, and [sys.stdout] and [sys.stderr]
    bound to them. *)
Definition redirected (w : World) : World :=
  mkWorld (clock w) (StringIO (length (buffers w))) (StringIO (S (length (buffers w))))
          (buffers w ++ [""; ""]) (console_out w) (console_err w)
          (jobs w) (logs w) (outbox w).

(** The fields of a job that [save] and [run] leave alone. *)
Definition settings (j : Job) :=
  (id j, name j, frequency j, params j, command j, shell_command j, run_in_shell j,
   args j, disabled j, info_subscribers j, subscribers j).

(** The recurrence library accepts the rule of the job, whatever the start. *)
Definition recurrence_ok (env : Env) (self : Job) : Prop :=
  exists kw,
    get_params (params self) = Ok kw
    /\ forall dtstart, exists occurrences,
         rrule_iter env (default (AFreq DAILY) (rrule_getattr env (frequency self)))
                    (Some dtstart) kw = Ok occurrences.

(** The command of the job can be started: its arguments parse (its command
    line can be built), and what the command runner (the process spawner)
    raises, if anything, is an [Exception]. *)
Definition command_ok (env : Env) (self : Job) : Prop :=
  if String.eqb (shell_command self) "" then
    (exists a, get_args (args self) = Ok a)
    /\ (forall a o w e, cmd_raises (call_command env (command self) a o w) = Some e ->
                       exc_is_Exception e = true)
  else
    (exists c, popen_command self = Ok c)
    /\ (forall c sh w e, proc_result (Popen env c sh w) = SpawnRaises e ->
                        exc_is_Exception e = true).

(** The command method [run] chooses for a job. *)
Definition command_method (env : Env) (self : Job) : M (bool * string * string) :=
  if negb (String.eqb (shell_command self) "") then run_shell_command env self
  else run_management_command env self.

(** What a command method leaves alone. *)
Definition same_records (w w' : World) : Prop :=
  jobs w' = jobs w /\ logs w' = logs w /\ outbox w' = outbox w.

(** The ways [run] can end before it creates the [Log]: a [save] raises, the
    command method raises, or the recurrence library rejects the rule. *)
Definition run_fails_early (env : Env) (self : Job) (e : PyExc) : Prop :=
  (exists j w0 w1, settings j = settings self /\ save env j w0 = (Raise e, w1))
  \/ (exists j w0 e' w1,
        settings j = settings self /\ command_method env j w0 = (Raise e', w1))
  \/ (exists j t, settings j = settings self /\ last_run j = Some t
                  /\ rrule_after_of env j (Some t) = Raise e).

(** ** Sample collaborators

    Concrete instances of what [Env] stands for, used to run the methods on
    concrete jobs.  Times are whole seconds here. *)

Module Sample.

(** The public names of [dateutil.rrule]. *)
Definition getattr (attr : string) : option RAttr :=
  if String.eqb attr "YEARLY" then Some (AFreq YEARLY)
  else if String.eqb attr "MONTHLY" then Some (AFreq MONTHLY)
  else if String.eqb attr "WEEKLY" then Some (AFreq WEEKLY)
  else if String.eqb attr "DAILY" then Some (AFreq DAILY)
  else if String.eqb attr "HOURLY" then Some (AFreq HOURLY)
  else if String.eqb attr "MINUTELY" then Some (AFreq MINUTELY)
  else if String.eqb attr "SECONDLY" then Some (AFreq SECONDLY)
  else if existsb (String.eqb attr)
            ["MO"; "TU"; "WE"; "TH"; "FR"; "SA"; "SU"; "rrule"; "rruleset"; "rrulestr";
             "weekday"; "weekdays"]
       then Some (AOther attr)
       else None.

(** The length in seconds of the period of a frequency, for the frequencies
    whose period has a fixed length. *)
Definition period (f : Freq) : option Z :=
  match f with
  | WEEKLY => Some 604800
  | DAILY => Some 86400
  | HOURLY => Some 3600
  | MINUTELY => Some 60
  | SECONDLY => Some 1
  | YEARLY | MONTHLY => None
  end.

(** The last second of year 9999, counted from 1970. *)
Definition MAXTIME : Z := 253402300799.

Definition unsupported (what : string) : PyExc :=
  mkExc "NotImplementedError" true what "".

(** The occurrences of a rule made of a fixed-length frequency, [interval]
    and [count]: [dtstart], then every [interval] periods, [count] times at
    most.  This sample rejects any other rule. *)
Definition rrule (freq : RAttr) (dtstart : option Time) (kw : ParamMap) : Res (list Time) :=
  match freq, dtstart with
  | AFreq f, Some d =>
      match period f with
      | Some p =>
          if bool_decide (dom kw ⊆ ({["interval"; "count"]} : gset string)) then
            match default (PInt 1) (kw !! "interval") with
            | PInt i =>
                if 1 <=? i then
                  let upto := (MAXTIME - d) `div` (p * i) + 1 in
                  match kw !! "count" with
                  | None => Ok ((fun k => d + k * (p * i)) <$> seqZ 0 upto)
                  | Some (PInt c) => Ok ((fun k => d + k * (p * i)) <$> seqZ 0 (Z.min c upto))
                  | Some (PList _) => Raise (mkExc "TypeError" true "count must be an integer" "")
                  end
                else Raise (ValueError "interval must be positive")
            | PList _ => Raise (mkExc "TypeError" true "interval must be an integer" "")
            end
          else Raise (unsupported "rule parameter")
      | None => Raise (unsupported "calendar frequency")
      end
  | AFreq _, None => Raise (unsupported "dtstart from the wall clock")
  | AOther n, _ => Raise (mkExc "KeyError" true n "")
  end.

Definition CommandError (msg : string) : PyExc :=
  mkExc "CommandError" true msg "Traceback (most recent call last): CommandError".
Definition SystemExit (code : string) : PyExc :=
  mkExc "SystemExit" false code "Traceback (most recent call last): SystemExit".
Definition OSError (msg : string) : PyExc :=
  mkExc "OSError" true msg "Traceback (most recent call last): OSError".
Definition SMTPException (msg : string) : PyExc :=
  mkExc "SMTPException" true msg "Traceback (most recent call last): SMTPException".

(** A few management commands. *)
Definition commands (cmd : string) (args : list string) (options : gmap string string)
    (w : World) : CmdRun :=
  if String.eqb cmd "report" then mkCmdRun "3 rows" "" 2 None
  else if String.eqb cmd "cleanup" then mkCmdRun "" "" 1 None
  else if String.eqb cmd "broken" then
    mkCmdRun "starting" "warning" 1 (Some (CommandError "cannot continue"))
  else if String.eqb cmd "quit" then mkCmdRun "" "" 1 (Some (SystemExit "1"))
  else mkCmdRun "" "" 0 (Some (CommandError "Unknown command")).

(** A few programs. *)
Definition spawn (command : PopenCommand) (shell : bool) (w : World) : ProcRun :=
  match command with
  | ArgVector ("echo" :: words) => mkProcRun (Exited (String.concat " " words) "" 0) 1
  | ArgVector ("true" :: _) => mkProcRun (Exited "" "" 0) 1
  | ArgVector ("false" :: _) => mkProcRun (Exited "" "" 1) 1
  | ArgVector _ => mkProcRun (SpawnRaises (OSError "[Errno 2] No such file or directory")) 0
  | ShellLine _ => mkProcRun (Exited "" "sh: command not found" 127) 1
  end.

Definition traceback (exception tb : string) : string :=
  exception ++ newline ++ tb.
Definition message_subject (c : MailContext) : string :=
  ctx_EMAIL_SUBJECT_PREFIX c ++ name (job (ctx_log c)).
Definition message_body (c : MailContext) : string :=
  ctx_info_output c ++ newline ++ ctx_error_output c.
Definition log_change (pk : Z) : string :=
  "/admin/chronograph/log/" ++ PyStr.format_d pk ++ "/".

Definition env : Env :=
  mkEnv getattr rrule commands spawn traceback message_subject message_body
        "example.com" log_change "[Django] " "webmaster@localhost"
        (fun _ _ => None).

(** The same with a mail backend that cannot reach its server. *)
Definition env_mail_down : Env :=
  mkEnv getattr rrule commands spawn traceback message_subject message_body
        "example.com" log_change "[Django] " "webmaster@localhost"
        (fun _ _ => Some (SMTPException "Connection refused")).

Definition alice : User := mkUser "alice" "alice@example.com" "Alice Martin".
Definition bob : User := mkUser "bob" "bob@example.com" "".

(** A job as the admin form creates it. *)
Definition new_job (pk : Z) (frequency : string) (params : option string)
    (command shell_command : string) (run_in_shell : bool) (args : string) : Job :=
  mkJob pk "job" frequency params command shell_command run_in_shell args
        false None None false true [alice] [bob].

(** A process at time [t] with an empty database. *)
Definition boot (t : Time) : World :=
  mkWorld t (Console false) (Console true) [] "" "" ∅ [] [].

Definition report_job : Job :=
  new_job 1 "DAILY" (Some "count:3") "report" "" false "nightly verbosity=2".
Definition cleanup_job : Job :=
  new_job 2 "WEEKLY" (Some "count:4") "cleanup" "" false "".
Definition broken_job : Job :=
  new_job 3 "HOURLY" (Some "interval:2;count:10") "broken" "" false "".
Definition quit_job : Job :=
  new_job 4 "DAILY" (Some "count:3") "quit" "" false "".
Definition once_job : Job :=
  new_job 5 "DAILY" (Some "count:1") "report" "" false "".
Definition false_job : Job :=
  new_job 6 "MINUTELY" (Some "count:5") "" "false" false "".
Definition missing_job : Job :=
  new_job 7 "MINUTELY" (Some "count:5") "" "no-such-program" false "--fast".
Definition fortnightly_job : Job :=
  new_job 8 "FORTNIGHTLY" (Some "count:3") "report" "" false "".

(** A disabled job that still carries a [next_run] and the running flag. *)
Definition paused_job : Job :=
  mkJob 9 "paused" "DAILY" None "report" "" false "" true (Some 500) None true true [] [].

(** A job whose rule allowed a single occurrence, after it has run at time
    1000, and the database holding it at time 5000. *)
Definition spent_job : Job :=
  mkJob 1 "job" "DAILY" (Some "count:1") "report" "" false ""
        false None (Some 1000) false true [alice] [bob].

Definition spent_world : World :=
  mkWorld 5000 (Console false) (Console true) [] "" "" {[1 := spent_job]} [] [].

End Sample.

(** ** The rest of the application

    The other methods of [Job], the admin of [chronograph/admin.py] and the
    command of [management/commands/cron_clean.py].  Dates and durations are
    unbounded integers, as everywhere here. *)

Definition TypeError (msg : string) : PyExc := mkExc "TypeError" true msg "".
Definition KeyError (msg : string) : PyExc := mkExc "KeyError" true msg "".
Definition ValidationError (msg : string) : PyExc := mkExc "ValidationError" true msg "".
Definition OverflowError (msg : string) : PyExc := mkExc "OverflowError" true msg "".

Definition set_disabled (v : bool) (j : Job) : Job :=
  mkJob (id j) (name j) (frequency j) (params j) (command j) (shell_command j)
        (run_in_shell j) (args j) v (next_run j) (last_run j) (is_running j)
        (last_run_successful j) (info_subscribers j) (subscribers j).

(** *** [Job.get_timeuntil] and [Job.__unicode__] *)

Section Display.

(** The number of clock units in one second, and [timeuntil(d)] of
    [django.utils.timesince], read at time [now]. *)
Variable second : Z.
Variable timeuntil : Time -> Time -> string.

(** The fields [days] and [seconds] of the [timedelta] that is the difference
    of two dates [d] units apart: [seconds] counts within the day. *)
Definition timedelta_days (d : Z) : Z := d `div` (86400 * second).
Definition timedelta_seconds (d : Z) : Z := (d `mod` (86400 * second)) `div` second.

(** [ungettext(singular, plural, n)], with no translation active. *)
Definition ungettext (singular plural : string) (n : Z) : string :=
  if n =? 1 then singular else plural.

(** [Job.get_timeuntil] *)
Definition get_timeuntil (self : Job) : M string :=
  if disabled self then ret "never (disabled)"
  else
    let* t := now in
    match next_run self with
    | None =>
        raise (TypeError "unsupported operand type(s) for -: 'NoneType' and 'datetime.datetime'")
    | Some next =>
        let delta := next - t in
        if timedelta_days delta <? 0 then ret "due"
        else if timedelta_seconds delta <? 60 then
          ret (PyStr.format_d (timedelta_seconds delta) ++ " "
               ++ ungettext "second" "seconds" (timedelta_seconds delta))
        else ret (timeuntil next t)
    end.

(** [Job.__unicode__] *)
Definition Job_unicode (self : Job) : M string :=
  if disabled self then ret (name self ++ " - disabled")
  else let* until := get_timeuntil self in ret (name self ++ " - " ++ until).

End Display.

(** *** [chronograph/admin.py] *)

Module admin.

(** [queryset.update(...)] over the jobs whose primary key the queryset
    selects: the rows are written directly, [Job.save] is not called; the
    result is the number of rows matched. *)
Definition queryset_update (queryset : gset Z) (f : Job -> Job) : M nat :=
  fun w =>
    (Ok (size (filter (fun kv => kv.1 ∈ queryset) (jobs w))),
     with_jobs (map_imap (fun pk j => Some (if decide (pk ∈ queryset) then f j else j)) (jobs w))
               w).

(** [JobAdmin.disable_jobs] and [JobAdmin.reset_jobs] *)
Definition disable_jobs (queryset : gset Z) : M nat :=
  queryset_update queryset (set_disabled true).

Definition reset_jobs (queryset : gset Z) : M nat :=
  queryset_update queryset (set_is_running false).

(** [JobForm.clean_shell_command], on [self.cleaned_data]. *)
Definition clean_shell_command (cleaned_data : gmap string string) : Res string :=
  if negb (String.eqb (PyStr.strip (default "" (cleaned_data !! "command"))) "")
     && negb (String.eqb (PyStr.strip (default "" (cleaned_data !! "shell_command"))) "")
  then Raise (ValidationError
                "Can't specify a shell_command if a django admin command is already specified")
  else match cleaned_data !! "shell_command" with
       | Some v => Ok v
       | None => Raise (KeyError "shell_command")
       end.

(** [JobForm.clean], on the [cleaned_data] that [super().clean()] returns. *)
Definition clean (cleaned_data : gmap string string) : Res (gmap string string) :=
  if negb (Nat.eqb (String.length (PyStr.strip (default "" (cleaned_data !! "command")))) 0)
     && negb (Nat.eqb (String.length
                         (PyStr.strip (default "" (cleaned_data !! "shell_command")))) 0)
  then Raise (ValidationError "Must specify either command or shell command")
  else Ok cleaned_data.

Section LogAdmin.

(** [django.utils.html.escape] *)
Variable escape : string -> string.

(** The first lines of [LogAdmin.output] and [LogAdmin.errors]: the text
    that is escaped. *)
Definition shorten (result : string) : string :=
  if (40 <? String.length result)%nat then substring 0 40 result ++ "..." else result.

(** [LogAdmin.output] *)
Definition output (obj : Log) : string :=
  let result := escape (shorten (stdout obj)) in
  if String.eqb result "" then "(No output)" else result.

(** [LogAdmin.errors] *)
Definition errors (obj : Log) : string :=
  let result := escape (shorten (stderr obj)) in
  if String.eqb result "" then "(No errors)" else result.

End LogAdmin.

End admin.

(** *** [management/commands/cron_clean.py] *)

Module cron_clean.

(** The choices of the argument [unit]. *)
Inductive Unit := weeks | days | hours | minutes.

Definition unit_seconds (unit : Unit) : Z :=
  match unit with
  | weeks => 604800
  | days => 86400
  | hours => 3600
  | minutes => 60
  end.

Section Handle.

(** The number of clock units in one second; the clock values of
    [datetime.min] and [datetime.max]; and the text of the error of a
    [timedelta] of too many days, which the implementation of [datetime]
    chooses. *)
Variable second : Z.
Variable datetime_min datetime_max : Time.
Variable too_many_days : Z -> string.

(** [datetime.timedelta] with the keyword [unit] set to [amount], in clock
    units: the number of days is limited to 999999999 either way. *)
Definition timedelta (unit : Unit) (amount : Z) : Res Z :=
  let seconds := amount * unit_seconds unit in
  if Z.abs (seconds `div` 86400) <=? 999999999 then Ok (seconds * second)
  else Raise (OverflowError (too_many_days (seconds `div` 86400))).

(** A date minus a [timedelta]: the result is a date of the years 1 to 9999. *)
Definition datetime_sub (t : Time) (delta : Z) : Res Time :=
  if (datetime_min <=? t - delta) && (t - delta <=? datetime_max) then Ok (t - delta)
  else Raise (OverflowError "date value out of range").

(** [Command.handle]: [Log.objects.filter(run_date__lte=time_ago).delete()] *)
Definition handle (unit : Unit) (amount : Z) : M () :=
  let* t := now in
  let* delta := lift (timedelta unit amount) in
  let* time_ago := lift (datetime_sub t delta) in
  fun w =>
    (Ok tt, with_logs (List.filter (fun l => negb (run_date l <=? time_ago)) (logs w)) w).

End Handle.

End cron_clean.

(** ** The course of a run *)

(** The job as [run] first saves it, and as its [finally] clause saves it. *)
Definition started (self : Job) : Job := set_is_running true self.
Definition finished (successful : bool) (j : Job) : Job :=
  set_is_running false (set_last_run_successful successful j).

(** The last statement of [run]: the notification. *)
Definition notify (env : Env) (log : Log) : M unit :=
  if negb (success log) then email_subscribers env log false
  else if negb (String.eqb (stdout log) "") || negb (String.eqb (stderr log) "")
       then email_subscribers env log true
       else ret tt.

(** The courses [run env self save_] can take from [w], each with the result
    and the process it ends with: a [save] raises; the command method raises,
    and the [finally] clause with it; the recurrence library rejects the rule;
    or the [Log] is created and the notification follows. *)
Inductive RunTrace (env : Env) (self : Job) (save_ : bool) (w : World)
  : Res unit -> World -> Prop :=
| Trace_first_save_raises (e : PyExc) :
    save env (started self) w = (Raise e, w) ->
    RunTrace env self save_ w (Raise e) w
| Trace_command_raises (j1 : Job) (e : PyExc) (w2 : World) :
    save env (started self) w = (Ok j1, with_jobs (<[id self := j1]> (jobs w)) w) ->
    command_method env j1 (with_jobs (<[id self := j1]> (jobs w)) w) = (Raise e, w2) ->
    RunTrace env self save_ w
      (Raise (UnboundLocalError "local variable 'successful' referenced before assignment")) w2
| Trace_second_save_raises (j1 : Job) (successful : bool) (out err : string) (w2 : World)
    (e : PyExc) :
    save env (started self) w = (Ok j1, with_jobs (<[id self := j1]> (jobs w)) w) ->
    command_method env j1 (with_jobs (<[id self := j1]> (jobs w)) w)
      = (Ok (successful, out, err), w2) ->
    save env (finished successful j1) w2 = (Raise e, w2) ->
    RunTrace env self save_ w (Raise e) w2
| Trace_rule_raises (j1 : Job) (successful : bool) (out err : string) (w2 : World)
    (j2 : Job) (e : PyExc) :
    save_ = true ->
    save env (started self) w = (Ok j1, with_jobs (<[id self := j1]> (jobs w)) w) ->
    command_method env j1 (with_jobs (<[id self := j1]> (jobs w)) w)
      = (Ok (successful, out, err), w2) ->
    save env (finished successful j1) w2 = (Ok j2, with_jobs (<[id self := j2]> (jobs w2)) w2) ->
    rrule_after_of env (set_last_run (Some (clock w)) j2) (Some (clock w)) = Raise e ->
    RunTrace env self save_ w (Raise e) (with_jobs (<[id self := j2]> (jobs w2)) w2)
| Trace_third_save_raises (j1 : Job) (successful : bool) (out err : string) (w2 : World)
    (j2 : Job) (r : option Time) (e : PyExc) :
    save_ = true ->
    save env (started self) w = (Ok j1, with_jobs (<[id self := j1]> (jobs w)) w) ->
    command_method env j1 (with_jobs (<[id self := j1]> (jobs w)) w)
      = (Ok (successful, out, err), w2) ->
    save env (finished successful j1) w2 = (Ok j2, with_jobs (<[id self := j2]> (jobs w2)) w2) ->
    rrule_after_of env (set_last_run (Some (clock w)) j2) (Some (clock w)) = Ok r ->
    save env (set_next_run r (set_last_run (Some (clock w)) j2))
         (with_jobs (<[id self := j2]> (jobs w2)) w2)
      = (Raise e, with_jobs (<[id self := j2]> (jobs w2)) w2) ->
    RunTrace env self save_ w (Raise e) (with_jobs (<[id self := j2]> (jobs w2)) w2)
| Trace_log (j1 : Job) (successful : bool) (out err : string) (w2 : World)
    (j2 j3 : Job) (res : Res unit) (w' : World) :
    save env (started self) w = (Ok j1, with_jobs (<[id self := j1]> (jobs w)) w) ->
    command_method env j1 (with_jobs (<[id self := j1]> (jobs w)) w)
      = (Ok (successful, out, err), w2) ->
    save env (finished successful j1) w2 = (Ok j2, with_jobs (<[id self := j2]> (jobs w2)) w2) ->
    (if save_ then
       exists r,
         rrule_after_of env (set_last_run (Some (clock w)) j2) (Some (clock w)) = Ok r
         /\ save env (set_next_run r (set_last_run (Some (clock w)) j2))
                 (with_jobs (<[id self := j2]> (jobs w2)) w2)
            = (Ok j3, with_jobs (<[id self := j3]> (jobs w2)) w2)
     else j3 = j2) ->
    notify env (mkLog (Z.of_nat (S (length (logs w)))) j3 (clock w) (Some (clock w2))
                      out err successful)
           (with_logs (logs w ++ [mkLog (Z.of_nat (S (length (logs w)))) j3 (clock w)
                                        (Some (clock w2)) out err successful])
                      (with_jobs (<[id self := j3]> (jobs w2)) w2))
      = (res, w') ->
    RunTrace env self save_ w res w'.

(** ** Further vocabulary *)

(** The dates of a job as [save] leaves them: a disabled job has no
    [next_run]; any other job has a [last_run], and no [next_run] only when
    its rule has no occurrence after [last_run]. *)
Definition settled (env : Env) (j : Job) : Prop :=
  if disabled j then next_run j = None
  else exists t, last_run j = Some t
                 /\ (next_run j = None -> rrule_after_of env j (Some t) = Ok None).

(** A character that [shlex] reads as part of a word, and that [encode]
    accepts. *)
Definition plain_char (c : ascii) : bool :=
  negb (Shlex.is_whitespace c) && negb (Shlex.is_quote c) && negb (Shlex.is_escape c)
  && (nat_of_ascii c <? 128)%nat.

Fixpoint plain_chars (s : string) : bool :=
  match s with
  | EmptyString => true
  | String c s' => plain_char c && plain_chars s'
  end.

(** A word made of such characters. *)
Definition plain_word (s : string) : bool := negb (String.eqb s "") && plain_chars s.

(** The rest of a line after its first word: each further word preceded by a
    space. *)
Fixpoint spaced (words : list string) : string :=
  match words with
  | [] => ""
  | wd :: words' => " " ++ wd ++ spaced words'
  end.

(** ** More sample data *)

Module Cases.

(** A job whose parameters are mistyped, with both dates set. *)
Definition mistyped_job : Job :=
  mkJob 1 "job" "DAILY" (Some "count:x") "report" "" false ""
        false (Some 2000) (Some 1000) false true [Sample.alice] [Sample.bob].

(** A job with a rejected argument, and one with an unbalanced quotation. *)
Definition misargued_job : Job :=
  Sample.new_job 1 "DAILY" (Some "count:3") "report" "" false "a=b=c".
Definition unbalanced_job : Job :=
  Sample.new_job 1 "DAILY" None "" "echo 'unterminated" false "".
Definition backup_job : Job :=
  Sample.new_job 7 "MINUTELY" (Some "count:5") "" "backup" false "--fast /srv/www".

(** A job left marked as running, overdue since time 2000, and the database
    holding it at time 5000. *)
Definition stuck_job : Job :=
  mkJob 1 "job" "DAILY" (Some "count:1") "report" "" false ""
        false (Some 2000) (Some 1000) true true [Sample.alice] [Sample.bob].

Definition stuck_world : World :=
  mkWorld 5000 (Console false) (Console true) [] "" "" {[1 := stuck_job]} [] [].

(** The same database after the job was reset. *)
Definition overdue_world : World :=
  mkWorld 5000 (Console false) (Console true) [] "" ""
          {[1 := set_is_running false stuck_job]} [] [].

(** Two logs, one of them less than a week old at time 800000. *)
Definition old_log : Log := mkLog 1 Sample.report_job 100 (Some 101) "" "" true.
Definition recent_log : Log := mkLog 2 Sample.report_job 700000 (Some 700001) "" "" true.
Definition week_of_logs : World :=
  with_logs [old_log; recent_log] (Sample.boot 800000).

(** A log with 50 characters of output and no error output. *)
Definition long_log : Log :=
  mkLog 3 Sample.report_job 100 (Some 101)
        "0123456789012345678901234567890123456789abcdefghij" "" true.

(** The data of a form with neither command, and of one with both. *)
Definition neither : gmap string string :=
  {["command" := ""; "shell_command" := "  "]}.
Definition both : gmap string string :=
  {["command" := "report"; "shell_command" := "ls"]}.

(** The first and the last second of the years 1 to 9999, counted from 1970. *)
Definition datetime_min : Time := -62135596800.
Definition datetime_max : Time := 253402300799.

End Cases.

(** * Properties *)

(** ** Facts about splitting *)

Section SplitFacts.

Import PyStr.

Lemma split_on_length (c : ascii) (s : string) :
  length (split_on c s) = S (count_char c s).
Proof.
  induction s as [|d s IH]; simpl; [reflexivity|].
  destruct (Ascii.eqb d c); simpl.
  - now rewrite IH.
  - destruct (split_on c s) as [|h t]; simpl in *; [discriminate|exact IH].
Qed.

Lemma split_on_absent (c : ascii) (s : string) :
  count_char c s = 0%nat -> split_on c s = [s] /\ partition_at c s = (s, "").
Proof.
  induction s as [|d s IH]; simpl; intros H; [split; reflexivity|].
  destruct (Ascii.eqb d c); [discriminate|].
  destruct (IH H) as [-> ->]. split; reflexivity.
Qed.

(** [split] yields two parts exactly when the separator occurs once, and the
    parts are then those around it. *)
Lemma split_on_partition (c : ascii) (s k v : string) :
  split_on c s = [k; v] <-> count_char c s = 1%nat /\ partition_at c s = (k, v).
Proof.
  revert k. induction s as [|d s IH]; intros k; simpl.
  - split; [discriminate|intros [? _]; discriminate].
  - pose proof (split_on_length c s) as Hlen.
    destruct (Ascii.eqb d c) eqn:E; simpl.
    + split.
      * intros [= <- Hs]. rewrite Hs in Hlen. simpl in Hlen.
        assert (count_char c s = 0%nat) as H0 by lia.
        destruct (split_on_absent c s H0) as [Hs' _].
        rewrite H0. split; [reflexivity|]. congruence.
      * intros [Hc [= <- <-]].
        assert (count_char c s = 0%nat) as H0 by lia.
        destruct (split_on_absent c s H0) as [-> _]. reflexivity.
    + destruct (partition_at c s) as [a b] eqn:Hp.
      destruct (split_on c s) as [|h t] eqn:Hsp; [discriminate|].
      split.
      * intros [= <- ->].
        destruct (proj1 (IH h) eq_refl) as [Hc Hq]. injection Hq as -> ->.
        split; [exact Hc|reflexivity].
      * intros [Hc [= <- <-]].
        pose proof (proj2 (IH a) (conj Hc eq_refl)) as Hq. injection Hq as -> ->.
        reflexivity.
Qed.

Lemma find_char_count (c : ascii) (s : string) :
  (find_char c s >? -1) = negb (Nat.eqb (count_char c s) 0).
Proof.
  assert (forall t, -1 <= find_char c t) as Hlow.
  { intros t. induction t as [|d t IH]; simpl; [lia|].
    destruct (Ascii.eqb d c); [lia|]. destruct (find_char c t <? 0); lia. }
  induction s as [|d s IH]; simpl; [reflexivity|].
  destruct (Ascii.eqb d c); simpl; [reflexivity|].
  rewrite <- IH. specialize (Hlow s).
  destruct (Z.ltb_spec (find_char c s) 0); destruct (Z.gtb_spec (find_char c s) (-1));
    try lia; try reflexivity.
Qed.

End SplitFacts.

(** ** [get_params] *)

Section GetParams.

Import PyStr.

Lemma get_params_token_ParseToken (t : string) :
  get_params_token t =
  if exactly_one_colon t then res_bind (ParseToken t) (fun p => Ok (Some p)) else Ok None.
Proof.
  unfold get_params_token, exactly_one_colon, ParseToken, collapse.
  destruct (Nat.eqb_spec (count_char ":" t) 1) as [H1|H1].
  - destruct (partition_at ":" t) as [k v] eqn:Hp.
    rewrite (proj2 (split_on_partition ":" t k v) (conj H1 Hp)).
    destruct (res_map int (split_on "," v)) as [[|z [|z' l]]|e]; reflexivity.
  - pose proof (split_on_length ":" t) as Hl.
    destruct (split_on ":" t) as [|a [|b [|c l]]]; try reflexivity.
    simpl in Hl. lia.
Qed.

Lemma get_params_loop_filter (toks : list string) (acc : list (string * ParamVal)) :
  get_params_loop toks acc =
  res_bind (res_map ParseToken (List.filter exactly_one_colon toks))
           (fun ps => Ok (acc ++ ps)%list).
Proof.
  revert acc. induction toks as [|t toks IH]; intros acc; simpl.
  - now rewrite app_nil_r.
  - rewrite get_params_token_ParseToken.
    destruct (exactly_one_colon t); simpl; [|apply IH].
    destruct (ParseToken t) as [p|e]; simpl; [|reflexivity].
    rewrite IH. destruct (res_map ParseToken _) as [ps|e]; simpl; [|reflexivity].
    now rewrite <- app_assoc.
Qed.

Lemma get_params_ParseParams (text : string) :
  get_params (Some text) = ParseParams text.
Proof.
  unfold get_params, ParseParams. rewrite get_params_loop_filter.
  destruct (res_map ParseToken _); reflexivity.
Qed.

Lemma filter_no_token (toks : list string) :
  Forall (fun t => count_char ":" t <> 1%nat) toks ->
  List.filter exactly_one_colon toks = [].
Proof.
  induction 1 as [|t toks Ht _ IH]; simpl; [reflexivity|].
  unfold exactly_one_colon at 1.
  destruct (Nat.eqb_spec (count_char ":" t) 1); [contradiction|exact IH].
Qed.

Lemma res_map_raises {A B} (f : A -> Res B) (l : list A) (e : PyExc) :
  res_map f l = Raise e -> exists x, In x l /\ f x = Raise e.
Proof.
  induction l as [|x l IH]; simpl; [discriminate|].
  destruct (f x) as [y|ex] eqn:Hx; simpl.
  - intros Hr. destruct (res_map f l); simpl in Hr; [discriminate|].
    destruct (IH Hr) as [x' [? ?]]. exists x'. auto.
  - intros [= ->]. exists x. auto.
Qed.

(** C7. [get_params] computes what the specification describes: the text is
    split on [;], a token that does not contain exactly one [:] is dropped
    without error, the values of the others are read as integers, one value
    standing for itself and several for their list.  An error can only come
    from a value of a well-formed token that is not an integer.  In
    particular ["bysecond:1;byminute:1,2,4,5"] gives
    [{bysecond: 1, byminute: [1,2,4,5]}] and ["badtoken"] is dropped. *)
Theorem get_params_parses :
  (forall text, get_params (Some text) = ParseParams text)
  /\ (forall text,
        Forall (fun token => count_char ":" token <> 1%nat) (split_on ";" text) ->
        get_params (Some text) = Ok ∅)
  /\ (forall text e,
        get_params (Some text) = Raise e ->
        exists token value,
          In token (split_on ";" text) /\ count_char ":" token = 1%nat
          /\ In value (split_on "," (snd (partition_at ":" token)))
          /\ int value = Raise e)
  /\ get_params (Some "bysecond:1;byminute:1,2,4,5")
     = Ok (<["byminute" := PList [1; 2; 4; 5]]> {["bysecond" := PInt 1]})
  /\ get_params (Some "badtoken") = Ok ∅
  /\ get_params (Some "interval:15;badtoken;a:1:2") = Ok {["interval" := PInt 15]}.
Proof.
  split; [exact get_params_ParseParams|].
  split.
  { intros text H. rewrite get_params_ParseParams. unfold ParseParams.
    rewrite (filter_no_token _ H). reflexivity. }
  split.
  { intros text e. rewrite get_params_ParseParams. unfold ParseParams.
    destruct (res_map ParseToken _) as [ps|e'] eqn:Hm; simpl; [discriminate|].
    intros [= ->]. apply res_map_raises in Hm. destruct Hm as [t [Ht Hp]].
    apply filter_In in Ht. destruct Ht as [Ht Hc].
    unfold exactly_one_colon in Hc. apply Nat.eqb_eq in Hc.
    exists t. unfold ParseToken in Hp. destruct (partition_at ":" t) as [k v]. simpl.
    destruct (res_map int (split_on "," v)) as [vals|ev] eqn:Hv; simpl in Hp; [discriminate|].
    injection Hp as ->. apply res_map_raises in Hv. destruct Hv as [value [? ?]].
    exists value. auto. }
  repeat split; vm_compute; reflexivity.
Qed.

(** The theorem at a text of malformed tokens only, and at a text with a value
    that is not an integer. *)
Lemma get_params_parses_witness :
  get_params (Some "badtoken;;a:1:2") = Ok ∅
  /\ exists token value,
       In token (split_on ";" "interval:15;bysecond:x") /\ count_char ":" token = 1%nat
       /\ In value (split_on "," (snd (partition_at ":" token)))
       /\ int value = Raise (ValueError "invalid literal for int() with base 10: x").
Proof.
  split.
  - apply (proj1 (proj2 get_params_parses) "badtoken;;a:1:2").
    vm_compute. repeat constructor; discriminate.
  - apply (proj1 (proj2 (proj2 get_params_parses)) "interval:15;bysecond:x").
    vm_compute. reflexivity.
Defined.

End GetParams.

(** ** [get_args] *)

Section GetArgs.

Import PyStr.

Lemma get_args_loop_ParseArgs (toks : list string) (args : list string)
    (options : gmap string string) :
  Forall (fun t => (count_char "=" t <= 1)%nat) toks ->
  get_args_loop toks args options =
  Ok ((args ++ List.filter (fun t => negb (contains_equals t)) toks)%list,
      foldl (fun m p => <[p.1 := p.2]> m) options
            (map (partition_at "=") (List.filter contains_equals toks))).
Proof.
  intros H. revert args options.
  induction H as [|t toks Ht _ IH]; intros args options; simpl.
  - now rewrite app_nil_r.
  - rewrite find_char_count. fold (contains_equals t).
    destruct (contains_equals t) eqn:Hc; simpl.
    + assert (count_char "=" t = 1%nat) as H1.
      { unfold contains_equals in Hc.
        destruct (Nat.eqb_spec (count_char "=" t) 0); [discriminate|lia]. }
      destruct (partition_at "=" t) as [k v] eqn:Hp.
      rewrite (proj2 (split_on_partition "=" t k v) (conj H1 Hp)).
      rewrite IH. reflexivity.
    + rewrite IH. now rewrite <- app_assoc.
Qed.

Lemma get_args_loop_raises (toks : list string) :
  forall tok, In tok toks -> (2 <= count_char "=" tok)%nat ->
  forall args options, exists e, get_args_loop toks args options = Raise e.
Proof.
  induction toks as [|t toks IH]; intros tok Hin Hc args options; [destruct Hin|].
  simpl. rewrite find_char_count.
  destruct Hin as [->|Hin].
  - destruct (Nat.eqb_spec (count_char "=" tok) 0) as [H0|H0]; [lia|]. simpl.
    pose proof (split_on_length "=" tok) as Hl.
    destruct (split_on "=" tok) as [|a [|b [|c l]]]; simpl in Hl; try lia; eauto.
  - destruct (negb (Nat.eqb (count_char "=" t) 0)).
    + destruct (split_on "=" t) as [|a [|b [|c l]]]; eauto.
    + eauto.
Qed.

(** C3. [get_args] splits the argument string on white space, and
    ["arg1 option1=True"] gives [["arg1"]] and [{"option1": "True"}].  While no
    token holds more than one [=], the result is what the specification
    describes.  A token with a second [=] is not split at its first [=]: it is
    split at every one, and unpacking the parts into key and value raises
    [ValueError]; so does ["arg1 url=/search?q=1"], which the specification
    reads as the option [url] with the value ["/search?q=1"]. *)
Theorem get_args_splits_at_every_equals :
  get_args "arg1 option1=True" = Ok (["arg1"], {["option1" := "True"]})
  /\ (forall text,
        Forall (fun token => (count_char "=" token <= 1)%nat) (split_ws text) ->
        get_args text = Ok (ParseArgs text))
  /\ (forall text token,
        In token (split_ws text) -> (2 <= count_char "=" token)%nat ->
        exists e, get_args text = Raise e)
  /\ get_args "arg1 url=/search?q=1" = Raise (ValueError "too many values to unpack")
  /\ ParseArgs "arg1 url=/search?q=1" = (["arg1"], {["url" := "/search?q=1"]}).
Proof.
  split; [vm_compute; reflexivity|].
  split.
  { intros text H. unfold get_args, ParseArgs.
    rewrite (get_args_loop_ParseArgs _ _ _ H). reflexivity. }
  split.
  { intros text token Hin Hc. unfold get_args. eapply get_args_loop_raises; eauto. }
  split; vm_compute; reflexivity.
Qed.

Lemma get_args_splits_at_every_equals_witness :
  get_args "verbosity=2 app" = Ok (ParseArgs "verbosity=2 app")
  /\ exists e, get_args "a=b=c" = Raise e.
Proof.
  split.
  - apply (proj1 (proj2 get_args_splits_at_every_equals) "verbosity=2 app").
    vm_compute. repeat constructor.
  - apply (proj1 (proj2 (proj2 get_args_splits_at_every_equals)) "a=b=c" "a=b=c").
    + vm_compute. left. reflexivity.
    + vm_compute. lia.
Defined.

End GetArgs.

(** ** [JobManager.due] and [Job.save] *)

Section DueAndSave.

Lemma lookup_lte_spec (column : option Time) (v : Time) :
  lookup_lte column v = true <-> exists t, column = Some t /\ t <= v.
Proof.
  destruct column as [t|]; simpl.
  - rewrite Z.leb_le. split; [eauto|]. now intros [t' [[= <-] H]].
  - split; [discriminate|]. now intros [t [? _]].
Qed.

(** A job that [due] returns is stored, neither disabled nor running, and has
    a [next_run] that is not later than now. *)
Lemma due_elim (w : World) (j : Job) :
  j ∈ due w ->
  (exists pk, jobs w !! pk = Some j)
  /\ disabled j = false /\ is_running j = false
  /\ exists t, next_run j = Some t /\ t <= clock w.
Proof.
  unfold due. rewrite list_elem_of_filter, list_elem_of_fmap.
  rewrite !andb_true_iff, !negb_true_iff, lookup_lte_spec.
  intros [[[Ht Hd] Hr] [[pk j'] [-> Hin]]]. apply elem_of_map_to_list in Hin.
  simpl in *. eauto 10.
Qed.

(** C5, as the code has it.  [due] returns exactly the stored jobs that are not
    disabled, not running, and whose [next_run] is set and not later than
    now: a job without a [next_run] is left out. *)
Theorem due_membership (w : World) (j : Job) :
  j ∈ due w <->
  (exists pk, jobs w !! pk = Some j)
  /\ disabled j = false /\ is_running j = false
  /\ exists t, next_run j = Some t /\ t <= clock w.
Proof.
  split; [apply due_elim|].
  intros [[pk Hpk] [Hd [Hr [t [Ht Hle]]]]].
  unfold due. apply list_elem_of_filter. split.
  - rewrite Hd, Hr, Ht. simpl. rewrite andb_true_r, andb_true_r.
    apply Z.leb_le. exact Hle.
  - apply list_elem_of_fmap. exists (pk, j). split; [reflexivity|].
    apply elem_of_map_to_list. exact Hpk.
Qed.

(** C5 as stated fails: a stored job that is neither disabled nor running and
    whose [next_run] is null (so not later than now) is not returned. *)
Lemma due_skips_job_without_next_run :
  jobs Sample.spent_world !! 1 = Some Sample.spent_job
  /\ disabled Sample.spent_job = false
  /\ is_running Sample.spent_job = false
  /\ ~ (exists t, next_run Sample.spent_job = Some t /\ t > clock Sample.spent_world)
  /\ Sample.spent_job ∉ due Sample.spent_world.
Proof.
  split; [reflexivity|]. split; [reflexivity|]. split; [reflexivity|].
  split.
  - intros [t [H _]]. discriminate.
  - intros H. apply due_elim in H. destruct H as [_ [_ [_ [t [H _]]]]]. discriminate.
Qed.

Lemma disabled_not_due (w : World) (j : Job) : disabled j = true -> j ∉ due w.
Proof.
  intros Hd H. apply due_elim in H. destruct H as [_ [Hf _]]. congruence.
Qed.

End DueAndSave.

Section SaveFacts.

Variable env : Env.

Lemma save_disabled (self : Job) (w : World) :
  disabled self = true ->
  save env self w = (Ok (set_next_run None self),
                     with_jobs (<[id self := set_next_run None self]> (jobs w)) w).
Proof.
  intros Hd. unfold save, bind, ret, Model_save. rewrite Hd. reflexivity.
Qed.

(** What [save] changes when it returns: the row of the job, and of the job
    at most [last_run] and [next_run]. *)
Lemma save_inv (self self' : Job) (w w' : World) :
  save env self w = (Ok self', w') ->
  w' = with_jobs (<[id self := self']> (jobs w)) w
  /\ settings self' = settings self
  /\ is_running self' = is_running self
  /\ last_run_successful self' = last_run_successful self.
Proof.
  unfold save, bind, ret, now, lift, Model_save.
  destruct (disabled self).
  - cbn. intros [= <- <-]. auto.
  - cbn. destruct (last_run self) as [t|] eqn:Hl.
    + destruct (next_run self) as [n|].
      * intros [= <- <-]. auto.
      * destruct (rrule_after_of env self (last_run self)) as [r|e]; [|discriminate].
        intros [= <- <-]. auto.
    + cbn. destruct (next_run self) as [n|].
      * intros [= <- <-]. auto.
      * destruct (rrule_after_of env _ _) as [r|e]; [|discriminate].
        intros [= <- <-]. auto.
Qed.

(** When [save] raises, nothing was written. *)
Lemma save_raises_frame (self : Job) (w w' : World) (e : PyExc) :
  save env self w = (Raise e, w') -> w' = w.
Proof.
  unfold save, bind, ret, now, lift, Model_save.
  destruct (disabled self); cbn; [discriminate|].
  destruct (last_run self) as [t|]; cbn.
  - destruct (next_run self) as [n|]; [discriminate|].
    destruct (rrule_after_of env self _); cbn; [discriminate|].
    intros H. injection H as _ <-. reflexivity.
  - destruct (next_run self) as [n|]; [discriminate|].
    destruct (rrule_after_of env _ _); cbn; [discriminate|].
    intros H. injection H as _ <-. reflexivity.
Qed.

Lemma recurrence_ok_after (self : Job) (t : Time) :
  recurrence_ok env self -> last_run self = Some t ->
  exists r, rrule_after_of env self (Some t) = Ok r.
Proof.
  intros [kw [Hkw Hit]] Hl. destruct (Hit t) as [occ Hocc].
  unfold rrule_after_of, get_rrule. rewrite Hkw, Hl. cbn. rewrite Hocc. cbn. eauto.
Qed.

Lemma recurrence_ok_settings (j j' : Job) :
  settings j' = settings j -> recurrence_ok env j -> recurrence_ok env j'.
Proof.
  unfold settings, recurrence_ok. intros [= _ _ Hf Hp _ _ _ _ _ _ _]. now rewrite Hf, Hp.
Qed.

(** [save] returns when the recurrence library accepts the rule. *)
Lemma save_ok (self : Job) (w : World) :
  recurrence_ok env self ->
  exists self', save env self w = (Ok self', with_jobs (<[id self := self']> (jobs w)) w).
Proof.
  intros Hok. unfold save, bind, ret, now, lift, Model_save.
  destruct (disabled self); cbn; [eauto|].
  destruct (last_run self) as [t|] eqn:Hl; cbn.
  - destruct (next_run self) as [n|]; [eauto|].
    destruct (recurrence_ok_after self t Hok Hl) as [r Hr]. rewrite Hl, Hr. eauto.
  - destruct (next_run self) as [n|]; [eauto|].
    destruct (recurrence_ok_after (set_last_run (Some (clock w)) self) (clock w)) as [r Hr].
    + revert Hok. apply recurrence_ok_settings. reflexivity.
    + reflexivity.
    + cbn in Hr. rewrite Hr. eauto.
Qed.

(** The occurrences of the rule depend on the frequency, the parameters and
    [last_run] only. *)
Lemma rrule_after_of_settings (j j' : Job) (t dt : option Time) :
  settings j' = settings j ->
  rrule_after_of env (set_last_run t j') dt = rrule_after_of env (set_last_run t j) dt.
Proof.
  unfold settings, rrule_after_of, get_rrule. cbn.
  intros [= _ _ Hf Hp _ _ _ _ _ _ _]. now rewrite Hf, Hp.
Qed.

(** Saving a job that is not disabled keeps the [next_run] just computed from
    its rule. *)
Lemma save_keeps_computed_next_run (j j' : Job) (c : Time) (r : option Time) (w w' : World) :
  disabled j = false -> last_run j = Some c ->
  rrule_after_of env j (Some c) = Ok r ->
  save env (set_next_run r j) w = (Ok j', w') ->
  next_run j' = r /\ last_run j' = Some c.
Proof.
  intros Hd Hl Hr. unfold save, bind, ret, now, lift, Model_save.
  change (disabled (set_next_run r j)) with (disabled j).
  change (last_run (set_next_run r j)) with (last_run j).
  change (next_run (set_next_run r j)) with r.
  rewrite Hd, Hl. cbn [negb].
  destruct r as [n|].
  - intros [= <- _]. split; [reflexivity|exact Hl].
  - change (last_run (set_next_run None j)) with (last_run j). rewrite Hl.
    change (rrule_after_of env (set_next_run None j) (Some c))
      with (rrule_after_of env j (Some c)).
    rewrite Hr. intros [= <- _]. split; [reflexivity|exact Hl].
Qed.

End SaveFacts.

(** C9. Saving a disabled job always succeeds, stores it with a null
    [next_run] and changes nothing else of it; and a disabled job is never in
    the result of [due], whatever its other fields and whatever the time. *)
Theorem disabled_job_has_no_next_run_and_is_never_due :
  (forall (env : Env) (self : Job) (w : World),
     disabled self = true ->
     exists self' w',
       save env self w = (Ok self', w')
       /\ self' = set_next_run None self
       /\ next_run self' = None
       /\ jobs w' !! id self = Some self'
       /\ forall w'', self' ∉ due w'')
  /\ (forall (w : World) (j : Job), disabled j = true -> j ∉ due w).
Proof.
  split.
  - intros env self w Hd. eexists _, _. split; [apply (save_disabled env self w Hd)|].
    split; [reflexivity|]. split; [reflexivity|]. split.
    + simpl. apply lookup_insert_eq.
    + intros w''. apply disabled_not_due. exact Hd.
  - exact disabled_not_due.
Qed.

Lemma disabled_job_has_no_next_run_and_is_never_due_witness :
  (exists self' w',
     save Sample.env Sample.paused_job (Sample.boot 1000) = (Ok self', w')
     /\ self' = set_next_run None Sample.paused_job
     /\ next_run self' = None
     /\ jobs w' !! 9 = Some self'
     /\ forall w'', self' ∉ due w'')
  /\ Sample.paused_job ∉ due (with_jobs {[9 := Sample.paused_job]} (Sample.boot 1000)).
Proof.
  split.
  - apply (proj1 disabled_job_has_no_next_run_and_is_never_due
                 Sample.env Sample.paused_job (Sample.boot 1000)).
    reflexivity.
  - apply (proj2 disabled_job_has_no_next_run_and_is_never_due). reflexivity.
Defined.

(** C10. Saving a job that is not disabled and has no [last_run] first sets
    [last_run] to the current time; a missing [next_run] is then the first
    occurrence after that time of the rule started at that time, and a
    [next_run] already set is kept.  Whenever the save returns, the stored job
    has [last_run] equal to the time of the save. *)
Theorem save_stamps_last_run_first (env : Env) (self : Job) (w : World) :
  disabled self = false -> last_run self = None ->
  let stamped := set_last_run (Some (clock w)) self in
  save env self w =
    match next_run self with
    | Some _ => Model_save stamped w
    | None =>
        match rrule_after_of env stamped (Some (clock w)) with
        | Ok r => Model_save (set_next_run r stamped) w
        | Raise e => (Raise e, w)
        end
    end
  /\ (forall self' w', save env self w = (Ok self', w') ->
        last_run self' = Some (clock w) /\ jobs w' !! id self = Some self').
Proof.
  intros Hd Hl stamped.
  assert (save env self w =
    match next_run self with
    | Some _ => Model_save stamped w
    | None =>
        match rrule_after_of env stamped (Some (clock w)) with
        | Ok r => Model_save (set_next_run r stamped) w
        | Raise e => (Raise e, w)
        end
    end) as Heq.
  { unfold save, bind, ret, now, lift. rewrite Hd, Hl. simpl.
    fold stamped. destruct (next_run self); [reflexivity|].
    destruct (rrule_after_of env stamped (Some (clock w))); reflexivity. }
  split; [exact Heq|].
  intros self' w' Hs. rewrite Heq in Hs. unfold Model_save in Hs.
  destruct (next_run self).
  - injection Hs as <- <-. split; [reflexivity|]. simpl. apply lookup_insert_eq.
  - destruct (rrule_after_of env stamped (Some (clock w))); [|discriminate].
    injection Hs as <- <-. split; [reflexivity|]. simpl. apply lookup_insert_eq.
Qed.

(** A new daily job saved at time 1000: [last_run] becomes 1000 and [next_run]
    the day after. *)
Lemma save_stamps_last_run_first_witness :
  save Sample.env Sample.report_job (Sample.boot 1000)
    = Model_save (set_next_run (Some 87400) (set_last_run (Some 1000) Sample.report_job))
                 (Sample.boot 1000)
  /\ (forall self' w',
        save Sample.env Sample.report_job (Sample.boot 1000) = (Ok self', w') ->
        last_run self' = Some 1000 /\ jobs w' !! 1 = Some self').
Proof.
  apply (save_stamps_last_run_first Sample.env Sample.report_job (Sample.boot 1000));
    reflexivity.
Defined.

(** ** The first element of a list that passes a test *)

Lemma find_first (p : Z -> bool) (l : list Z) :
  match List.find p l with
  | Some t => p t = true
              /\ exists before rest, l = (before ++ t :: rest)%list
                                     /\ Forall (fun i => p i = false) before
  | None => Forall (fun i => p i = false) l
  end.
Proof.
  induction l as [|x l IH]; simpl; [constructor|].
  destruct (p x) eqn:Hx.
  - split; [exact Hx|]. exists [], l. split; [reflexivity|constructor].
  - destruct (List.find p l) as [t|].
    + destruct IH as [Ht [before [rest [-> Hb]]]]. split; [exact Ht|].
      exists (x :: before), rest. split; [reflexivity|]. constructor; assumption.
    + constructor; assumption.
Qed.

(** ** The command methods *)

Section CommandFacts.

Variable env : Env.

Lemma buffers_after_writes (l : list string) (a b : string) :
  alter (fun old => old ++ b) (S (length l))
        (alter (fun old => old ++ a) (length l) (l ++ [""; ""])%list)
  = (l ++ [a; b])%list.
Proof.
  induction l as [|x l IH]; [reflexivity|].
  cbn [app length]. cbn [alter list_alter] in *. f_equal. exact IH.
Qed.

Lemma buffers_lookup (l : list string) (a b : string) :
  (l ++ [a; b])%list !! length l = Some a /\ (l ++ [a; b])%list !! S (length l) = Some b.
Proof. induction l as [|x l IH]; [split; reflexivity|exact IH]. Qed.

(** [run_management_command], once the arguments are parsed, by what the
    command does. *)
Lemma run_management_command_eq (self : Job) (w : World)
    (arguments : list string) (options : gmap string string) :
  get_args (args self) = Ok (arguments, options) ->
  let r := call_command env (command self) arguments options (redirected w) in
  let captured :=
    mkWorld (clock w + cmd_elapsed r) (sys_stdout w) (sys_stderr w)
            (buffers w ++ [cmd_stdout r; cmd_stderr r])%list (console_out w) (console_err w)
            (jobs w) (logs w) (outbox w) in
  run_management_command env self w =
  match cmd_raises r with
  | None => (Ok (true, cmd_stdout r, cmd_stderr r ++ ""), captured)
  | Some e =>
      if exc_is_Exception e
      then (Ok (false, cmd_stdout r, cmd_stderr r ++ _get_exception_string env e), captured)
      else (Raise e,
            with_sys_stderr (StringIO (S (length (buffers w))))
              (with_sys_stdout (StringIO (length (buffers w))) captured))
  end.
Proof.
  intros Hargs.
  unfold run_management_command, Job_get_args, bind, lift. rewrite Hargs.
  unfold new_StringIO, get_sys_stdout, get_sys_stderr, set_sys_stdout, set_sys_stderr,
    try_except, do_call_command, ret, getvalue, bind, redirected.
  destruct w as [clk out err bufs cout cerr js ls ob].
  cbn [buffers with_buffers sys_stdout sys_stderr with_sys_stdout with_sys_stderr write
       clock with_clock console_out console_err jobs logs outbox].
  rewrite length_app, <- app_assoc. cbn [length app]. rewrite Nat.add_1_r.
  set (r := call_command env (command self) arguments options _).
  rewrite buffers_after_writes.
  destruct (buffers_lookup bufs (cmd_stdout r) (cmd_stderr r)) as [Ha Hb].
  destruct (cmd_raises r) as [e|]; [destruct (exc_is_Exception e)|];
    cbn [buffers with_buffers sys_stdout sys_stderr with_sys_stdout with_sys_stderr
         clock with_clock console_out console_err jobs logs outbox];
    rewrite ?Ha, ?Hb; reflexivity.
Qed.

(** [run_shell_command], once the command line is built, by what the child
    does. *)
Lemma run_shell_command_eq (self : Job) (w : World) (c : PopenCommand) :
  popen_command self = Ok c ->
  let p := Popen env c (run_in_shell self) w in
  let w1 := with_clock (clock w + proc_elapsed p) w in
  run_shell_command env self w =
  match proc_result p with
  | Exited out err code =>
      (Ok (code =? 0, out, if code =? 0 then err else err ++ return_code_notice code), w1)
  | SpawnRaises e =>
      if exc_is_Exception e then (Ok (false, "", _get_exception_string env e), w1)
      else (Raise e, w1)
  end.
Proof.
  intros Hc. unfold run_shell_command, bind, lift, try_except, do_Popen, ret. rewrite Hc.
  destruct (proc_result (Popen env c (run_in_shell self) w)) as [out err code|e].
  - destruct (code =? 0); reflexivity.
  - destruct (exc_is_Exception e); reflexivity.
Qed.

Lemma run_shell_command_raise (self : Job) (w : World) (e : PyExc) :
  popen_command self = Raise e -> run_shell_command env self w = (Raise e, w).
Proof.
  intros Hc. unfold run_shell_command, bind, lift. rewrite Hc. reflexivity.
Qed.

Lemma run_management_command_frame (self : Job) (w : World) r w' :
  run_management_command env self w = (r, w') -> same_records w w'.
Proof.
  destruct (get_args (args self)) as [[a o]|e] eqn:Hargs.
  - rewrite (run_management_command_eq self w a o Hargs).
    destruct (cmd_raises _) as [e|]; [destruct (exc_is_Exception e)|];
      intros [= <- <-]; repeat split.
  - unfold run_management_command, Job_get_args, bind, lift. rewrite Hargs.
    intros [= <- <-]. repeat split.
Qed.

Lemma run_shell_command_frame (self : Job) (w : World) r w' :
  run_shell_command env self w = (r, w') -> same_records w w'.
Proof.
  destruct (popen_command self) as [c|e] eqn:Hc.
  - rewrite (run_shell_command_eq self w c Hc).
    destruct (proc_result _) as [out err code|e]; [|destruct (exc_is_Exception e)];
      intros [= <- <-]; repeat split.
  - rewrite (run_shell_command_raise self w e Hc). intros [= <- <-]. repeat split.
Qed.

Lemma command_ok_settings (j j' : Job) :
  settings j' = settings j -> command_ok env j -> command_ok env j'.
Proof.
  unfold settings, command_ok, popen_command.
  intros [= _ _ _ _ Hc Hs Hr Ha _ _ _]. now rewrite Hc, Hs, Hr, Ha.
Qed.

Lemma command_method_total (self : Job) (w : World) :
  command_ok env self ->
  exists successful stdout_str stderr_str w',
    command_method env self w = (Ok (successful, stdout_str, stderr_str), w').
Proof.
  unfold command_ok, command_method.
  destruct (String.eqb (shell_command self) ""); cbn [negb].
  - intros [[[a o] Ha] Hexc]. rewrite (run_management_command_eq self w a o Ha).
    destruct (cmd_raises _) as [e|] eqn:He; [|eauto 10].
    rewrite (Hexc _ _ _ _ He). eauto 10.
  - intros [[c Hc] Hexc]. rewrite (run_shell_command_eq self w c Hc).
    destruct (proc_result _) as [out err code|e] eqn:Hp; [eauto 10|].
    rewrite (Hexc _ _ _ _ Hp). eauto 10.
Qed.

End CommandFacts.

(** C4, as the code has it.  In in-process mode the command runs with
    [sys.stdout] and [sys.stderr] bound to two fresh buffers.  When it returns,
    or raises an error of class [Exception], both channels are bound again to
    what they were bound to before, nothing has been written to the original
    channels, what the command wrote is returned, and an error raised is caught
    and rendered from its message and stack trace after the captured standard
    error; [successful] is false exactly when the command raised. *)
Theorem run_management_command_captures (env : Env) (self : Job) (w : World)
    (arguments : list string) (options : gmap string string) :
  get_args (args self) = Ok (arguments, options) ->
  let r := call_command env (command self) arguments options (redirected w) in
  (forall e, cmd_raises r = Some e -> exc_is_Exception e = true) ->
  sys_stdout (redirected w) = StringIO (length (buffers w))
  /\ sys_stderr (redirected w) = StringIO (S (length (buffers w)))
  /\ exists w',
       run_management_command env self w =
         (Ok (match cmd_raises r with None => true | Some _ => false end,
              cmd_stdout r,
              cmd_stderr r ++ match cmd_raises r with
                              | None => ""
                              | Some e => traceback_txt env (exc_msg e) (exc_traceback e)
                              end), w')
       /\ sys_stdout w' = sys_stdout w /\ sys_stderr w' = sys_stderr w
       /\ console_out w' = console_out w /\ console_err w' = console_err w
       /\ same_records w w'.
Proof.
  intros Hargs r Hexc. split; [reflexivity|]. split; [reflexivity|].
  rewrite (run_management_command_eq env self w arguments options Hargs). fold r.
  destruct (cmd_raises r) as [e|] eqn:Hr.
  - rewrite (Hexc e eq_refl). eexists. split; [reflexivity|]. repeat split.
  - eexists. split; [reflexivity|]. repeat split.
Qed.

(** A command that writes to both channels and then raises [CommandError]. *)
Lemma run_management_command_captures_witness :
  sys_stdout (redirected (Sample.boot 1000)) = StringIO 0
  /\ sys_stderr (redirected (Sample.boot 1000)) = StringIO 1
  /\ exists w',
       run_management_command Sample.env Sample.broken_job (Sample.boot 1000) =
         (Ok (false, "starting",
              "warning" ++ Sample.traceback "cannot continue"
                             "Traceback (most recent call last): CommandError"), w')
       /\ sys_stdout w' = Console false /\ sys_stderr w' = Console true
       /\ console_out w' = "" /\ console_err w' = ""
       /\ same_records (Sample.boot 1000) w'.
Proof.
  apply (run_management_command_captures Sample.env Sample.broken_job (Sample.boot 1000) [] ∅).
  - vm_compute. reflexivity.
  - vm_compute. intros e [= <-]. reflexivity.
Defined.

(** C4 as stated fails: [SystemExit] is not an [Exception]; a command that ends
    with it is not caught, the error leaves [run_management_command], and
    [sys.stdout] and [sys.stderr] are still bound to the buffers. *)
Lemma run_management_command_SystemExit_escapes :
  exists w',
    run_management_command Sample.env Sample.quit_job (Sample.boot 1000)
      = (Raise (Sample.SystemExit "1"), w')
    /\ sys_stdout (Sample.boot 1000) = Console false
    /\ sys_stderr (Sample.boot 1000) = Console true
    /\ sys_stdout w' = StringIO 0
    /\ sys_stderr w' = StringIO 1.
Proof. eexists. vm_compute. repeat split. Qed.

(** C8. In shell-command mode, once the command line is built: when the child
    exits, [successful] is whether the return code is zero, and a return code
    other than zero appends the notice with that code to the captured standard
    error; when spawning raises (an [OSError], say), the error is caught,
    [successful] is false and the rendered error is the standard error. *)
Theorem run_shell_command_outcome (env : Env) (self : Job) (w : World) (c : PopenCommand) :
  popen_command self = Ok c ->
  let p := Popen env c (run_in_shell self) w in
  let w' := with_clock (clock w + proc_elapsed p) w in
  (forall out err code,
     proc_result p = Exited out err code ->
     run_shell_command env self w =
       (Ok (code =? 0, out, if code =? 0 then err else err ++ return_code_notice code), w'))
  /\ (forall e,
        proc_result p = SpawnRaises e -> exc_is_Exception e = true ->
        run_shell_command env self w =
          (Ok (false, "", traceback_txt env (exc_msg e) (exc_traceback e)), w'))
  /\ return_code_notice 127
     = newline ++ newline ++ "*** Process ended with return code 127" ++ newline ++ newline.
Proof.
  intros Hc p w'. split; [|split].
  - intros out err code Hp. rewrite (run_shell_command_eq env self w c Hc). fold p.
    now rewrite Hp.
  - intros e Hp He. rewrite (run_shell_command_eq env self w c Hc). fold p.
    now rewrite Hp, He.
  - vm_compute. reflexivity.
Qed.

(** The program [false], which exits with code 1, and a program that does not
    exist. *)
Lemma run_shell_command_outcome_witness :
  run_shell_command Sample.env Sample.false_job (Sample.boot 1000)
    = (Ok (false, "", return_code_notice 1), with_clock 1001 (Sample.boot 1000))
  /\ run_shell_command Sample.env Sample.missing_job (Sample.boot 1000)
     = (Ok (false, "",
            Sample.traceback "[Errno 2] No such file or directory"
                             "Traceback (most recent call last): OSError"),
        with_clock 1000 (Sample.boot 1000)).
Proof.
  split.
  - apply (proj1 (run_shell_command_outcome Sample.env Sample.false_job (Sample.boot 1000)
                    (ArgVector ["false"]) eq_refl) "" "" 1).
    reflexivity.
  - apply (proj1 (proj2 (run_shell_command_outcome Sample.env Sample.missing_job
                           (Sample.boot 1000) (ArgVector ["no-such-program"; "--fast"])
                           eq_refl))
                 (Sample.OSError "[Errno 2] No such file or directory")).
    + reflexivity.
    + reflexivity.
Defined.

(** ** [Job.run] *)

Section RunFacts.

Variable env : Env.

Lemma settings_id (j j' : Job) : settings j' = settings j -> id j' = id j.
Proof. unfold settings. now intros [= -> _ _ _ _ _ _ _ _ _ _]. Qed.

Lemma settings_subscribers (j j' : Job) :
  settings j' = settings j ->
  subscribers j' = subscribers j /\ info_subscribers j' = info_subscribers j.
Proof. unfold settings. intros [= _ _ _ _ _ _ _ _ _ Hi Hs]. auto. Qed.

(** [email_subscribers] builds one message and hands it to the transport. *)
Lemma email_subscribers_cases (log : Log) (is_info : bool) (w : World) :
  let c := mkMailContext log
             (if is_info then stdout log
              else "http://" ++ current_site env ++ reverse_log_change env (log_id log))
             (stderr log) (EMAIL_SUBJECT_PREFIX env) in
  let m := mkMail (DEFAULT_FROM_EMAIL env)
             (map format_subscriber
                  (if is_info then info_subscribers (job log) else subscribers (job log)))
             (message_subject_txt env c) (message_body_txt env c) in
  email_subscribers env log is_info w =
  match mail_transport env m w with
  | None => (Ok tt, with_outbox (outbox w ++ [m]) w)
  | Some e => (Raise e, w)
  end.
Proof. unfold email_subscribers, send_mail. destruct is_info; reflexivity. Qed.

Lemma eqb_empty (s : string) : negb (String.eqb s "") = false <-> s = "".
Proof. rewrite negb_false_iff. apply String.eqb_eq. Qed.

End RunFacts.

(** The two ways [run] ends: before the [Log] is created, with an error and
    neither a log nor a message; or with the [Log] created from the outcome of
    the command method, followed by the notification. *)
Lemma run_cases (env : Env) (self : Job) (save_ : bool) (w : World)
    (res : Res unit) (w' : World) :
  run env self save_ w = (res, w') ->
  (exists e, res = Raise e /\ logs w' = logs w /\ outbox w' = outbox w
             /\ run_fails_early env self e)
  \/ (exists j1 w1 successful stdout_str stderr_str w2 j3 w4,
        settings j1 = settings self
        /\ command_method env j1 w1 = (Ok (successful, stdout_str, stderr_str), w2)
        /\ settings j3 = settings self
        /\ last_run_successful j3 = successful
        /\ is_running j3 = false
        /\ (save_ = true -> last_run j3 = Some (clock w))
        /\ (save_ = true -> disabled self = false ->
            NextOccurrence env self (clock w) = Ok (next_run j3))
        /\ jobs w4 !! id self = Some j3
        /\ logs w4 = logs w /\ outbox w4 = outbox w
        /\ let log := mkLog (Z.of_nat (S (length (logs w)))) j3 (clock w) (Some (clock w4))
                            stdout_str stderr_str successful in
           (res, w') =
           (if negb successful then email_subscribers env log false
            else if negb (String.eqb stdout_str "") || negb (String.eqb stderr_str "")
                 then email_subscribers env log true
                 else ret tt) (with_logs (logs w ++ [log]) w4)).
Proof.
  unfold run_fails_early, command_method. unfold run. unfold bind at 1.
  unfold now at 1. unfold bind at 1.
  (* self.is_running = True; self.save() *)
  destruct (save env (set_is_running true self) w) as [[j1|e1] w1] eqn:Hs1.
  2:{ intros [= <- <-]. left. exists e1. rewrite (save_raises_frame env _ _ _ _ Hs1).
      repeat split; try reflexivity.
      left. exists (set_is_running true self), w, w1. split; [reflexivity|exact Hs1]. }
  destruct (save_inv env _ _ _ _ Hs1) as (Hw1 & Hset1 & Hrun1 & Hok1).
  change (settings (set_is_running true self)) with (settings self) in Hset1.
  (* the command method *)
  unfold bind at 1. unfold attempt at 1.
  destruct ((if negb (String.eqb (shell_command j1) "") then run_shell_command env j1
             else run_management_command env j1) w1) as [outcome w2] eqn:Hcmd.
  assert (same_records w1 w2) as (Hj2 & Hl2 & Ho2).
  { destruct (negb (String.eqb (shell_command j1) ""));
      [eapply run_shell_command_frame|eapply run_management_command_frame]; exact Hcmd. }
  (* finally: the reload finds the row just saved *)
  assert (jobs w2 !! id j1 = Some j1) as Hget.
  { rewrite Hj2, Hw1. cbn. rewrite (settings_id _ _ Hset1). apply lookup_insert_eq. }
  unfold bind at 1. unfold run_finally at 1. unfold bind at 1. unfold objects_get at 1.
  rewrite Hget.
  destruct outcome as [[[successful stdout_str] stderr_str]|e2].
  2:{ unfold raise. intros [= <- <-]. left. eexists. split; [reflexivity|].
      rewrite Hl2, Ho2, Hw1. split; [reflexivity|]. split; [reflexivity|].
      right. left. exists j1, w1, e2, w2. split; [exact Hset1|exact Hcmd]. }
  destruct (save env (set_is_running false (set_last_run_successful successful j1)) w2)
    as [[j2|e3] w3] eqn:Hs2.
  2:{ intros [= <- <-]. left. exists e3. rewrite (save_raises_frame env _ _ _ _ Hs2).
      rewrite Hl2, Ho2, Hw1. repeat split; try reflexivity.
      left. eexists _, w2, w3. split; [|exact Hs2]. exact Hset1. }
  destruct (save_inv env _ _ _ _ Hs2) as (Hw3 & Hset2 & Hrun2 & Hok2).
  change (settings (set_is_running false (set_last_run_successful successful j1)))
    with (settings j1) in Hset2.
  cbn in Hrun2, Hok2.
  unfold bind at 1. unfold lift at 1. unfold bind at 1.
  assert (Hid : id self = id j1) by (symmetry; apply settings_id; exact Hset1).
  assert (Hlogs3 : logs w3 = logs w) by (rewrite Hw3; cbn; rewrite Hl2, Hw1; reflexivity).
  assert (Hout3 : outbox w3 = outbox w) by (rewrite Hw3; cbn; rewrite Ho2, Hw1; reflexivity).
  assert (Hjobs3 : jobs w3 !! id self = Some j2).
  { rewrite Hw3. cbn. rewrite Hid. apply lookup_insert_eq. }
  (* if save: the dates *)
  destruct ((if save_
             then (let* r := lift (rrule_after_of env (set_last_run (Some (clock w)) j2)
                                                  (Some (clock w)))
                   in save env (set_next_run r (set_last_run (Some (clock w)) j2)))%py
             else ret j2) w3) as [[j3|e4] w4] eqn:Hs3.
  2:{ intros [= <- <-]. left. exists e4.
      destruct save_; [|discriminate].
      unfold bind, lift in Hs3.
      destruct (rrule_after_of env (set_last_run (Some (clock w)) j2) (Some (clock w)))
        as [r|e5] eqn:Hr.
      - rewrite (save_raises_frame env _ _ _ _ Hs3). repeat split; try assumption.
        left. eexists _, w3, w4. split; [|exact Hs3].
        change (settings (set_next_run r (set_last_run (Some (clock w)) j2)))
          with (settings j2).
        congruence.
      - injection Hs3 as <- <-. repeat split; try assumption.
        right. right. exists (set_last_run (Some (clock w)) j2), (clock w).
        split; [|split; [reflexivity|exact Hr]].
        change (settings (set_last_run (Some (clock w)) j2)) with (settings j2).
        congruence. }
  assert (settings j3 = settings self /\ last_run_successful j3 = successful
          /\ is_running j3 = false /\ (save_ = true -> last_run j3 = Some (clock w))
          /\ (save_ = true -> disabled self = false ->
              NextOccurrence env self (clock w) = Ok (next_run j3))
          /\ jobs w4 !! id self = Some j3 /\ logs w4 = logs w /\ outbox w4 = outbox w)
    as (Hset3 & Hok3 & Hrun3 & Hlast3 & Hnext3 & Hjobs4 & Hlogs4 & Hout4).
  { destruct save_.
    - unfold bind, lift in Hs3.
      destruct (rrule_after_of env (set_last_run (Some (clock w)) j2) (Some (clock w)))
        as [r|e5] eqn:Hr; [|discriminate].
      pose proof Hs3 as Hs3'.
      destruct (save_inv env _ _ _ _ Hs3) as (Hw4 & Hset3 & Hrun3 & Hok3).
      change (settings (set_next_run r (set_last_run (Some (clock w)) j2)))
        with (settings j2) in Hset3.
      cbn in Hrun3, Hok3.
      repeat split; try congruence.
      + intros _. clear -Hs3'. revert Hs3'.
        unfold save, bind, ret, now, lift, Model_save.
        destruct (disabled _); cbn; [intros [= <- _]; reflexivity|].
        destruct r as [n|]; cbn; [intros [= <- _]; reflexivity|].
        destruct (rrule_after_of env _ _); cbn; [intros [= <- _]; reflexivity|discriminate].
      + intros _ Hd. unfold NextOccurrence.
        rewrite <- (rrule_after_of_settings env self j2 (Some (clock w)) (Some (clock w)))
          by congruence.
        rewrite Hr. f_equal. symmetry.
        refine (proj1 (save_keeps_computed_next_run env (set_last_run (Some (clock w)) j2)
                         j3 (clock w) r w3 w4 _ eq_refl Hr Hs3')).
        cbn. unfold settings in Hset1, Hset2.
        injection Hset1 as _ _ _ _ _ _ _ _ Hd1 _ _. injection Hset2 as _ _ _ _ _ _ _ _ Hd2 _ _.
        congruence.
      + rewrite Hw4. cbn. rewrite Hid, <- (settings_id _ _ Hset2). apply lookup_insert_eq.
      + rewrite Hw4. exact Hlogs3.
      + rewrite Hw4. exact Hout3.
    - injection Hs3 as <- <-. repeat split; try congruence; discriminate. }
  (* end_date = now(); Log.objects.create(...) *)
  unfold bind at 1. unfold now at 1. unfold bind at 1. unfold Log_objects_create at 1.
  rewrite Hlogs4, Hok3.
  intros Hres. right.
  exists j1, w1, successful, stdout_str, stderr_str, w2, j3, w4.
  repeat (split; [assumption|]).
  cbv zeta. symmetry. exact Hres.
Qed.

(** C6. After a run that completed, one [Log] has been added, and: if it
    records a failure, exactly one message has been sent, to the error
    subscribers of the job, rendered from the standard error and the link to
    the log entry; if it records a success with some output, exactly one
    message has been sent, to the info subscribers, rendered from the standard
    output; if it records a success with no output at all, no message has been
    sent. *)
Theorem run_notifies_by_outcome (env : Env) (self : Job) (save_ : bool) (w w' : World) :
  run env self save_ w = (Ok tt, w') ->
  exists log,
    logs w' = (logs w ++ [log])%list
    /\ (success log = false ->
        exists c m,
          outbox w' = (outbox w ++ [m])%list
          /\ recipient_list m = map format_subscriber (subscribers self)
          /\ subject m = message_subject_txt env c
          /\ message m = message_body_txt env c
          /\ ctx_log c = log
          /\ ctx_error_output c = stderr log
          /\ ctx_info_output c
             = "http://" ++ current_site env ++ reverse_log_change env (log_id log))
    /\ (success log = true -> stdout log <> "" \/ stderr log <> "" ->
        exists c m,
          outbox w' = (outbox w ++ [m])%list
          /\ recipient_list m = map format_subscriber (info_subscribers self)
          /\ subject m = message_subject_txt env c
          /\ message m = message_body_txt env c
          /\ ctx_log c = log
          /\ ctx_error_output c = stderr log
          /\ ctx_info_output c = stdout log)
    /\ (success log = true -> stdout log = "" -> stderr log = "" ->
        outbox w' = outbox w).
Proof.
  intros Hrun. destruct (run_cases env self save_ w _ _ Hrun)
    as [(e & He & _)|(j1 & w1 & successful & out & err & w2 & j3 & w4 & Hset1 & Hcmd & Hset3
                      & Hok3 & Hrun3 & Hlast3 & Hnext3 & Hjobs4 & Hlogs4 & Hout4 & Hres)];
    [discriminate|].
  cbv zeta in Hres.
  set (log := mkLog (Z.of_nat (S (length (logs w)))) j3 (clock w) (Some (clock w4))
                    out err successful) in *.
  destruct (settings_subscribers _ _ Hset3) as [Hsub Hinfo].
  exists log.
  destruct successful; cbn [negb] in Hres.
  - destruct (negb (String.eqb out "") || negb (String.eqb err "")) eqn:Hany.
    + rewrite email_subscribers_cases in Hres.
      destruct (mail_transport env _ _) as [e|]; [discriminate|].
      injection Hres as ->. cbn [logs outbox with_outbox with_logs]. rewrite Hout4.
      split; [reflexivity|]. split; [discriminate|]. split.
      * intros _ _. eexists _, _. split; [reflexivity|]. cbn. rewrite Hinfo. repeat split.
      * intros _ Ho He. cbn in Ho, He. subst out err. discriminate.
    + injection Hres as ->. cbn [logs outbox with_logs].
      split; [reflexivity|]. split; [discriminate|]. split.
      * intros _ Hne. exfalso. apply orb_false_iff in Hany. destruct Hany as [Ho He].
        apply eqb_empty in Ho, He. cbn in Hne. tauto.
      * intros _ _ _. exact Hout4.
  - rewrite email_subscribers_cases in Hres.
    destruct (mail_transport env _ _) as [e|]; [discriminate|].
    injection Hres as ->. cbn [logs outbox with_outbox with_logs]. rewrite Hout4.
    split; [reflexivity|]. split.
    + intros _. eexists _, _. split; [reflexivity|]. cbn. rewrite Hsub. repeat split.
    + split; discriminate.
Qed.

(** The run of a job whose command raises, with one error subscriber. *)
Lemma run_notifies_by_outcome_witness :
  exists log,
    logs (snd (run Sample.env Sample.broken_job true (Sample.boot 1000))) = ([] ++ [log])%list
    /\ (success log = false ->
        exists c m,
          outbox (snd (run Sample.env Sample.broken_job true (Sample.boot 1000)))
            = ([] ++ [m])%list
          /\ recipient_list m = map format_subscriber [Sample.bob]
          /\ subject m = Sample.message_subject c
          /\ message m = Sample.message_body c
          /\ ctx_log c = log
          /\ ctx_error_output c = stderr log
          /\ ctx_info_output c = "http://" ++ "example.com" ++ Sample.log_change (log_id log))
    /\ (success log = true -> stdout log <> "" \/ stderr log <> "" ->
        exists c m,
          outbox (snd (run Sample.env Sample.broken_job true (Sample.boot 1000)))
            = ([] ++ [m])%list
          /\ recipient_list m = map format_subscriber [Sample.alice]
          /\ subject m = Sample.message_subject c
          /\ message m = Sample.message_body c
          /\ ctx_log c = log
          /\ ctx_error_output c = stderr log
          /\ ctx_info_output c = stdout log)
    /\ (success log = true -> stdout log = "" -> stderr log = "" ->
        outbox (snd (run Sample.env Sample.broken_job true (Sample.boot 1000))) = []).
Proof.
  apply (run_notifies_by_outcome Sample.env Sample.broken_job true (Sample.boot 1000)).
  vm_compute. reflexivity.
Defined.

(** C1, as the code has it.  When the recurrence library accepts the rule of
    the job and its command can be started, [run] creates exactly one [Log],
    whatever the save flag and whatever the command wrote: it holds the captured
    standard output and error and the success flag of the command method, the
    time the run started and the time it ended.  [run] then returns, or raises
    the error of the mail transport that refused the notification. *)
Theorem run_records_one_log (env : Env) (self : Job) (save_ : bool) (w : World) :
  recurrence_ok env self -> command_ok env self ->
  exists result w' log,
    run env self save_ w = (result, w')
    /\ logs w' = (logs w ++ [log])%list
    /\ settings (job log) = settings self
    /\ run_date log = clock w
    /\ end_date log = Some (clock w')
    /\ (exists j w1 w2,
          settings j = settings self
          /\ command_method env j w1 = (Ok (success log, stdout log, stderr log), w2))
    /\ (result = Ok tt
        \/ exists m e, mail_transport env m w' = Some e /\ result = Raise e).
Proof.
  intros Hrec Hcmd.
  destruct (run env self save_ w) as [result w'] eqn:Hrun.
  destruct (run_cases env self save_ w _ _ Hrun)
    as [(e & He & _ & _ & Hearly)
       |(j1 & w1 & successful & out & err & w2 & j3 & w4 & Hset1 & Hc
         & Hset3 & Hok3 & Hrun3 & Hlast3 & Hnext3 & Hjobs4 & Hlogs4 & Hout4 & Hres)].
  - exfalso.
    destruct Hearly as [(j & w0 & w1 & Hs & Hsave)
                       |[(j & w0 & e' & w1 & Hs & Hm)|(j & t & Hs & Hl & Hr)]].
    + destruct (save_ok env j w0 (recurrence_ok_settings env _ _ Hs Hrec)) as [j' Hj'].
      congruence.
    + destruct (command_method_total env j w0 (command_ok_settings env _ _ Hs Hcmd))
        as (s & o & r & w'' & Hm').
      congruence.
    + destruct (recurrence_ok_after env j t (recurrence_ok_settings env _ _ Hs Hrec) Hl)
        as [r Hr'].
      congruence.
  - cbv zeta in Hres.
    set (log := mkLog (Z.of_nat (S (length (logs w)))) j3 (clock w) (Some (clock w4))
                      out err successful) in *.
    exists result, w', log.
    split; [reflexivity|].
    assert ((result = Ok tt
             \/ exists m e, mail_transport env m w' = Some e /\ result = Raise e)
            /\ logs w' = (logs w ++ [log])%list /\ clock w' = clock w4) as (Hr & Hl & Hclk).
    { destruct (negb successful).
      - rewrite email_subscribers_cases in Hres.
        destruct (mail_transport env _ _) as [e|] eqn:Hm; injection Hres as -> ->.
        + split; [right; eauto|]. split; reflexivity.
        + split; [left; reflexivity|]. split; reflexivity.
      - destruct (negb (String.eqb out "") || negb (String.eqb err "")).
        + rewrite email_subscribers_cases in Hres.
          destruct (mail_transport env _ _) as [e|] eqn:Hm; injection Hres as -> ->.
          * split; [right; eauto|]. split; reflexivity.
          * split; [left; reflexivity|]. split; reflexivity.
        + injection Hres as -> ->. split; [left; reflexivity|]. split; reflexivity. }
    split; [exact Hl|]. split; [exact Hset3|]. split; [reflexivity|].
    split; [cbn; now rewrite Hclk|]. split; [|exact Hr].
    exists j1, w1, w2. split; [exact Hset1|exact Hc].
Qed.

(** The run of a job whose command writes nothing: one [Log], with both
    streams empty. *)
Lemma run_records_one_log_witness :
  exists result w' log,
    run Sample.env Sample.cleanup_job true (Sample.boot 1000) = (result, w')
    /\ logs w' = ([] ++ [log])%list
    /\ settings (job log) = settings Sample.cleanup_job
    /\ run_date log = 1000
    /\ end_date log = Some (clock w')
    /\ (exists j w1 w2,
          settings j = settings Sample.cleanup_job
          /\ command_method Sample.env j w1 = (Ok (success log, stdout log, stderr log), w2))
    /\ (result = Ok tt
        \/ exists m e, mail_transport Sample.env m w' = Some e /\ result = Raise e).
Proof.
  apply (run_records_one_log Sample.env Sample.cleanup_job true (Sample.boot 1000)).
  - exists {["count" := PInt 4]}. split; [vm_compute; reflexivity|].
    intros d. eexists. reflexivity.
  - split.
    + eexists. vm_compute. reflexivity.
    + intros a o w e. vm_compute. discriminate.
Defined.

(** C1 as stated fails: [run] raises to its caller the error of the mail
    transport that cannot send the notification (the [Log] exists by then). *)
Lemma run_raises_when_mail_fails :
  exists w',
    run Sample.env_mail_down Sample.broken_job true (Sample.boot 1000)
      = (Raise (Sample.SMTPException "Connection refused"), w')
    /\ length (logs w') = 1%nat.
Proof. eexists. vm_compute. split; reflexivity. Qed.

(** ** The next occurrence, as [run] stores it *)

(** C2, as the code has it.  When the recurrence library accepts the rule,
    [NextOccurrence] is the first occurrence of the rule that is strictly
    later than [after], and null when the rule has no occurrence later than
    [after].  A frequency name that the recurrence module does not define
    falls back to [DAILY].  It is what a completed [run] that updates the dates
    stores as [next_run] of a job that is not disabled, for [after] the start
    of the run. *)
Theorem NextOccurrence_is_first_later :
  (forall (env : Env) (self : Job) (after : Time) (occurrences : list Time),
     get_rrule env (set_last_run (Some after) self) = Ok occurrences ->
     NextOccurrence env self after = Ok (rrule_after occurrences after)
     /\ match rrule_after occurrences after with
        | Some t =>
            after < t
            /\ exists before rest,
                 occurrences = (before ++ t :: rest)%list
                 /\ Forall (fun i => i <= after) before
        | None => Forall (fun i => i <= after) occurrences
        end)
  /\ (forall (env : Env) (self : Job),
        rrule_getattr env (frequency self) = None ->
        get_rrule env self =
          res_bind (get_params (params self))
                   (rrule_iter env (AFreq DAILY) (last_run self)))
  /\ (forall (env : Env) (self : Job) (w w' : World),
        run env self true w = (Ok tt, w') -> disabled self = false ->
        exists stored,
          jobs w' !! id self = Some stored
          /\ last_run stored = Some (clock w)
          /\ NextOccurrence env self (clock w) = Ok (next_run stored)).
Proof.
  split; [|split].
  - intros env self after occurrences Hr. split.
    + unfold NextOccurrence, rrule_after_of. rewrite Hr. reflexivity.
    + unfold rrule_after. pose proof (find_first (fun i => after <? i) occurrences) as H.
      destruct (List.find _ occurrences) as [t|].
      * destruct H as [Ht [before [rest [-> Hb]]]]. apply Z.ltb_lt in Ht.
        split; [exact Ht|]. exists before, rest. split; [reflexivity|].
        eapply Forall_impl; [exact Hb|].
        intros i Hi. cbv beta in Hi. apply Z.ltb_ge in Hi. exact Hi.
      * eapply Forall_impl; [exact H|].
        intros i Hi. cbv beta in Hi. apply Z.ltb_ge in Hi. exact Hi.
  - intros env self Hf. unfold get_rrule. rewrite Hf. reflexivity.
  - intros env self w w' Hrun Hd.
    destruct (run_cases env self true w _ _ Hrun)
      as [(e & He & _)|(j1 & w1 & successful & out & err & w2 & j3 & w4 & Hset1 & Hcmd & Hset3
                        & Hok3 & Hrun3 & Hlast3 & Hnext3 & Hjobs4 & Hlogs4 & Hout4 & Hres)];
      [discriminate|].
    exists j3. split; [|split; [exact (Hlast3 eq_refl)|exact (Hnext3 eq_refl Hd)]].
    cbv zeta in Hres.
    assert (jobs w' = jobs w4) as ->; [|exact Hjobs4].
    destruct (negb successful).
    + rewrite email_subscribers_cases in Hres.
      destruct (mail_transport env _ _); [discriminate|].
      injection Hres as ->. reflexivity.
    + destruct (negb (String.eqb out "") || negb (String.eqb err "")).
      * rewrite email_subscribers_cases in Hres.
        destruct (mail_transport env _ _); [discriminate|].
        injection Hres as ->. reflexivity.
      * injection Hres as ->. reflexivity.
Qed.

(** A daily rule of three occurrences started at 1000; a job whose frequency is
    not a name of the recurrence module; and the run of the first at 1000. *)
Lemma NextOccurrence_is_first_later_witness :
  (NextOccurrence Sample.env Sample.report_job 1000
     = Ok (rrule_after [1000; 87400; 173800] 1000)
   /\ match rrule_after [1000; 87400; 173800] 1000 with
      | Some t =>
          1000 < t
          /\ exists before rest,
               [1000; 87400; 173800] = (before ++ t :: rest)%list
               /\ Forall (fun i => i <= 1000) before
      | None => Forall (fun i => i <= 1000) [1000; 87400; 173800]
      end)
  /\ get_rrule Sample.env Sample.fortnightly_job =
       res_bind (get_params (params Sample.fortnightly_job))
                (rrule_iter Sample.env (AFreq DAILY) (last_run Sample.fortnightly_job))
  /\ (exists stored,
        jobs (snd (run Sample.env Sample.report_job true (Sample.boot 1000))) !! 1 = Some stored
        /\ last_run stored = Some 1000
        /\ NextOccurrence Sample.env Sample.report_job 1000 = Ok (next_run stored)).
Proof.
  split; [|split].
  - apply (proj1 NextOccurrence_is_first_later Sample.env Sample.report_job 1000).
    vm_compute. reflexivity.
  - apply (proj1 (proj2 NextOccurrence_is_first_later) Sample.env Sample.fortnightly_job).
    vm_compute. reflexivity.
  - apply (proj2 (proj2 NextOccurrence_is_first_later) Sample.env Sample.report_job
                 (Sample.boot 1000)).
    + vm_compute. reflexivity.
    + reflexivity.
Defined.

(** C2 as stated fails: for the daily rule with [count:1] started at 1000, a
    valid frequency and parameter string, the only occurrence is 1000, and the
    next occurrence after 1000 is null, not a later time. *)
Lemma NextOccurrence_of_spent_rule_is_null :
  get_params (params Sample.once_job) = Ok {["count" := PInt 1]}
  /\ Sample.getattr (frequency Sample.once_job) = Some (AFreq DAILY)
  /\ get_rrule Sample.env (set_last_run (Some 1000) Sample.once_job) = Ok [1000]
  /\ NextOccurrence Sample.env Sample.once_job 1000 = Ok None.
Proof. repeat split; vm_compute; reflexivity. Qed.

(** ** Runs of the sample jobs *)

Example run_quiet_job :
  let '(result, w') := run Sample.env Sample.cleanup_job true (Sample.boot 1000) in
  result = Ok tt
  /\ map (fun l => (run_date l, end_date l, stdout l, stderr l, success l)) (logs w')
     = [(1000, Some 1001, "", "", true)]
  /\ outbox w' = []
  /\ next_run <$> (jobs w' !! 2) = Some (Some 605800).
Proof. vm_compute. repeat split. Qed.

(** An argument with a second [=]: the error of [get_args] leaves
    [run_management_command], the [finally] clause of [run] reads [successful]
    before it was ever assigned, no [Log] is created and the job stays marked
    as running. *)
Example run_with_second_equals :
  let j := Sample.new_job 1 "DAILY" (Some "count:3") "report" "" false "arg1 url=/search?q=1" in
  let '(result, w') := run Sample.env j true (Sample.boot 1000) in
  result = Raise (UnboundLocalError "local variable 'successful' referenced before assignment")
  /\ logs w' = []
  /\ is_running <$> (jobs w' !! 1) = Some true.
Proof. vm_compute. repeat split. Qed.

Example shlex_split_words :
  Shlex.split "echo hi there" = Ok ["echo"; "hi"; "there"]
  /\ Shlex.split "tar -czf 'my backup.tgz' /srv" = Ok ["tar"; "-czf"; "my backup.tgz"; "/srv"]
  /\ Shlex.split "echo 'unterminated" = Raise (ValueError "No closing quotation").
Proof. vm_compute. repeat split. Qed.

Example escape_backquote :
  _escape_shell_command "echo `id` $HOME" = "echo \`id\` \$HOME".
Proof. vm_compute. reflexivity. Qed.

Example format_d_examples :
  PyStr.format_d (-127) = "-127" /\ PyStr.format_d 0 = "0" /\ PyStr.format_d 1000 = "1000".
Proof. vm_compute. auto. Qed.

(** The example of the docstring of [get_params], and those of the help text
    of the field. *)
Example get_params_docstring :
  get_params (Some "count:1;bysecond:1;byminute:1,2,4,5")
  = Ok (<["count" := PInt 1]>
          (<["byminute" := PList [1; 2; 4; 5]]> {["bysecond" := PInt 1]}))
  /\ get_params (Some "interval:15") = Ok {["interval" := PInt 15]}
  /\ get_params (Some "byhour:6;byminute:40")
     = Ok (<["byhour" := PInt 6]> {["byminute" := PInt 40]})
  /\ get_params None = Ok ∅.
Proof. vm_compute. repeat split. Qed.

Example int_examples :
  PyStr.int " 42 " = Ok 42 /\ PyStr.int "-3" = Ok (-3) /\ PyStr.int "+7" = Ok 7
  /\ PyStr.int "" = Raise (ValueError "invalid literal for int() with base 10: ")
  /\ PyStr.int "4 2" = Raise (ValueError "invalid literal for int() with base 10: 4 2").
Proof. vm_compute. repeat split. Qed.

(** * Further properties *)

(** ** The course of a run *)

Section CourseFacts.

Variable env : Env.

Lemma command_method_frame (j : Job) (w : World) r w' :
  command_method env j w = (r, w') -> same_records w w'.
Proof.
  unfold command_method. destruct (negb (String.eqb (shell_command j) ""));
    [apply run_shell_command_frame|apply run_management_command_frame].
Qed.

Lemma command_method_jobs (j : Job) (w : World) r w' :
  command_method env j w = (r, w') -> jobs w' = jobs w.
Proof. intros H. now destruct (command_method_frame _ _ _ _ H). Qed.

(** Every run takes one of the courses of [RunTrace]. *)
Lemma run_trace (self : Job) (save_ : bool) (w : World) (res : Res unit) (w' : World) :
  run env self save_ w = (res, w') -> RunTrace env self save_ w res w'.
Proof.
  unfold run. unfold bind at 1. unfold now at 1. unfold bind at 1.
  destruct (save env (set_is_running true self) w) as [[j1|e1] w1] eqn:Hs1.
  2:{ intros [= <- <-]. pose proof (save_raises_frame env _ _ _ _ Hs1) as ->.
      apply Trace_first_save_raises. exact Hs1. }
  destruct (save_inv env _ _ _ _ Hs1) as (Hw1 & Hset1 & _ & _).
  change (settings (set_is_running true self)) with (settings self) in Hset1.
  change (id (set_is_running true self)) with (id self) in Hw1. subst w1.
  pose proof (settings_id _ _ Hset1) as Hid1.
  unfold bind at 1. unfold attempt at 1.
  fold (command_method env j1).
  destruct (command_method env j1 (with_jobs (<[id self:=j1]> (jobs w)) w))
    as [outcome w2] eqn:Hcmd.
  destruct (command_method_frame _ _ _ _ Hcmd) as (Hj2 & Hl2 & Ho2).
  cbn [jobs logs outbox with_jobs] in Hj2, Hl2, Ho2.
  assert (jobs w2 !! id j1 = Some j1) as Hget.
  { rewrite Hj2, Hid1. apply lookup_insert_eq. }
  unfold bind at 1. unfold run_finally at 1. unfold bind at 1. unfold objects_get at 1.
  rewrite Hget.
  destruct outcome as [[[successful out] err]|e2].
  2:{ unfold raise. intros [= <- <-]. eapply Trace_command_raises; eassumption. }
  fold (finished successful j1).
  destruct (save env (finished successful j1) w2) as [[j2|e3] w3] eqn:Hs2.
  2:{ intros [= <- <-]. pose proof (save_raises_frame env _ _ _ _ Hs2) as ->.
      eapply Trace_second_save_raises; eassumption. }
  destruct (save_inv env _ _ _ _ Hs2) as (Hw3 & Hset2 & _ & Hok2).
  change (settings (finished successful j1)) with (settings j1) in Hset2.
  change (id (finished successful j1)) with (id j1) in Hw3.
  change (last_run_successful (finished successful j1)) with successful in Hok2.
  rewrite Hid1 in Hw3. subst w3.
  pose proof (settings_id _ _ Hset2) as Hid2.
  unfold bind at 1. unfold lift at 1. unfold bind at 1.
  destruct save_.
  - unfold bind at 1. unfold lift at 1.
    destruct (rrule_after_of env (set_last_run (Some (clock w)) j2) (Some (clock w)))
      as [r|e4] eqn:Hr.
    2:{ intros [= <- <-]. eapply Trace_rule_raises; try eassumption. reflexivity. }
    destruct (save env (set_next_run r (set_last_run (Some (clock w)) j2))
                   (with_jobs (<[id self:=j2]> (jobs w2)) w2)) as [[j3|e5] w4] eqn:Hs3.
    2:{ intros [= <- <-]. pose proof (save_raises_frame env _ _ _ _ Hs3) as ->.
        eapply Trace_third_save_raises; try eassumption. reflexivity. }
    destruct (save_inv env _ _ _ _ Hs3) as (Hw4 & Hset3 & _ & Hok3).
    change (id (set_next_run r (set_last_run (Some (clock w)) j2))) with (id j2) in Hw4.
    change (last_run_successful (set_next_run r (set_last_run (Some (clock w)) j2)))
      with (last_run_successful j2) in Hok3.
    cbn [jobs with_jobs] in Hw4. rewrite Hid2, Hid1, insert_insert_eq in Hw4.
    assert (w4 = with_jobs (<[id self:=j3]> (jobs w2)) w2) as -> by (rewrite Hw4; reflexivity).
    clear Hw4.
    unfold bind at 1. unfold now at 1. unfold bind at 1. unfold Log_objects_create at 1.
    cbn [logs clock with_jobs]. rewrite Hl2, Hok3, Hok2.
    intros Hres. eapply Trace_log; try eassumption.
    exists r. split; [exact Hr|exact Hs3].
  - unfold ret at 1.
    unfold bind at 1. unfold now at 1. unfold bind at 1. unfold Log_objects_create at 1.
    cbn [logs clock with_jobs]. rewrite Hl2, Hok2.
    intros Hres. eapply Trace_log with (j3 := j2); try eassumption; reflexivity.
Qed.

(** What the notification changes: the outbox, by one message at most. *)
Lemma notify_frame (log : Log) (w : World) (res : Res unit) (w' : World) :
  notify env log w = (res, w') ->
  jobs w' = jobs w /\ logs w' = logs w /\ clock w' = clock w
  /\ sys_stdout w' = sys_stdout w /\ sys_stderr w' = sys_stderr w
  /\ console_out w' = console_out w /\ console_err w' = console_err w
  /\ (outbox w' = outbox w \/ exists m, outbox w' = (outbox w ++ [m])%list).
Proof.
  unfold notify.
  destruct (negb (success log));
    [|destruct (negb (String.eqb (stdout log) "") || negb (String.eqb (stderr log) ""))].
  - rewrite email_subscribers_cases.
    destruct (mail_transport env _ _); intros [= <- <-]; cbn; eauto 12.
  - rewrite email_subscribers_cases.
    destruct (mail_transport env _ _); intros [= <- <-]; cbn; eauto 12.
  - intros [= <- <-]. eauto 12.
Qed.

(** The channels after a command method whose command can be started. *)
Lemma command_method_channels (self : Job) (w : World) r w' :
  command_ok env self -> command_method env self w = (r, w') ->
  sys_stdout w' = sys_stdout w /\ sys_stderr w' = sys_stderr w
  /\ console_out w' = console_out w /\ console_err w' = console_err w.
Proof.
  unfold command_ok, command_method.
  destruct (String.eqb (shell_command self) ""); cbn [negb].
  - intros [[[a o] Ha] Hexc]. rewrite (run_management_command_eq env self w a o Ha).
    destruct (cmd_raises _) as [e|] eqn:He.
    + rewrite (Hexc _ _ _ _ He). intros [= <- <-]. auto.
    + intros [= <- <-]. auto.
  - intros [[c Hc] Hexc]. rewrite (run_shell_command_eq env self w c Hc).
    destruct (proc_result _) as [out err code|e] eqn:Hp.
    + intros [= <- <-]. auto.
    + rewrite (Hexc _ _ _ _ Hp). intros [= <- <-]. auto.
Qed.

(** The command method raises what the preparation of the command raises,
    before anything is started. *)
Lemma command_method_raises (self : Job) (w : World) (e : PyExc) :
  (if String.eqb (shell_command self) "" then get_args (args self) = Raise e
   else popen_command self = Raise e) ->
  command_method env self w = (Raise e, w).
Proof.
  unfold command_method. destruct (String.eqb (shell_command self) ""); cbn [negb]; intros H.
  - unfold run_management_command, Job_get_args, bind, lift. now rewrite H.
  - now apply run_shell_command_raise.
Qed.

End CourseFacts.


Lemma due_intro (w : World) (j : Job) (pk : Z) (t : Time) :
  jobs w !! pk = Some j -> disabled j = false -> is_running j = false ->
  next_run j = Some t -> t <= clock w -> j ∈ due w.
Proof.
  intros Hpk Hd Hr Hn Ht. unfold due. apply list_elem_of_filter. split.
  - rewrite Hd, Hr, Hn. simpl. rewrite andb_true_r, andb_true_r. now apply Z.leb_le.
  - apply list_elem_of_fmap. exists (pk, j). split; [reflexivity|].
    apply elem_of_map_to_list. exact Hpk.
Qed.

Lemma settings_disabled (j j' : Job) : settings j' = settings j -> disabled j' = disabled j.
Proof. unfold settings. now intros [= _ _ _ _ _ _ _ _ H _ _]. Qed.

Lemma settings_command (j j' : Job) :
  settings j' = settings j -> shell_command j' = shell_command j /\ args j' = args j.
Proof. unfold settings. intros [= _ _ _ _ _ Hs _ Ha _ _ _]. auto. Qed.

Lemma popen_command_settings (j j' : Job) :
  settings j' = settings j -> popen_command j' = popen_command j.
Proof.
  unfold settings, popen_command. intros [= _ _ _ _ _ Hs Hr Ha _ _ _]. now rewrite Hs, Hr, Ha.
Qed.



(** X2. When the command of a job cannot be prepared - [get_args] rejects the
    arguments of a management command, or the line of a shell command cannot
    be encoded or split - [run] raises [UnboundLocalError] from its [finally]
    clause, whatever the error was; no [Log] is created and no message sent;
    and the job stays stored as running, so that [due] never returns it
    again. *)
Theorem run_leaves_job_running_when_command_cannot_start
    (env : Env) (self : Job) (save_ : bool) (w : World) (e : PyExc) :
  recurrence_ok env self ->
  (if String.eqb (shell_command self) "" then get_args (args self) = Raise e
   else popen_command self = Raise e) ->
  exists w' stored,
    run env self save_ w
    = (Raise (UnboundLocalError "local variable 'successful' referenced before assignment"), w')
    /\ logs w' = logs w /\ outbox w' = outbox w
    /\ jobs w' !! id self = Some stored
    /\ settings stored = settings self
    /\ is_running stored = true
    /\ forall w'', stored ∉ due w''.
Proof.
  intros Hrec Hprep.
  destruct (save_ok env (started self) w) as [j1 Hs1].
  { revert Hrec. apply recurrence_ok_settings. reflexivity. }
  destruct (save_inv env _ _ _ _ Hs1) as (_ & Hset1 & Hrun1 & _).
  change (settings (started self)) with (settings self) in Hset1.
  change (id (started self)) with (id self) in Hs1.
  destruct (settings_command _ _ Hset1) as (Hsh & Ha).
  assert (command_method env j1 (with_jobs (<[id self := j1]> (jobs w)) w)
          = (Raise e, with_jobs (<[id self := j1]> (jobs w)) w)) as Hcmd.
  { apply command_method_raises. rewrite Hsh, Ha, (popen_command_settings _ _ Hset1).
    exact Hprep. }
  destruct (run env self save_ w) as [res w'] eqn:Hrun.
  apply run_trace in Hrun.
  destruct Hrun as [e' Hs1'|j1' e' w2 Hs1' Hcmd'|j1' succ out err w2 e' Hs1' Hcmd' Hs2
                   |j1' succ out err w2 j2 e' _ Hs1' Hcmd' Hs2 Hr
                   |j1' succ out err w2 j2 r e' _ Hs1' Hcmd' Hs2 Hr Hs3
                   |j1' succ out err w2 j2 j3 res w' Hs1' Hcmd' Hs2 Hs3 Hn];
    [congruence| |rewrite Hs1 in Hs1'; injection Hs1' as <-; congruence ..].
  rewrite Hs1 in Hs1'. injection Hs1' as <-. rewrite Hcmd in Hcmd'. injection Hcmd' as <- <-.
  eexists _, j1. split; [reflexivity|]. cbn.
  split; [reflexivity|]. split; [reflexivity|].
  split; [apply lookup_insert_eq|]. split; [exact Hset1|]. split; [exact Hrun1|].
  intros w'' Hdue. apply due_elim in Hdue. destruct Hdue as (_ & _ & Hf & _).
  rewrite Hrun1 in Hf. discriminate.
Qed.

Lemma run_leaves_job_running_when_command_cannot_start_witness :
  exists w' stored,
    run Sample.env Cases.misargued_job true (Sample.boot 1000)
    = (Raise (UnboundLocalError "local variable 'successful' referenced before assignment"), w')
    /\ logs w' = logs (Sample.boot 1000) /\ outbox w' = outbox (Sample.boot 1000)
    /\ jobs w' !! 1 = Some stored
    /\ settings stored = settings Cases.misargued_job
    /\ is_running stored = true
    /\ forall w'', stored ∉ due w''.
Proof.
  apply (run_leaves_job_running_when_command_cannot_start Sample.env Cases.misargued_job
           true (Sample.boot 1000) (ValueError "too many values to unpack")).
  - exists {["count" := PInt 3]}. split; [vm_compute; reflexivity|].
    intros d. eexists. reflexivity.
  - vm_compute. reflexivity.
Defined.

(** X3. When the command of the job can be started, [run] ends - whatever its
    outcome - with [sys.stdout] and [sys.stderr] bound to what they were bound
    to, and nothing written to the console: what the command writes goes to
    the buffers only. *)
Theorem run_restores_channels (env : Env) (self : Job) (save_ : bool) (w : World)
    (res : Res unit) (w' : World) :
  command_ok env self ->
  run env self save_ w = (res, w') ->
  sys_stdout w' = sys_stdout w /\ sys_stderr w' = sys_stderr w
  /\ console_out w' = console_out w /\ console_err w' = console_err w.
Proof.
  intros Hok Hrun. apply run_trace in Hrun.
  assert (forall j1 w1, save env (started self) w = (Ok j1, w1) -> command_ok env j1) as Hok1.
  { intros j1 w1 Hs1. destruct (save_inv env _ _ _ _ Hs1) as (_ & Hset1 & _).
    revert Hok. apply command_ok_settings. exact Hset1. }
  destruct Hrun as [e Hs1|j1 e w2 Hs1 Hcmd|j1 succ out err w2 e Hs1 Hcmd Hs2
                   |j1 succ out err w2 j2 e _ Hs1 Hcmd Hs2 Hr
                   |j1 succ out err w2 j2 r e _ Hs1 Hcmd Hs2 Hr Hs3
                   |j1 succ out err w2 j2 j3 res w' Hs1 Hcmd Hs2 Hs3 Hn].
  - auto.
  - exact (command_method_channels env _ _ _ _ (Hok1 _ _ Hs1) Hcmd).
  - exact (command_method_channels env _ _ _ _ (Hok1 _ _ Hs1) Hcmd).
  - exact (command_method_channels env _ _ _ _ (Hok1 _ _ Hs1) Hcmd).
  - exact (command_method_channels env _ _ _ _ (Hok1 _ _ Hs1) Hcmd).
  - destruct (notify_frame env _ _ _ _ Hn) as (_ & _ & _ & -> & -> & -> & -> & _).
    exact (command_method_channels env _ _ _ _ (Hok1 _ _ Hs1) Hcmd).
Qed.

Lemma run_restores_channels_witness :
  sys_stdout (snd (run Sample.env Sample.broken_job true (Sample.boot 1000)))
  = sys_stdout (Sample.boot 1000)
  /\ sys_stderr (snd (run Sample.env Sample.broken_job true (Sample.boot 1000)))
     = sys_stderr (Sample.boot 1000)
  /\ console_out (snd (run Sample.env Sample.broken_job true (Sample.boot 1000)))
     = console_out (Sample.boot 1000)
  /\ console_err (snd (run Sample.env Sample.broken_job true (Sample.boot 1000)))
     = console_err (Sample.boot 1000).
Proof.
  apply (run_restores_channels Sample.env Sample.broken_job true (Sample.boot 1000)
           (fst (run Sample.env Sample.broken_job true (Sample.boot 1000)))).
  - split.
    + eexists. vm_compute. reflexivity.
    + intros a o w e. vm_compute. intros [= <-]. reflexivity.
  - vm_compute. reflexivity.
Defined.

(** ** Saving again, and the dates a run leaves *)

Section SettledFacts.

Variable env : Env.

Lemma set_next_run_same (j : Job) (r : option Time) : next_run j = r -> set_next_run r j = j.
Proof. intros <-. now destruct j. Qed.

Lemma rrule_after_of_fields (j j' : Job) (dt : option Time) :
  settings j' = settings j -> last_run j' = last_run j ->
  rrule_after_of env j' dt = rrule_after_of env j dt.
Proof.
  unfold settings, rrule_after_of, get_rrule.
  intros [= _ _ Hf Hp _ _ _ _ _ _ _] Hl. now rewrite Hf, Hp, Hl.
Qed.

(** The job [save] returns is settled. *)
Lemma save_settles (self j : Job) (w w' : World) :
  save env self w = (Ok j, w') -> settled env j.
Proof.
  unfold settled, save, bind, ret, now, lift, Model_save.
  destruct (disabled self) eqn:Hd; cbn.
  - intros [= <- _]. cbn. now rewrite Hd.
  - destruct (last_run self) as [t|] eqn:Hl.
    + destruct (next_run self) as [n|] eqn:Hn.
      * intros [= <- _]. rewrite Hd. exists t. split; [exact Hl|]. congruence.
      * destruct (rrule_after_of env self (last_run self)) as [r|e] eqn:Hr; [|discriminate].
        intros [= <- _]. cbn. rewrite Hd. exists t. split; [exact Hl|].
        intros ->. now rewrite <- Hl.
    + cbn. destruct (next_run self) as [n|] eqn:Hn.
      * intros [= <- _]. cbn. rewrite Hd. exists (clock w). split; [reflexivity|].
        cbn. congruence.
      * destruct (rrule_after_of env _ _) as [r|e] eqn:Hr; [|discriminate].
        intros [= <- _]. cbn. rewrite Hd. exists (clock w). split; [reflexivity|].
        intros ->. exact Hr.
Qed.

(** Saving a settled job writes it as it is, without an error. *)
Lemma save_of_settled (j : Job) (w : World) :
  settled env j -> save env j w = (Ok j, with_jobs (<[id j := j]> (jobs w)) w).
Proof.
  unfold settled, save, bind, ret, now, lift, Model_save.
  destruct (disabled j); cbn [negb].
  - intros Hn. now rewrite (set_next_run_same j None Hn).
  - intros (t & Hl & Hn). rewrite Hl.
    destruct (next_run j) as [n|] eqn:Hnext; [reflexivity|].
    rewrite Hl, (Hn eq_refl). now rewrite (set_next_run_same j None Hnext).
Qed.

Lemma settled_fields (j j' : Job) :
  settings j' = settings j -> last_run j' = last_run j -> next_run j' = next_run j ->
  settled env j -> settled env j'.
Proof.
  intros Hs Hl Hn. unfold settled. rewrite (settings_disabled _ _ Hs), Hn, Hl.
  destruct (disabled j); [auto|].
  intros (t & Ht & Hr). exists t. split; [exact Ht|].
  intros H. rewrite (rrule_after_of_fields j j' _ Hs Hl). auto.
Qed.

(** The dates [save] gives to a job that is not disabled and has never run. *)
Lemma save_unsaved (self j : Job) (w w' : World) :
  disabled self = false -> last_run self = None ->
  save env self w = (Ok j, w') ->
  last_run j = Some (clock w)
  /\ match next_run self with
     | Some n => next_run j = Some n
     | None => NextOccurrence env self (clock w) = Ok (next_run j)
     end.
Proof.
  intros Hd Hl. unfold NextOccurrence, save, bind, ret, now, lift, Model_save.
  rewrite Hd, Hl. cbn.
  destruct (next_run self) as [n|] eqn:Hn.
  - intros [= <- _]. cbn. auto.
  - destruct (rrule_after_of env _ _) as [r|e] eqn:Hr; [|discriminate].
    intros [= <- _]. cbn. auto.
Qed.

(** What a completed run that updates the dates stores. *)
Lemma run_stores_next_occurrence (self : Job) (w w' : World) :
  disabled self = false ->
  run env self true w = (Ok tt, w') ->
  exists stored,
    jobs w' !! id self = Some stored
    /\ settings stored = settings self
    /\ is_running stored = false
    /\ NextOccurrence env self (clock w) = Ok (next_run stored).
Proof.
  intros Hd Hrun. apply run_trace in Hrun.
  inversion Hrun as [| | | | |j1 succ out err w2 j2 j3 res w'' Hs1 Hcmd Hs2 Hs3 Hn Hres Hw].
  subst. destruct Hs3 as (r & Hr & Hs3).
  destruct (save_inv env _ _ _ _ Hs1) as (_ & Hset1 & _).
  destruct (save_inv env _ _ _ _ Hs2) as (_ & Hset2 & Hrun2 & _).
  destruct (save_inv env _ _ _ _ Hs3) as (_ & Hset3 & Hrun3 & _).
  assert (settings j2 = settings self) as Hj2 by (rewrite Hset2; exact Hset1).
  assert (disabled j2 = false) as Hd2 by (rewrite (settings_disabled _ _ Hj2); exact Hd).
  destruct (save_keeps_computed_next_run env (set_last_run (Some (clock w)) j2) j3 (clock w) r
              _ _ Hd2 eq_refl Hr Hs3) as [Hnext _].
  destruct (notify_frame env _ _ _ _ Hn) as (Hjobs & _).
  cbn in Hjobs.
  exists j3. split; [rewrite Hjobs; apply lookup_insert_eq|].
  split; [rewrite Hset3; exact Hj2|].
  split; [rewrite Hrun3; exact Hrun2|].
  unfold NextOccurrence. rewrite <- (rrule_after_of_settings env self j2) by exact Hj2.
  rewrite Hnext. exact Hr.
Qed.

End SettledFacts.

(** X4. [save] is idempotent: saving the job that a [save] returned, in the
    database that [save] left, returns the same job and leaves the same
    database.  A [next_run] that is set is never computed again, and one that
    the rule left null is computed to null again. *)
Theorem save_twice (env : Env) (self j : Job) (w w' : World) :
  save env self w = (Ok j, w') -> save env j w' = (Ok j, w').
Proof.
  intros Hs. rewrite (save_of_settled env j w' (save_settles env _ _ _ _ Hs)).
  destruct (save_inv env _ _ _ _ Hs) as (-> & Hset & _). cbn.
  now rewrite (settings_id _ _ Hset), insert_insert_eq.
Qed.

Lemma save_twice_witness :
  exists j w',
    save Sample.env Sample.report_job (Sample.boot 1000) = (Ok j, w')
    /\ save Sample.env j w' = (Ok j, w').
Proof.
  eexists _, _. split; [vm_compute; reflexivity|].
  apply (save_twice Sample.env Sample.report_job _ (Sample.boot 1000)).
  vm_compute. reflexivity.
Defined.

(** X5. With [save=False], [run] leaves the dates of a job that was saved
    before as they are, whatever the outcome of the run: the stored job has
    the [last_run] and the [next_run] it had. *)
Theorem run_without_save_keeps_dates (env : Env) (self : Job) (w : World)
    (res : Res unit) (w' : World) :
  settled env self ->
  run env self false w = (res, w') ->
  exists stored,
    jobs w' !! id self = Some stored
    /\ settings stored = settings self
    /\ last_run stored = last_run self /\ next_run stored = next_run self.
Proof.
  intros Hset Hrun.
  assert (settled env (started self)) as Hst.
  { revert Hset. now apply settled_fields. }
  assert (forall b, settled env (finished b (started self))) as Hfin.
  { intros b. revert Hset. now apply settled_fields. }
  apply run_trace in Hrun.
  destruct Hrun as [e Hs1|j1 e w2 Hs1 Hcmd|j1 succ out err w2 e Hs1 Hcmd Hs2
                   |j1 succ out err w2 j2 e Hsave Hs1 Hcmd Hs2 Hr
                   |j1 succ out err w2 j2 r e Hsave Hs1 Hcmd Hs2 Hr Hs3
                   |j1 succ out err w2 j2 j3 res w' Hs1 Hcmd Hs2 Hs3 Hn];
    try discriminate.
  - rewrite (save_of_settled env _ w Hst) in Hs1. discriminate.
  - rewrite (save_of_settled env _ w Hst) in Hs1. injection Hs1 as <-.
    exists (started self). rewrite (command_method_jobs env _ _ _ _ Hcmd). cbn.
    split; [apply lookup_insert_eq|]. auto.
  - rewrite (save_of_settled env _ w Hst) in Hs1. injection Hs1 as <-.
    rewrite (save_of_settled env _ w2 (Hfin succ)) in Hs2. discriminate.
  - rewrite (save_of_settled env _ w Hst) in Hs1. injection Hs1 as <-.
    rewrite (save_of_settled env _ w2 (Hfin succ)) in Hs2. injection Hs2 as <-.
    subst j3. destruct (notify_frame env _ _ _ _ Hn) as (-> & _). cbn.
    exists (finished succ (started self)). split; [apply lookup_insert_eq|]. auto.
Qed.

(** A job whose rule is used up, run again without updating the dates. *)
Lemma run_without_save_keeps_dates_witness :
  exists stored,
    jobs (snd (run Sample.env Sample.spent_job false Sample.spent_world)) !! 1 = Some stored
    /\ settings stored = settings Sample.spent_job
    /\ last_run stored = Some 1000 /\ next_run stored = None.
Proof.
  apply (run_without_save_keeps_dates Sample.env Sample.spent_job Sample.spent_world
           (fst (run Sample.env Sample.spent_job false Sample.spent_world))).
  - exists 1000. split; [reflexivity|]. intros _. vm_compute. reflexivity.
  - vm_compute. reflexivity.
Defined.

(** X6. With [save=False], [run] still stamps a job that was never saved: the
    first [self.save()] of [run] sets [last_run] to the start of the run and
    computes a missing [next_run], and these dates stay. *)
Theorem run_without_save_stamps_unsaved_job (env : Env) (self : Job) (w : World)
    (res : Res unit) (w' : World) :
  recurrence_ok env self ->
  disabled self = false -> last_run self = None ->
  run env self false w = (res, w') ->
  exists stored,
    jobs w' !! id self = Some stored
    /\ last_run stored = Some (clock w)
    /\ match next_run self with
       | Some n => next_run stored = Some n
       | None => NextOccurrence env self (clock w) = Ok (next_run stored)
       end.
Proof.
  intros Hrec Hd Hl Hrun.
  assert (forall j1 w1, save env (started self) w = (Ok j1, w1) ->
            last_run j1 = Some (clock w)
            /\ match next_run self with
               | Some n => next_run j1 = Some n
               | None => NextOccurrence env self (clock w) = Ok (next_run j1)
               end) as H1.
  { intros j1 w1 Hs1. exact (save_unsaved env (started self) j1 w w1 Hd Hl Hs1). }
  assert (forall j1 w1 b w2, save env (started self) w = (Ok j1, w1) ->
            save env (finished b j1) w2
            = (Ok (finished b j1),
               with_jobs (<[id (finished b j1) := finished b j1]> (jobs w2)) w2)) as H2.
  { intros j1 w1 b w2 Hs1. apply save_of_settled.
    generalize (save_settles env _ _ _ _ Hs1). now apply settled_fields. }
  apply run_trace in Hrun.
  destruct Hrun as [e Hs1|j1 e w2 Hs1 Hcmd|j1 succ out err w2 e Hs1 Hcmd Hs2
                   |j1 succ out err w2 j2 e Hsave Hs1 Hcmd Hs2 Hr
                   |j1 succ out err w2 j2 r e Hsave Hs1 Hcmd Hs2 Hr Hs3
                   |j1 succ out err w2 j2 j3 res w' Hs1 Hcmd Hs2 Hs3 Hn];
    try discriminate.
  - exfalso. destruct (save_ok env (started self) w) as [j Hj]; [|congruence].
    revert Hrec. now apply recurrence_ok_settings.
  - exists j1. rewrite (command_method_jobs env _ _ _ _ Hcmd). cbn.
    split; [apply lookup_insert_eq|]. exact (H1 _ _ Hs1).
  - exfalso. rewrite (H2 _ _ succ w2 Hs1) in Hs2. discriminate.
  - subst j3. rewrite (H2 _ _ succ w2 Hs1) in Hs2. injection Hs2 as <-.
    destruct (notify_frame env _ _ _ _ Hn) as (-> & _). cbn.
    exists (finished succ j1). split; [apply lookup_insert_eq|]. exact (H1 _ _ Hs1).
Qed.

Lemma run_without_save_stamps_unsaved_job_witness :
  exists stored,
    jobs (snd (run Sample.env Sample.cleanup_job false (Sample.boot 1000))) !! 2 = Some stored
    /\ last_run stored = Some 1000
    /\ NextOccurrence Sample.env Sample.cleanup_job 1000 = Ok (next_run stored).
Proof.
  apply (run_without_save_stamps_unsaved_job Sample.env Sample.cleanup_job (Sample.boot 1000)
           (fst (run Sample.env Sample.cleanup_job false (Sample.boot 1000)))).
  - exists {["count" := PInt 4]}. split; [vm_compute; reflexivity|].
    intros d. eexists. reflexivity.
  - reflexivity.
  - reflexivity.
  - vm_compute. reflexivity.
Defined.

(** X7. A job that was saved with dates, whose command can be started, and
    whose rule the recurrence library rejects at the start of the run (its
    parameters are mistyped, say): [run] with [save=True] runs the command,
    stores the outcome and clears the running flag, then raises the error of
    the rule.  No [Log] is created for the command that ran, no message is
    sent, and the dates of the job stay as they were. *)
Theorem run_without_log_when_rule_is_rejected (env : Env) (self : Job) (w : World)
    (e : PyExc) :
  settled env self -> command_ok env self ->
  NextOccurrence env self (clock w) = Raise e ->
  exists w' stored successful stdout_str stderr_str w2,
    run env self true w = (Raise e, w')
    /\ command_method env (started self) (with_jobs (<[id self := started self]> (jobs w)) w)
       = (Ok (successful, stdout_str, stderr_str), w2)
    /\ logs w' = logs w /\ outbox w' = outbox w
    /\ jobs w' !! id self = Some stored
    /\ stored = finished successful (started self).
Proof.
  intros Hset Hok Hnext.
  assert (forall b, settled env (finished b (started self))) as Hfin.
  { intros b. revert Hset. now apply settled_fields. }
  assert (settled env (started self)) as Hst.
  { revert Hset. now apply settled_fields. }
  destruct (command_method_total env (started self)
              (with_jobs (<[id self := started self]> (jobs w)) w))
    as (succ & out & err & w2 & Hc).
  { revert Hok. now apply command_ok_settings. }
  destruct (command_method_frame env _ _ _ _ Hc) as (Hj & Hl & Ho). cbn in Hj, Hl, Ho.
  assert (forall b, rrule_after_of env (set_last_run (Some (clock w)) (finished b (started self)))
                      (Some (clock w)) = Raise e) as Hrule.
  { intros b. unfold NextOccurrence in Hnext.
    now rewrite <- (rrule_after_of_settings env self (finished b (started self))) in Hnext. }
  destruct (run env self true w) as [res w'] eqn:Hrun.
  apply run_trace in Hrun.
  destruct Hrun as [e' Hs1|j1 e' w2' Hs1 Hcmd|j1 succ' out' err' w2' e' Hs1 Hcmd Hs2
                   |j1 succ' out' err' w2' j2 e' Hsave Hs1 Hcmd Hs2 Hr
                   |j1 succ' out' err' w2' j2 r e' Hsave Hs1 Hcmd Hs2 Hr Hs3
                   |j1 succ' out' err' w2' j2 j3 res w' Hs1 Hcmd Hs2 Hs3 Hn].
  - rewrite (save_of_settled env _ w Hst) in Hs1. discriminate.
  - rewrite (save_of_settled env _ w Hst) in Hs1. injection Hs1 as <-. congruence.
  - rewrite (save_of_settled env _ w Hst) in Hs1. injection Hs1 as <-.
    rewrite (save_of_settled env _ w2' (Hfin succ')) in Hs2. discriminate.
  - rewrite (save_of_settled env _ w Hst) in Hs1. injection Hs1 as <-.
    rewrite Hc in Hcmd. injection Hcmd as <- <- <- <-.
    rewrite (save_of_settled env _ w2 (Hfin succ)) in Hs2. injection Hs2 as <-.
    rewrite Hrule in Hr. injection Hr as <-.
    exists (with_jobs (<[id self:=finished succ (started self)]> (jobs w2)) w2),
      (finished succ (started self)), succ, out, err, w2.
    split; [reflexivity|]. split; [exact Hc|]. cbn.
    split; [exact Hl|]. split; [exact Ho|]. split; [apply lookup_insert_eq|reflexivity].
  - exfalso.
    rewrite (save_of_settled env _ w Hst) in Hs1. injection Hs1 as <-.
    rewrite Hc in Hcmd. injection Hcmd as <- <- <- <-.
    rewrite (save_of_settled env _ w2 (Hfin succ)) in Hs2. injection Hs2 as <-.
    rewrite Hrule in Hr. discriminate.
  - exfalso.
    rewrite (save_of_settled env _ w Hst) in Hs1. injection Hs1 as <-.
    rewrite Hc in Hcmd. injection Hcmd as <- <- <- <-.
    rewrite (save_of_settled env _ w2 (Hfin succ)) in Hs2. injection Hs2 as <-.
    destruct Hs3 as (r & Hr & _). rewrite Hrule in Hr. discriminate.
Qed.

Lemma run_without_log_when_rule_is_rejected_witness :
  exists w' stored successful stdout_str stderr_str w2,
    run Sample.env Cases.mistyped_job true (Sample.boot 3000)
    = (Raise (ValueError "invalid literal for int() with base 10: x"), w')
    /\ command_method Sample.env (started Cases.mistyped_job)
         (with_jobs (<[1 := started Cases.mistyped_job]> (jobs (Sample.boot 3000)))
                    (Sample.boot 3000))
       = (Ok (successful, stdout_str, stderr_str), w2)
    /\ logs w' = [] /\ outbox w' = []
    /\ jobs w' !! 1 = Some stored
    /\ stored = finished successful (started Cases.mistyped_job).
Proof.
  apply (run_without_log_when_rule_is_rejected Sample.env Cases.mistyped_job
           (Sample.boot 3000)).
  - exists 1000. split; [reflexivity|]. discriminate.
  - split.
    + eexists. vm_compute. reflexivity.
    + intros a o w e. vm_compute. discriminate.
  - vm_compute. reflexivity.
Defined.

(** X8. After a run that completed and updated the dates, a job that is not
    disabled is returned by [due] exactly when its rule has an occurrence after
    the start of the run and that occurrence is not later than now. *)
Theorem run_then_due (env : Env) (self : Job) (w w' : World) :
  disabled self = false ->
  run env self true w = (Ok tt, w') ->
  exists stored,
    jobs w' !! id self = Some stored
    /\ (stored ∈ due w' <->
        exists t, NextOccurrence env self (clock w) = Ok (Some t) /\ t <= clock w').
Proof.
  intros Hd Hrun.
  destruct (run_stores_next_occurrence env self w w' Hd Hrun)
    as (stored & Hget & Hset & Hrunning & Hnext).
  exists stored. split; [exact Hget|]. split.
  - intros Hdue. apply due_elim in Hdue. destruct Hdue as (_ & _ & _ & t & Ht & Hle).
    exists t. split; [|exact Hle]. rewrite Hnext. now rewrite Ht.
  - intros (t & Ht & Hle). rewrite Hnext in Ht. injection Ht as Ht.
    apply (due_intro w' stored (id self) t); try assumption.
    now rewrite (settings_disabled _ _ Hset).
Qed.

Lemma run_then_due_witness :
  exists stored,
    jobs (snd (run Sample.env Sample.cleanup_job true (Sample.boot 1000))) !! 2 = Some stored
    /\ (stored ∈ due (snd (run Sample.env Sample.cleanup_job true (Sample.boot 1000))) <->
        exists t, NextOccurrence Sample.env Sample.cleanup_job 1000 = Ok (Some t)
                  /\ t <= clock (snd (run Sample.env Sample.cleanup_job true
                                         (Sample.boot 1000)))).
Proof.
  apply (run_then_due Sample.env Sample.cleanup_job (Sample.boot 1000)).
  - reflexivity.
  - vm_compute. reflexivity.
Defined.

(** ** The command line of a shell command *)

Section StringFacts.

Lemma append_String (x : ascii) (a b : string) : String x a ++ b = String x (a ++ b).
Proof. reflexivity. Qed.

Lemma append_empty (b : string) : "" ++ b = b.
Proof. reflexivity. Qed.

Lemma string_app_assoc (a b c : string) : (a ++ b) ++ c = a ++ (b ++ c).
Proof.
  induction a as [|x a IH]; [reflexivity|]. rewrite !append_String. f_equal. exact IH.
Qed.

Lemma string_app_nil_r (a : string) : a ++ "" = a.
Proof. induction a as [|x a IH]; [reflexivity|]. rewrite append_String. f_equal. exact IH. Qed.

Lemma string_length_app (a b : string) :
  String.length (a ++ b) = (String.length a + String.length b)%nat.
Proof.
  induction a as [|c a IH]; [reflexivity|].
  rewrite append_String. cbn [String.length]. now rewrite IH.
Qed.

Lemma replace_char_app (c : ascii) (r a b : string) :
  PyStr.replace_char c r (a ++ b) = PyStr.replace_char c r a ++ PyStr.replace_char c r b.
Proof.
  induction a as [|x a IH]; [reflexivity|].
  rewrite append_String. cbn [PyStr.replace_char]. rewrite IH. now rewrite string_app_assoc.
Qed.

Lemma is_ascii_app (a b : string) : is_ascii (a ++ b) = is_ascii a && is_ascii b.
Proof.
  induction a as [|c a IH]; [reflexivity|].
  rewrite append_String. cbn [is_ascii]. now rewrite IH, andb_assoc.
Qed.

End StringFacts.

(** X9. [_escape_shell_command] works character by character, although it is
    written as three replacements in a row: the escaped text of a
    concatenation is the concatenation of the escaped texts, and a single
    character becomes itself after a backslash when it is a backquote, a dollar
    or a double quote, and itself otherwise - a backslash included, and the
    backslashes just inserted are not escaped again. *)
Theorem escape_shell_command_by_character :
  (forall a b : string,
     _escape_shell_command (a ++ b) = _escape_shell_command a ++ _escape_shell_command b)
  /\ _escape_shell_command "" = ""
  /\ (forall c : ascii,
        _escape_shell_command (String c "")
        = if Ascii.eqb c "`" || Ascii.eqb c "$" || Ascii.eqb c (ascii_of_nat 34)
          then backslash ++ String c ""
          else String c "").
Proof.
  split; [|split].
  - intros a b. unfold _escape_shell_command. cbn [fold_left].
    now rewrite !replace_char_app.
  - reflexivity.
  - intros c. unfold _escape_shell_command. cbn [fold_left PyStr.replace_char].
    destruct (Ascii.eqb c "`") eqn:H1.
    { apply Ascii.eqb_eq in H1. subst c. reflexivity. }
    destruct (Ascii.eqb c "$") eqn:H2.
    { apply Ascii.eqb_eq in H2. subst c. reflexivity. }
    destruct (Ascii.eqb c (ascii_of_nat 34)) eqn:H3.
    { apply Ascii.eqb_eq in H3. subst c. reflexivity. }
    rewrite append_String, append_empty. cbn [PyStr.replace_char]. rewrite H2.
    rewrite append_String, append_empty. cbn [PyStr.replace_char]. rewrite H3.
    reflexivity.
Qed.

Section ShlexFacts.

(** The two errors of the lexer. *)
Lemma read_raises (s : string) :
  forall state quoted token e,
    Shlex.read state quoted token s = Raise e ->
    e = ValueError "No closing quotation" \/ e = ValueError "No escaped character".
Proof.
  induction s as [|c s IH]; intros state quoted token e.
  - cbn. destruct state; try discriminate; intros [= <-]; auto.
  - cbn [Shlex.read]. destruct state as [| |q|[q|]].
    + destruct (Shlex.is_whitespace c); [apply IH|].
      destruct (Shlex.is_escape c); [apply IH|].
      destruct (Shlex.is_quote c); apply IH.
    + destruct (Shlex.is_whitespace c).
      * destruct (negb (String.eqb token "") || quoted); [|apply IH].
        destruct (Shlex.read Shlex.Blank false "" s) as [rest|e'] eqn:Hrest; [discriminate|].
        cbn. intros [= <-]. eapply IH. exact Hrest.
      * destruct (Shlex.is_quote c); [apply IH|].
        destruct (Shlex.is_escape c); apply IH.
    + destruct (Ascii.eqb c q); [apply IH|].
      destruct (Shlex.is_escape c && Shlex.is_escapedquote q); apply IH.
    + apply IH.
    + apply IH.
Qed.

Lemma plain_char_spec (c : ascii) :
  plain_char c = true ->
  Shlex.is_whitespace c = false /\ Shlex.is_quote c = false /\ Shlex.is_escape c = false.
Proof.
  unfold plain_char. rewrite !andb_true_iff, !negb_true_iff. tauto.
Qed.

Lemma read_plain_chars (wd : string) :
  forall quoted token rest,
    plain_chars wd = true ->
    Shlex.read Shlex.Word quoted token (wd ++ rest)
    = Shlex.read Shlex.Word quoted (token ++ wd) rest.
Proof.
  induction wd as [|c wd IH]; intros quoted token rest.
  - intros _. now rewrite string_app_nil_r.
  - cbn [plain_chars]. rewrite andb_true_iff. intros [Hc Hwd].
    destruct (plain_char_spec c Hc) as (Hw & Hq & He).
    rewrite append_String. cbn [Shlex.read]. rewrite Hw, Hq, He.
    rewrite (IH _ _ _ Hwd). unfold Shlex.add. now rewrite string_app_assoc.
Qed.

Lemma read_plain_word (wd rest : string) :
  plain_word wd = true ->
  Shlex.read Shlex.Blank false "" (wd ++ rest) = Shlex.read Shlex.Word false wd rest.
Proof.
  unfold plain_word. destruct wd as [|c wd]; [discriminate|].
  cbn [String.eqb negb andb plain_chars]. rewrite andb_true_iff. intros [Hc Hwd].
  destruct (plain_char_spec c Hc) as (Hw & Hq & He).
  rewrite append_String. cbn [Shlex.read]. rewrite Hw, Hq, He.
  now rewrite (read_plain_chars wd false _ rest Hwd).
Qed.

Lemma concat_spaced (wd : string) (words : list string) :
  String.concat " " (wd :: words) = wd ++ spaced words.
Proof.
  revert wd. induction words as [|x words IH]; intros wd.
  - cbn. now rewrite string_app_nil_r.
  - cbn [spaced]. rewrite <- IH. reflexivity.
Qed.

Lemma read_spaced (words : list string) :
  forall token,
    token <> "" -> Forall (fun wd => plain_word wd = true) words ->
    Shlex.read Shlex.Word false token (spaced words) = Ok (token :: words).
Proof.
  induction words as [|wd words IH]; intros token Htok Hall.
  - cbn. destruct (String.eqb token "") eqn:He; [|reflexivity].
    apply String.eqb_eq in He. contradiction.
  - inversion Hall as [|? ? Hwd Hrest]; subst.
    cbn [spaced]. change (" " ++ wd ++ spaced words) with (String " " (wd ++ spaced words)).
    cbn [Shlex.read]. change (Shlex.is_whitespace " ") with true. cbn iota.
    destruct (String.eqb token "") eqn:He.
    { apply String.eqb_eq in He. contradiction. }
    cbn [negb orb]. rewrite (read_plain_word wd _ Hwd).
    rewrite IH; [reflexivity| |exact Hrest].
    intros ->. discriminate.
Qed.

Lemma plain_chars_ascii (s : string) : plain_chars s = true -> is_ascii s = true.
Proof.
  induction s as [|c s IH]; [reflexivity|].
  cbn. unfold plain_char. rewrite !andb_true_iff. intros [[_ Hc] Hs]. auto.
Qed.

Lemma spaced_ascii (words : list string) :
  Forall (fun wd => plain_word wd = true) words -> is_ascii (spaced words) = true.
Proof.
  induction 1 as [|wd words Hwd _ IH]; [reflexivity|].
  cbn [spaced]. change (" " ++ wd ++ spaced words) with (String " " (wd ++ spaced words)).
  cbn [is_ascii]. rewrite is_ascii_app, IH.
  unfold plain_word in Hwd. apply andb_true_iff in Hwd. destruct Hwd as [_ Hwd].
  now rewrite (plain_chars_ascii _ Hwd).
Qed.

End ShlexFacts.

(** X10. The command line of a shell command fails to be built only for a job
    that does not run in a shell, and only in three ways: the line holds a
    character that is not ASCII, a quotation is not closed, or the line ends
    with the escape character.  A line that runs in a shell is never
    rejected. *)
Theorem popen_command_errors (self : Job) (e : PyExc) :
  popen_command self = Raise e ->
  run_in_shell self = false
  /\ (e = UnicodeEncodeError "'ascii' codec can't encode character: ordinal not in range(128)"
        /\ is_ascii (shell_command self ++ " " ++ args self) = false
      \/ e = ValueError "No closing quotation"
      \/ e = ValueError "No escaped character").
Proof.
  unfold popen_command, encode_ascii.
  destruct (run_in_shell self); [discriminate|].
  destruct (is_ascii (shell_command self ++ " " ++ args self)) eqn:Ha; cbn [res_bind].
  - destruct (Shlex.split _) as [argv|e'] eqn:Hs; cbn [res_bind]; [discriminate|].
    intros [= <-]. split; [reflexivity|]. right. exact (read_raises _ _ _ _ _ Hs).
  - intros [= <-]. split; [reflexivity|]. left. auto.
Qed.

Lemma popen_command_errors_witness :
  run_in_shell Cases.unbalanced_job = false
  /\ (ValueError "No closing quotation"
      = UnicodeEncodeError "'ascii' codec can't encode character: ordinal not in range(128)"
        /\ is_ascii (shell_command Cases.unbalanced_job ++ " " ++ args Cases.unbalanced_job)
           = false
      \/ ValueError "No closing quotation" = ValueError "No closing quotation"
      \/ ValueError "No closing quotation" = ValueError "No escaped character").
Proof.
  apply (popen_command_errors Cases.unbalanced_job). vm_compute. reflexivity.
Defined.

(** X11. For a job that does not run in a shell, whose shell command is one
    plain word and whose arguments are plain words separated by single
    spaces - ASCII characters other than white space, quotes and the
    backslash - the program is started with exactly these words as its
    argument vector. *)
Theorem popen_command_plain_words (self : Job) (words : list string) :
  run_in_shell self = false ->
  plain_word (shell_command self) = true ->
  Forall (fun wd => plain_word wd = true) words ->
  args self = String.concat " " words ->
  popen_command self = Ok (ArgVector (shell_command self :: words)).
Proof.
  intros Hsh Hcmd Hwords Hargs.
  assert (shell_command self <> "") as Hne.
  { intros He. rewrite He in Hcmd. discriminate. }
  assert (is_ascii (shell_command self) = true) as Hascii.
  { apply plain_chars_ascii. unfold plain_word in Hcmd. now apply andb_true_iff in Hcmd. }
  unfold popen_command, encode_ascii, Shlex.split. rewrite Hsh, Hargs.
  destruct words as [|wd words].
  - cbn [String.concat]. change (" " ++ "") with (String " " "").
    rewrite is_ascii_app, Hascii. cbn [is_ascii andb res_bind].
    change (nat_of_ascii " " <? 128)%nat with true. cbn [andb res_bind].
    rewrite (read_plain_word _ _ Hcmd). cbn [Shlex.read].
    change (Shlex.is_whitespace " ") with true. cbn iota.
    destruct (String.eqb (shell_command self) "") eqn:He; [|reflexivity].
    apply String.eqb_eq in He. contradiction.
  - rewrite concat_spaced.
    change (" " ++ wd ++ spaced words) with (spaced (wd :: words)).
    rewrite is_ascii_app, Hascii, (spaced_ascii _ Hwords). cbn [andb res_bind].
    rewrite (read_plain_word _ _ Hcmd), (read_spaced _ _ Hne Hwords). reflexivity.
Qed.

Lemma popen_command_plain_words_witness :
  popen_command Cases.backup_job = Ok (ArgVector ["backup"; "--fast"; "/srv/www"]).
Proof.
  apply (popen_command_plain_words Cases.backup_job ["--fast"; "/srv/www"]).
  - reflexivity.
  - reflexivity.
  - repeat constructor.
  - reflexivity.
Defined.

(** ** The time until the next run *)

Section DisplayFacts.

Variable second : Z.
Hypothesis second_pos : 0 < second.

Lemma timedelta_days_neg (d : Z) : (timedelta_days second d <? 0) = true <-> d < 0.
Proof.
  unfold timedelta_days. rewrite Z.ltb_lt.
  assert (0 < 86400 * second) as Hday by lia.
  split; intros H.
  - destruct (Z.lt_ge_cases d 0) as [|Hd]; [assumption|].
    pose proof (Z.div_pos d (86400 * second) Hd Hday). lia.
  - apply Z.div_lt_upper_bound; lia.
Qed.

Lemma timedelta_days_nonneg (d : Z) : 0 <= d -> (timedelta_days second d <? 0) = false.
Proof.
  intros Hd. destruct (timedelta_days second d <? 0) eqn:H; [|reflexivity].
  apply timedelta_days_neg in H. lia.
Qed.

Lemma timedelta_seconds_within_day (r k : Z) :
  0 <= r < 86400 * second ->
  timedelta_seconds second (r + k * (86400 * second)) = r `div` second.
Proof.
  intros Hr. unfold timedelta_seconds.
  rewrite Z.mod_add by lia. now rewrite Z.mod_small.
Qed.

End DisplayFacts.

(** X12. A job that [due] returns is displayed by [get_timeuntil] as [due], or
    as [0 seconds] when its [next_run] is this very instant: [due] compares
    with [<=], [get_timeuntil] tests for a negative number of days. *)
Theorem due_job_is_displayed_as_due (second : Z) (timeuntil : Time -> Time -> string)
    (w : World) (j : Job) :
  0 < second ->
  j ∈ due w ->
  get_timeuntil second timeuntil j w = (Ok "due", w)
  \/ (next_run j = Some (clock w)
      /\ get_timeuntil second timeuntil j w = (Ok "0 seconds", w)).
Proof.
  intros Hsec Hdue. apply due_elim in Hdue.
  destruct Hdue as (_ & Hd & _ & t & Ht & Hle).
  unfold get_timeuntil, bind, now, ret. rewrite Hd, Ht.
  destruct (Z.eq_dec t (clock w)) as [->|Hne].
  - right. split; [reflexivity|].
    rewrite Z.sub_diag. unfold timedelta_days, timedelta_seconds.
    rewrite Zmod_0_l, !Zdiv_0_l. reflexivity.
  - left. rewrite (proj2 (timedelta_days_neg second Hsec (t - clock w))) by lia.
    reflexivity.
Qed.

Lemma due_job_is_displayed_as_due_witness :
  get_timeuntil 1 (fun _ _ => "later") (set_is_running false Cases.stuck_job)
                Cases.overdue_world
  = (Ok "due", Cases.overdue_world)
  \/ (next_run (set_is_running false Cases.stuck_job) = Some (clock Cases.overdue_world)
      /\ get_timeuntil 1 (fun _ _ => "later") (set_is_running false Cases.stuck_job)
                       Cases.overdue_world
         = (Ok "0 seconds", Cases.overdue_world)).
Proof.
  apply (due_job_is_displayed_as_due 1 (fun _ _ => "later")).
  - lia.
  - vm_compute. left.
Defined.

(** X13. The seconds that [get_timeuntil] shows are those of [delta.seconds],
    which counts within the day: a job whose next run is [k] whole days and
    less than a minute away is displayed as that many seconds, as if it were
    to run within the minute. *)
Theorem get_timeuntil_ignores_whole_days (second : Z) (timeuntil : Time -> Time -> string)
    (self : Job) (w : World) (n k : Z) :
  0 < second ->
  disabled self = false ->
  next_run self = Some (n + k * (86400 * second)) ->
  clock w <= n < clock w + 60 * second ->
  0 <= k ->
  get_timeuntil second timeuntil self w
  = (Ok (PyStr.format_d ((n - clock w) `div` second) ++ " "
         ++ (if (n - clock w) `div` second =? 1 then "second" else "seconds")), w).
Proof.
  intros Hsec Hd Hn Hrange Hk.
  unfold get_timeuntil, bind, now, ret. rewrite Hd, Hn.
  replace (n + k * (86400 * second) - clock w)
    with ((n - clock w) + k * (86400 * second)) by lia.
  rewrite (timedelta_days_nonneg second Hsec) by nia.
  rewrite (timedelta_seconds_within_day second Hsec) by lia.
  assert (((n - clock w) `div` second <? 60) = true) as ->.
  { apply Z.ltb_lt. apply Z.div_lt_upper_bound; lia. }
  reflexivity.
Qed.

(** Three days and five seconds before the next run. *)
Lemma get_timeuntil_ignores_whole_days_witness :
  get_timeuntil 1 (fun _ _ => "3 days")
                (set_next_run (Some (5 + 3 * (86400 * 1))) Sample.report_job) (Sample.boot 0)
  = (Ok (PyStr.format_d ((5 - 0) `div` 1) ++ " "
         ++ (if (5 - 0) `div` 1 =? 1 then "second" else "seconds")), Sample.boot 0).
Proof.
  apply (get_timeuntil_ignores_whole_days 1 (fun _ _ => "3 days")
           (set_next_run (Some (5 + 3 * (86400 * 1))) Sample.report_job) (Sample.boot 0) 5 3).
  - lia.
  - reflexivity.
  - reflexivity.
  - cbn. lia.
  - lia.
Defined.

(** X14. After the run that used up its rule, a job that is not disabled can
    no longer be displayed: [run] stored it with a null [next_run], from which
    [get_timeuntil] subtracts the current time, so that [get_timeuntil] and
    [__unicode__] raise [TypeError] from then on; and [due] never returns it. *)
Theorem spent_job_cannot_be_displayed (env : Env) (second : Z)
    (timeuntil : Time -> Time -> string) (self : Job) (w w' : World) :
  disabled self = false ->
  NextOccurrence env self (clock w) = Ok None ->
  run env self true w = (Ok tt, w') ->
  exists stored,
    jobs w' !! id self = Some stored
    /\ forall w'',
         get_timeuntil second timeuntil stored w''
         = (Raise (TypeError
                     "unsupported operand type(s) for -: 'NoneType' and 'datetime.datetime'"),
            w'')
         /\ Job_unicode second timeuntil stored w''
            = (Raise (TypeError
                        "unsupported operand type(s) for -: 'NoneType' and 'datetime.datetime'"),
               w'')
         /\ stored ∉ due w''.
Proof.
  intros Hd Hocc Hrun.
  destruct (run_stores_next_occurrence env self w w' Hd Hrun)
    as (stored & Hget & Hset & _ & Hnext).
  exists stored. split; [exact Hget|]. intros w''.
  assert (next_run stored = None) as Hn by congruence.
  assert (disabled stored = false) as Hds by (rewrite (settings_disabled _ _ Hset); exact Hd).
  assert (get_timeuntil second timeuntil stored w''
          = (Raise (TypeError
                      "unsupported operand type(s) for -: 'NoneType' and 'datetime.datetime'"),
             w'')) as Hget_timeuntil.
  { unfold get_timeuntil, bind, now. now rewrite Hds, Hn. }
  split; [exact Hget_timeuntil|]. split.
  - unfold Job_unicode, bind. now rewrite Hds, Hget_timeuntil.
  - intros Hdue. apply due_elim in Hdue. destruct Hdue as (_ & _ & _ & t & Ht & _).
    congruence.
Qed.

Lemma spent_job_cannot_be_displayed_witness :
  exists stored,
    jobs (snd (run Sample.env Sample.once_job true (Sample.boot 1000))) !! 5 = Some stored
    /\ forall w'',
         get_timeuntil 1 (fun _ _ => "later") stored w''
         = (Raise (TypeError
                     "unsupported operand type(s) for -: 'NoneType' and 'datetime.datetime'"),
            w'')
         /\ Job_unicode 1 (fun _ _ => "later") stored w''
            = (Raise (TypeError
                        "unsupported operand type(s) for -: 'NoneType' and 'datetime.datetime'"),
               w'')
         /\ stored ∉ due w''.
Proof.
  apply (spent_job_cannot_be_displayed Sample.env 1 (fun _ _ => "later") Sample.once_job
           (Sample.boot 1000)).
  - reflexivity.
  - vm_compute. reflexivity.
  - vm_compute. reflexivity.
Defined.

(** ** The admin *)

Section AdminFacts.

(** The rows after [queryset.update]. *)
Lemma queryset_update_lookup (queryset : gset Z) (f : Job -> Job) (w : World) (pk : Z) :
  jobs (snd (admin.queryset_update queryset f w)) !! pk
  = (fun j => if decide (pk ∈ queryset) then f j else j) <$> jobs w !! pk.
Proof.
  unfold admin.queryset_update. cbn. rewrite map_lookup_imap.
  now destruct (jobs w !! pk).
Qed.

Lemma length_zero (s : string) : Nat.eqb (String.length s) 0 = String.eqb s "".
Proof. now destruct s. Qed.

Lemma substring_head (n : nat) (s : string) :
  (n <= String.length s)%nat ->
  String.length (substring 0 n s) = n /\ exists tail, s = substring 0 n s ++ tail.
Proof.
  revert s. induction n as [|n IH]; intros s Hn.
  - destruct s; cbn; split; try reflexivity; eexists; reflexivity.
  - destruct s as [|c s]; [cbn in Hn; lia|].
    cbn in Hn. destruct (IH s) as [Hlen [tail Htail]]; [lia|].
    cbn [substring]. split; [cbn; now rewrite Hlen|].
    exists tail. rewrite append_String. now rewrite <- Htail.
Qed.

(** The text that [output] and [errors] escape. *)
Lemma shorten_spec (s : string) :
  (String.length (admin.shorten s) <= 43)%nat
  /\ ((String.length s <= 40)%nat -> admin.shorten s = s)
  /\ ((40 < String.length s)%nat ->
      exists head tail,
        s = head ++ tail /\ String.length head = 40%nat /\ admin.shorten s = head ++ "...").
Proof.
  unfold admin.shorten.
  destruct (40 <? String.length s)%nat eqn:Hlen.
  - apply Nat.ltb_lt in Hlen.
    destruct (substring_head 40 s) as [H40 [tail Htail]]; [lia|].
    split; [rewrite string_length_app, H40; cbn; lia|].
    split; [lia|]. intros _. eexists _, tail.
    split; [exact Htail|]. split; [exact H40|reflexivity].
  - apply Nat.ltb_ge in Hlen. split; [lia|]. split; [reflexivity|]. lia.
Qed.

End AdminFacts.

(** X15. [reset_jobs] makes a selected job that was left marked as running due
    again when it is not disabled and its [next_run] has passed: its row has
    the running flag cleared and is otherwise unchanged, and [due] returns it.
    The rows that are not selected and the logs are left alone. *)
Theorem reset_jobs_makes_job_due (queryset : gset Z) (w : World) (pk : Z) (j : Job) (t : Time) :
  jobs w !! pk = Some j -> pk ∈ queryset ->
  disabled j = false -> next_run j = Some t -> t <= clock w ->
  exists n w',
    admin.reset_jobs queryset w = (Ok n, w')
    /\ jobs w' !! pk = Some (set_is_running false j)
    /\ set_is_running false j ∈ due w'
    /\ (forall pk', pk' ∉ queryset -> jobs w' !! pk' = jobs w !! pk')
    /\ logs w' = logs w /\ outbox w' = outbox w /\ clock w' = clock w.
Proof.
  intros Hpk Hin Hd Hn Ht.
  eexists _, _. split; [reflexivity|].
  assert (jobs (snd (admin.reset_jobs queryset w)) !! pk = Some (set_is_running false j))
    as Hrow.
  { unfold admin.reset_jobs. rewrite queryset_update_lookup, Hpk. cbn.
    now rewrite decide_True. }
  split; [exact Hrow|]. split.
  - apply (due_intro _ _ pk t); [exact Hrow|exact Hd|reflexivity|exact Hn|exact Ht].
  - split; [|auto].
    intros pk' Hout.
    change (jobs (snd (admin.reset_jobs queryset w)) !! pk' = jobs w !! pk').
    unfold admin.reset_jobs. rewrite queryset_update_lookup.
    destruct (jobs w !! pk'); [|reflexivity]. cbn. now rewrite decide_False.
Qed.

Lemma reset_jobs_makes_job_due_witness :
  exists n w',
    admin.reset_jobs {[1]} Cases.stuck_world = (Ok n, w')
    /\ jobs w' !! 1 = Some (set_is_running false Cases.stuck_job)
    /\ set_is_running false Cases.stuck_job ∈ due w'
    /\ (forall pk', pk' ∉ ({[1]} : gset Z) -> jobs w' !! pk' = jobs Cases.stuck_world !! pk')
    /\ logs w' = logs Cases.stuck_world /\ outbox w' = outbox Cases.stuck_world
    /\ clock w' = clock Cases.stuck_world.
Proof.
  apply (reset_jobs_makes_job_due {[1]} Cases.stuck_world 1 Cases.stuck_job 2000).
  - reflexivity.
  - now apply elem_of_singleton.
  - reflexivity.
  - reflexivity.
  - cbn. lia.
Defined.

(** X16. [disable_jobs] writes [disabled] into the rows of the selected jobs
    and nothing else: unlike [save], it leaves their [next_run] set.  The jobs
    that [due] returns afterwards are those it returned before whose row is
    not selected. *)
Theorem disable_jobs_removes_from_due (queryset : gset Z) (w : World) :
  exists n w',
    admin.disable_jobs queryset w = (Ok n, w')
    /\ (forall pk j, jobs w !! pk = Some j -> pk ∈ queryset ->
          jobs w' !! pk = Some (set_disabled true j)
          /\ next_run (set_disabled true j) = next_run j)
    /\ (forall pk, pk ∉ queryset -> jobs w' !! pk = jobs w !! pk)
    /\ (forall j, j ∈ due w' <->
                  j ∈ due w /\ exists pk, (pk ∉ queryset) /\ jobs w !! pk = Some j).
Proof.
  eexists _, _. split; [reflexivity|].
  assert (forall pk, jobs (snd (admin.disable_jobs queryset w)) !! pk
                     = (fun j => if decide (pk ∈ queryset) then set_disabled true j else j)
                         <$> jobs w !! pk) as Hrows.
  { intros pk. apply queryset_update_lookup. }
  change (snd (admin.queryset_update queryset (set_disabled true) w))
    with (snd (admin.disable_jobs queryset w)).
  split; [|split].
  - intros pk j Hpk Hin. rewrite Hrows, Hpk. cbn. now rewrite decide_True.
  - intros pk Hout. rewrite Hrows. destruct (jobs w !! pk); [|reflexivity].
    cbn. now rewrite decide_False.
  - intros j. split.
    + intros Hdue. apply due_elim in Hdue.
      destruct Hdue as ((pk & Hpk) & Hd & Hr & t & Ht & Hle).
      rewrite Hrows in Hpk. destruct (jobs w !! pk) as [j0|] eqn:Hj0; [|discriminate].
      cbn in Hpk. destruct (decide (pk ∈ queryset)) as [Hin|Hout].
      * injection Hpk as <-. discriminate.
      * injection Hpk as ->. split; [|eauto].
        apply (due_intro w j pk t); assumption.
    + intros (Hdue & pk & Hout & Hpk). apply due_elim in Hdue.
      destruct Hdue as (_ & Hd & Hr & t & Ht & Hle).
      apply (due_intro _ j pk t); try assumption.
      rewrite Hrows, Hpk. cbn. now rewrite decide_False.
Qed.

(** The overdue job of the samples, disabled by the action. *)
Lemma disable_jobs_removes_from_due_witness :
  exists n w',
    admin.disable_jobs {[1]} Cases.overdue_world = (Ok n, w')
    /\ jobs w' !! 1 = Some (set_disabled true (set_is_running false Cases.stuck_job))
    /\ next_run (set_disabled true (set_is_running false Cases.stuck_job)) = Some 2000
    /\ set_is_running false Cases.stuck_job ∉ due w'.
Proof.
  destruct (disable_jobs_removes_from_due {[1]} Cases.overdue_world)
    as (n & w' & Heq & Hsel & _ & Hdue).
  exists n, w'. split; [exact Heq|].
  destruct (Hsel 1 (set_is_running false Cases.stuck_job) eq_refl
              (proj2 (elem_of_singleton 1 1) eq_refl))
    as [Hrow Hnext].
  split; [exact Hrow|]. split; [exact Hnext|].
  intros H. apply Hdue in H. destruct H as (_ & pk & Hout & Hpk).
  unfold Cases.overdue_world in Hpk. cbn [jobs] in Hpk.
  apply lookup_singleton_Some in Hpk. destruct Hpk as [<- _].
  apply Hout. now apply elem_of_singleton.
Defined.

(** X17. The form of a job rejects the data exactly when both the command and
    the shell command are filled in (white space aside), in [clean] and in
    [clean_shell_command] alike; data with neither of them is accepted, and
    the shell command is returned as typed. *)
Theorem JobForm_rejects_exactly_both (cleaned_data : gmap string string) :
  let command := PyStr.strip (default "" (cleaned_data !! "command")) in
  let shell_command := PyStr.strip (default "" (cleaned_data !! "shell_command")) in
  (command <> "" /\ shell_command <> "" ->
   admin.clean cleaned_data
   = Raise (ValidationError "Must specify either command or shell command")
   /\ admin.clean_shell_command cleaned_data
      = Raise (ValidationError
                 "Can't specify a shell_command if a django admin command is already specified"))
  /\ (command = "" \/ shell_command = "" ->
      admin.clean cleaned_data = Ok cleaned_data
      /\ forall v, cleaned_data !! "shell_command" = Some v ->
                   admin.clean_shell_command cleaned_data = Ok v).
Proof.
  intros command shell_command.
  unfold admin.clean, admin.clean_shell_command. rewrite !length_zero.
  fold command. fold shell_command.
  split.
  - intros [Hc Hs].
    apply String.eqb_neq in Hc, Hs. now rewrite Hc, Hs.
  - intros H.
    assert (negb (String.eqb command "") && negb (String.eqb shell_command "") = false) as ->.
    { destruct H as [->| ->]; [reflexivity|]. now rewrite andb_false_r. }
    split; [reflexivity|]. now intros v ->.
Qed.

(** Data with both commands are rejected; data with neither are accepted. *)
Lemma JobForm_rejects_exactly_both_witness :
  (admin.clean Cases.both
   = Raise (ValidationError "Must specify either command or shell command")
   /\ admin.clean_shell_command Cases.both
      = Raise (ValidationError
                 "Can't specify a shell_command if a django admin command is already specified"))
  /\ (admin.clean Cases.neither = Ok Cases.neither
      /\ forall v, Cases.neither !! "shell_command" = Some v ->
                   admin.clean_shell_command Cases.neither = Ok v).
Proof.
  split.
  - apply (proj1 (JobForm_rejects_exactly_both Cases.both)).
    split; vm_compute; discriminate.
  - apply (proj2 (JobForm_rejects_exactly_both Cases.neither)).
    left. vm_compute. reflexivity.
Defined.

(** X18. The columns [output] and [errors] of the list of logs never show
    more than the first 40 characters of the text, followed by three dots when
    something was cut: the text handed to [escape] is the text itself when it
    has at most 40 characters, and otherwise its first 40 characters and the
    dots, 43 characters in all; and the column is never empty. *)
Theorem LogAdmin_shows_the_first_40_characters (escape : string -> string) (obj : Log) :
  exists shown_out shown_err,
    admin.output escape obj
    = (if String.eqb (escape shown_out) "" then "(No output)" else escape shown_out)
    /\ admin.errors escape obj
       = (if String.eqb (escape shown_err) "" then "(No errors)" else escape shown_err)
    /\ admin.output escape obj <> "" /\ admin.errors escape obj <> ""
    /\ (String.length shown_out <= 43)%nat /\ (String.length shown_err <= 43)%nat
    /\ ((String.length (stdout obj) <= 40)%nat -> shown_out = stdout obj)
    /\ ((String.length (stderr obj) <= 40)%nat -> shown_err = stderr obj)
    /\ ((40 < String.length (stdout obj))%nat ->
        exists head tail,
          stdout obj = head ++ tail /\ String.length head = 40%nat
          /\ shown_out = head ++ "...")
    /\ ((40 < String.length (stderr obj))%nat ->
        exists head tail,
          stderr obj = head ++ tail /\ String.length head = 40%nat
          /\ shown_err = head ++ "...").
Proof.
  exists (admin.shorten (stdout obj)), (admin.shorten (stderr obj)).
  destruct (shorten_spec (stdout obj)) as (Ho1 & Ho2 & Ho3).
  destruct (shorten_spec (stderr obj)) as (He1 & He2 & He3).
  split; [reflexivity|]. split; [reflexivity|].
  split.
  { unfold admin.output. cbv zeta.
    destruct (String.eqb (escape (admin.shorten (stdout obj))) "") eqn:He; [discriminate|].
    now apply String.eqb_neq in He. }
  split.
  { unfold admin.errors. cbv zeta.
    destruct (String.eqb (escape (admin.shorten (stderr obj))) "") eqn:He; [discriminate|].
    now apply String.eqb_neq in He. }
  auto 10.
Qed.

(** A log with 50 characters of output and no error output, without
    escaping. *)
Lemma LogAdmin_shows_the_first_40_characters_witness :
  admin.output (fun s => s) Cases.long_log = "0123456789012345678901234567890123456789..."
  /\ admin.errors (fun s => s) Cases.long_log = "(No errors)".
Proof.
  destruct (LogAdmin_shows_the_first_40_characters (fun s => s) Cases.long_log)
    as (shown_out & shown_err & Hout & Herr & _ & _ & _ & _ & _ & Hshort & Hlong & _).
  rewrite Hout, Herr, (Hshort ltac:(cbn; lia)).
  destruct (Hlong ltac:(cbn; lia)) as (head & tail & Hsplit & Hlen & ->).
  assert (head = "0123456789012345678901234567890123456789") as ->.
  { cbn [stdout Cases.long_log] in Hsplit.
    do 40 (destruct head as [|? head]; [discriminate Hlen|];
           rewrite append_String in Hsplit; injection Hsplit as <- Hsplit;
           cbn [String.length] in Hlen; apply Nat.succ_inj in Hlen).
    destruct head; [reflexivity|discriminate Hlen]. }
  split; reflexivity.
Defined.

(** ** The command [cron_clean] *)

Section CleanFacts.

Variable second : Z.
Variable datetime_min datetime_max : Time.
Variable too_many_days : Z -> string.

Lemma handle_ok (unit : cron_clean.Unit) (amount : Z) (w w' : World) :
  cron_clean.handle second datetime_min datetime_max too_many_days unit amount w
  = (Ok tt, w') ->
  cron_clean.timedelta second too_many_days unit amount
  = Ok (amount * cron_clean.unit_seconds unit * second)
  /\ cron_clean.datetime_sub datetime_min datetime_max (clock w)
       (amount * cron_clean.unit_seconds unit * second)
     = Ok (clock w - amount * cron_clean.unit_seconds unit * second)
  /\ w' = with_logs
            (List.filter
               (fun l => negb (run_date l <=?
                               clock w - amount * cron_clean.unit_seconds unit * second))
               (logs w)) w.
Proof.
  unfold cron_clean.handle, bind, now, lift, cron_clean.timedelta, cron_clean.datetime_sub.
  destruct (Z.abs _ <=? 999999999); [|discriminate].
  destruct ((datetime_min <=? _) && (_ <=? datetime_max)); [|discriminate].
  intros [= <-]. auto.
Qed.

Lemma handle_raise (unit : cron_clean.Unit) (amount : Z) (w w' : World) (e : PyExc) :
  cron_clean.handle second datetime_min datetime_max too_many_days unit amount w
  = (Raise e, w') ->
  w' = w /\ exc_class e = "OverflowError".
Proof.
  unfold cron_clean.handle, bind, now, lift, cron_clean.timedelta, cron_clean.datetime_sub.
  destruct (Z.abs _ <=? 999999999).
  - destruct ((datetime_min <=? _) && (_ <=? datetime_max)); [discriminate|].
    intros [= <- <-]. auto.
  - intros [= <- <-]. auto.
Qed.

Lemma filter_sublist {A} (p : A -> bool) (l : list A) : sublist (List.filter p l) l.
Proof.
  induction l as [|x l IH]; [constructor|].
  cbn. destruct (p x); now constructor.
Qed.

Lemma filter_twice {A} (p q : A -> bool) (l : list A) :
  List.filter p (List.filter q l) = List.filter (fun x => q x && p x) l.
Proof.
  induction l as [|x l IH]; [reflexivity|].
  cbn. destruct (q x); cbn; [destruct (p x)|]; now rewrite IH.
Qed.

End CleanFacts.

(** X19. [cron_clean] keeps the logs that started less than the given amount
    of time ago, in their order, and deletes the others; it leaves the jobs
    alone.  Its only error is the [OverflowError] of an amount that takes the
    date out of the calendar, and it deletes nothing then. *)
Theorem cron_clean_keeps_the_recent_logs (second : Z) (datetime_min datetime_max : Time)
    (too_many_days : Z -> string) (unit : cron_clean.Unit) (amount : Z)
    (w : World) (res : Res ()) (w' : World) :
  cron_clean.handle second datetime_min datetime_max too_many_days unit amount w = (res, w') ->
  jobs w' = jobs w /\ outbox w' = outbox w /\ clock w' = clock w
  /\ match res with
     | Ok _ =>
         sublist (logs w') (logs w)
         /\ forall l, l ∈ logs w' <->
                      l ∈ logs w
                      /\ clock w - run_date l < amount * cron_clean.unit_seconds unit * second
     | Raise e => exc_class e = "OverflowError" /\ logs w' = logs w
     end.
Proof.
  destruct res as [[]|e]; intros H.
  - destruct (handle_ok _ _ _ _ _ _ _ _ H) as (_ & _ & ->). cbn.
    split; [reflexivity|]. split; [reflexivity|]. split; [reflexivity|].
    split; [apply filter_sublist|].
    intros l. rewrite !list_elem_of_In, filter_In, negb_true_iff, Z.leb_gt.
    split; intros [Hin Hlt]; (split; [exact Hin|lia]).
  - destruct (handle_raise _ _ _ _ _ _ _ _ _ H) as (-> & He). auto.
Qed.

(** One week, at time 800000, with a log of time 100 and one of time 700000. *)
Lemma cron_clean_keeps_the_recent_logs_witness :
  let w' := snd (cron_clean.handle 1 Cases.datetime_min Cases.datetime_max (fun _ => "")
                   cron_clean.weeks 1 Cases.week_of_logs) in
  jobs w' = jobs Cases.week_of_logs /\ outbox w' = outbox Cases.week_of_logs
  /\ clock w' = clock Cases.week_of_logs
  /\ sublist (logs w') (logs Cases.week_of_logs)
  /\ forall l, l ∈ logs w' <->
               l ∈ logs Cases.week_of_logs
               /\ clock Cases.week_of_logs - run_date l
                  < 1 * cron_clean.unit_seconds cron_clean.weeks * 1.
Proof.
  apply (cron_clean_keeps_the_recent_logs 1 Cases.datetime_min Cases.datetime_max
           (fun _ => "") cron_clean.weeks 1 Cases.week_of_logs (Ok tt)).
  vm_compute. reflexivity.
Defined.

(** X20. Cleaning twice in a row, with two amounts of the same unit, leaves
    what cleaning once with the smaller amount leaves; in particular cleaning
    again with the same amount deletes nothing more. *)
Theorem cron_clean_twice (second : Z) (datetime_min datetime_max : Time)
    (too_many_days : Z -> string) (unit : cron_clean.Unit) (a b : Z) (w w1 w2 : World) :
  0 <= second ->
  cron_clean.handle second datetime_min datetime_max too_many_days unit a w = (Ok tt, w1) ->
  cron_clean.handle second datetime_min datetime_max too_many_days unit b w1 = (Ok tt, w2) ->
  cron_clean.handle second datetime_min datetime_max too_many_days unit (Z.min a b) w
  = (Ok tt, w2).
Proof.
  intros Hsec Ha Hb.
  destruct (handle_ok _ _ _ _ _ _ _ _ Ha) as (Hda & Hsa & ->).
  destruct (handle_ok _ _ _ _ _ _ _ _ Hb) as (Hdb & Hsb & ->).
  cbn [clock with_logs logs] in *.
  assert (0 <= cron_clean.unit_seconds unit) as Hu by (destruct unit; cbn; lia).
  unfold cron_clean.handle, bind, now, lift.
  assert (cron_clean.timedelta second too_many_days unit (Z.min a b)
          = Ok (Z.min a b * cron_clean.unit_seconds unit * second)
          /\ cron_clean.datetime_sub datetime_min datetime_max (clock w)
               (Z.min a b * cron_clean.unit_seconds unit * second)
             = Ok (clock w - Z.min a b * cron_clean.unit_seconds unit * second)) as [-> ->].
  { destruct (Z.min_spec a b) as [[_ ->]|[_ ->]]; auto. }
  f_equal. rewrite filter_twice. unfold with_logs. cbn. f_equal.
  apply filter_ext. intros l.
  assert (forall x y, x <= y ->
            x * cron_clean.unit_seconds unit * second
            <= y * cron_clean.unit_seconds unit * second) as Hmono.
  { intros x y Hxy. apply Z.mul_le_mono_nonneg_r; [exact Hsec|].
    apply Z.mul_le_mono_nonneg_r; [exact Hu|exact Hxy]. }
  destruct (Z.min_spec a b) as [[Hab ->]|[Hab ->]].
  - destruct (run_date l <=? clock w - a * cron_clean.unit_seconds unit * second) eqn:H1;
      [reflexivity|]. cbn.
    apply Z.leb_gt in H1. symmetry. apply negb_true_iff, Z.leb_gt.
    pose proof (Hmono a b (Z.lt_le_incl _ _ Hab)). lia.
  - destruct (run_date l <=? clock w - b * cron_clean.unit_seconds unit * second) eqn:H1.
    + now rewrite andb_false_r.
    + rewrite andb_true_r. apply Z.leb_gt in H1. cbn. symmetry.
      apply negb_true_iff, Z.leb_gt. pose proof (Hmono b a Hab). lia.
Qed.

(** Fourteen days, then two days. *)
Lemma cron_clean_twice_witness :
  cron_clean.handle 1 Cases.datetime_min Cases.datetime_max (fun _ => "") cron_clean.days
    (Z.min 14 2) Cases.week_of_logs
  = (Ok tt, with_logs [Cases.recent_log] Cases.week_of_logs).
Proof.
  apply (cron_clean_twice 1 Cases.datetime_min Cases.datetime_max (fun _ => "")
           cron_clean.days 14 2 Cases.week_of_logs Cases.week_of_logs).
  - lia.
  - vm_compute. reflexivity.
  - vm_compute. reflexivity.
Defined.
